(** * TaskFlow: the task / time-entry / activity services, embedded and verified

    A shallow embedding of the API services of the TaskFlow monorepo
    (apps/api/src/application/services, the validators, the repositories they
    talk to and the comment controller), followed by the properties of the
    services.

    Conventions of the embedding.
    - A JavaScript [Date] is its [getTime()] value, an integer number of
      milliseconds (type [Date] below); dates are compared through it, as
      the relational operators of JavaScript do.  Invalid dates are left out.
    - A JavaScript [number] that holds a duration or a total is an integer
      ([Z]); [Math.floor(x / 1000)] on an integer [x] is [x / 1000] in [Z].
    - A JavaScript string is a [string]; [length] is [String.length] and
      [===] is [String.eqb].
    - An [async] function is a computation over the [World] (the repositories,
      the clock and the UUID source) that either returns a value or throws an
      [Error] with a message.  The services throw plain [Error]s, so the
      message is what tells the failures apart.
    - [logger] calls have no effect on the [World] and are left out. *)

From Stdlib Require Import ZArith List String Ascii Bool Lia.
From Stdlib Require Import Sorting.Sorted Permutation DecimalString.
From Stdlib Require Import Relations.Relation_Definitions Classes.RelationClasses.
From Stdlib Require Import Structures.OrderedTypeEx.
Import ListNotations.

Local Open Scope string_scope.
Local Open Scope Z_scope.

(* ------------------------------------------------------------------ *)
(** ** JavaScript [Map<string, V>]: insertion ordered, keys compared by [===] *)

Module JsMap.

Definition t (V : Type) : Type := list (string * V).

Definition empty {V : Type} : t V := [].

Fixpoint get {V : Type} (k : string) (m : t V) : option V :=
  match m with
  | [] => None
  | (k', v) :: m' => if String.eqb k k' then Some v else get k m'
  end.

(** [set] on a key already present keeps the key's position. *)
Fixpoint set {V : Type} (k : string) (v : V) (m : t V) : t V :=
  match m with
  | [] => [(k, v)]
  | (k', v') :: m' =>
      if String.eqb k k' then (k, v) :: m' else (k', v') :: set k v m'
  end.

Definition keys {V : Type} (m : t V) : list string := map fst m.

Definition values {V : Type} (m : t V) : list V := map snd m.

End JsMap.

(* ------------------------------------------------------------------ *)
(** ** Enumerations and entities *)

Definition Date : Type := Z.

(** Modelled from the spec: the enums [TaskStatus], [Priority] and [Role]
    and the [BaseEntity] class that every entity extends are not among the
    sources.  The members of the enums are those of the data model of the
    specification; [BaseEntity] gives every entity its [id], [createdAt] and
    [updatedAt], the two dates being the time of construction unless given.
    The entities themselves follow their classes, the fields in the order of
    the constructors. *)

Inductive TaskStatus : Type := TODO | IN_PROGRESS | DONE.

Inductive Priority : Type := LOW | MEDIUM | HIGH.

Inductive Role : Type := ADMIN | MEMBER.

Inductive ActivityType : Type :=
| TASK_CREATED
| TASK_ASSIGNED
| TASK_STATUS_CHANGED
| TASK_PRIORITY_CHANGED
| TASK_DUE_DATE_CHANGED
| TASK_TAGS_CHANGED
| TIMER_STARTED
| TIMER_STOPPED
| COMMENT_ADDED.

Definition TaskStatus_eqb (a b : TaskStatus) : bool :=
  match a, b with
  | TODO, TODO | IN_PROGRESS, IN_PROGRESS | DONE, DONE => true
  | _, _ => false
  end.

Definition Priority_eqb (a b : Priority) : bool :=
  match a, b with
  | LOW, LOW | MEDIUM, MEDIUM | HIGH, HIGH => true
  | _, _ => false
  end.

Definition Role_eqb (a b : Role) : bool :=
  match a, b with
  | ADMIN, ADMIN | MEMBER, MEMBER => true
  | _, _ => false
  end.

Definition ActivityType_eqb (a b : ActivityType) : bool :=
  match a, b with
  | TASK_CREATED, TASK_CREATED
  | TASK_ASSIGNED, TASK_ASSIGNED
  | TASK_STATUS_CHANGED, TASK_STATUS_CHANGED
  | TASK_PRIORITY_CHANGED, TASK_PRIORITY_CHANGED
  | TASK_DUE_DATE_CHANGED, TASK_DUE_DATE_CHANGED
  | TASK_TAGS_CHANGED, TASK_TAGS_CHANGED
  | TIMER_STARTED, TIMER_STARTED
  | TIMER_STOPPED, TIMER_STOPPED
  | COMMENT_ADDED, COMMENT_ADDED => true
  | _, _ => false
  end.

(** The string value of the enum members, as template literals print them. *)
Definition TaskStatus_toString (s : TaskStatus) : string :=
  match s with
  | TODO => "TODO"
  | IN_PROGRESS => "IN_PROGRESS"
  | DONE => "DONE"
  end.

Definition Priority_toString (p : Priority) : string :=
  match p with
  | LOW => "LOW"
  | MEDIUM => "MEDIUM"
  | HIGH => "HIGH"
  end.

Module Task.
Record t : Type := mk {
  id : string;
  title : string;
  description : string;
  status : TaskStatus;
  createdByAdminId : string;
  assigneeUserId : option string;
  priority : Priority;
  dueDate : option Date;
  tags : list string;
  createdAt : Date;
  updatedAt : Date
}.
End Task.

Module TimeEntry.
Record t : Type := mk {
  id : string;
  taskId : string;
  userId : string;
  startTime : Date;
  endTime : option Date;
  durationSeconds : option Z;
  createdAt : Date;
  updatedAt : Date
}.
End TimeEntry.

Module Comment.
Record t : Type := mk {
  id : string;
  taskId : string;
  userId : string;
  text : string;
  createdAt : Date;
  updatedAt : Date
}.
End Comment.

Module Activity.
Record t : Type := mk {
  id : string;
  taskId : string;
  type : ActivityType;
  message : string;
  actorUserId : string;
  createdAt : Date;
  updatedAt : Date
}.
End Activity.

(** The data of a document of the Firestore collection [tasks], as
    [FirestoreTaskRepository.create] and [update] write it. *)
Module TaskDoc.
Record t : Type := mk {
  title : string;
  description : string;
  status : TaskStatus;
  assigneeUserId : option string;
  createdByAdminId : string;
  priority : Priority;
  dueDate : option Date;
  tags : list string;
  createdAt : Date;
  updatedAt : Date
}.
End TaskDoc.

(** [Partial<TimeEntry>] as the services build it: a field is absent
    ([undefined], here [None]) or present. *)
Module TimeEntryPatch.
Record t : Type := mk {
  startTime : option Date;
  endTime : option (option Date);
  durationSeconds : option (option Z)
}.
End TimeEntryPatch.

(** The [patch] argument of [updateTaskAsAdmin] and of
    [ITaskRepository.update]. *)
Module TaskPatch.
Record t : Type := mk {
  title : option string;
  description : option string;
  status : option TaskStatus;
  assigneeUserId : option (option string);
  priority : option Priority;
  dueDate : option (option Date);
  tags : option (list string)
}.

Definition none : t := mk None None None None None None None.
End TaskPatch.

(* ------------------------------------------------------------------ *)
(** ** The world the services run in, and asynchronous computations *)

Record World : Type := mkWorld {
  (** Firestore collection [tasks], by document id. *)
  taskDocs : JsMap.t TaskDoc.t;
  (** [MockTimeEntryRepository.timeEntries]. *)
  timeEntries : JsMap.t TimeEntry.t;
  (** The documents of the [comments] sub-collections, in creation order. *)
  comments : list Comment.t;
  (** The documents of the [activity] sub-collections, in creation order. *)
  activities : list Activity.t;
  (** What [new Date()] reads, the same all through one operation. *)
  clock : Date;
  (** What [randomUUID()] draws from, and how many have been drawn. *)
  uuidSource : nat -> string;
  uuidCount : nat
}.

Inductive Outcome (A : Type) : Type :=
| Returned (a : A)
| Thrown (message : string).

Arguments Returned {A} a.
Arguments Thrown {A} message.

Definition Async (A : Type) : Type := World -> Outcome A * World.

Definition ret {A : Type} (a : A) : Async A := fun w => (Returned a, w).

Definition throw {A : Type} (message : string) : Async A :=
  fun w => (Thrown message, w).

Definition bind {A B : Type} (c : Async A) (k : A -> Async B) : Async B :=
  fun w =>
    match c w with
    | (Returned a, w') => k a w'
    | (Thrown m, w') => (Thrown m, w')
    end.

Notation "x <- c ;; k" := (bind c (fun x => k))
  (at level 61, c at next level, right associativity).
Notation "c ;;; k" := (bind c (fun _ => k))
  (at level 61, right associativity).

Definition newDate : Async Date := fun w => (Returned (clock w), w).

Definition randomUUID : Async string :=
  fun w =>
    (Returned (uuidSource w (uuidCount w)),
     mkWorld (taskDocs w) (timeEntries w) (comments w) (activities w)
             (clock w) (uuidSource w) (S (uuidCount w))).

Definition setTaskDocs (d : JsMap.t TaskDoc.t) (w : World) : World :=
  mkWorld d (timeEntries w) (comments w) (activities w)
          (clock w) (uuidSource w) (uuidCount w).

Definition setTimeEntries (m : JsMap.t TimeEntry.t) (w : World) : World :=
  mkWorld (taskDocs w) m (comments w) (activities w)
          (clock w) (uuidSource w) (uuidCount w).

Definition setComments (l : list Comment.t) (w : World) : World :=
  mkWorld (taskDocs w) (timeEntries w) l (activities w)
          (clock w) (uuidSource w) (uuidCount w).

Definition setActivities (l : list Activity.t) (w : World) : World :=
  mkWorld (taskDocs w) (timeEntries w) (comments w) l
          (clock w) (uuidSource w) (uuidCount w).

Definition setClock (d : Date) (w : World) : World :=
  mkWorld (taskDocs w) (timeEntries w) (comments w) (activities w)
          d (uuidSource w) (uuidCount w).

(** [a !== b] between a nullable string and a string. *)
Definition nullable_neq (a : option string) (b : string) : bool :=
  match a with
  | Some a' => negb (String.eqb a' b)
  | None => true
  end.

Definition option_eqb {A : Type} (eqb : A -> A -> bool) (a b : option A) : bool :=
  match a, b with
  | Some x, Some y => eqb x y
  | None, None => true
  | _, _ => false
  end.

(* ------------------------------------------------------------------ *)
(** ** domain/validators/timeEntryValidators.ts *)

Definition ensureStartBeforeEnd (start end_ : Date) : Async unit :=
  if start >=? end_ then throw "Start time must be before end time"
  else ret tt.

Definition computeDurationSeconds (start end_ : Date) : Async Z :=
  ensureStartBeforeEnd start end_ ;;;
  let milliseconds := end_ - start in
  ret (milliseconds / 1000).

Definition ensureNotNegativeDuration (seconds : Z) : Async unit :=
  if seconds <? 0 then throw "Duration cannot be negative" else ret tt.

(* ------------------------------------------------------------------ *)
(** ** The time-entry repository ([ITimeEntryRepository])

    The services reach the time entries through [ITimeEntryRepository].
    The repository here is the [MockTimeEntryRepository] that the tests of
    the time-entry and reports services inject with [setTimeEntryRepository],
    a [Map] from entry id to entry; [FirestoreTimeEntryRepository] is
    embedded further down and compared with it. *)

Module TimeEntryRepo.

Definition create (timeEntry : TimeEntry.t) : Async TimeEntry.t :=
  fun w =>
    (Returned timeEntry,
     setTimeEntries
       (JsMap.set (TimeEntry.id timeEntry) timeEntry (timeEntries w)) w).

(** [this.timeEntries.get(id) || null]. *)
Definition lookup (w : World) (id : string) : option TimeEntry.t :=
  JsMap.get id (timeEntries w).

Definition findById (id : string) : Async (option TimeEntry.t) :=
  fun w => (Returned (lookup w id), w).

Definition applyPatch (patch : TimeEntryPatch.t) (now : Date)
    (timeEntry : TimeEntry.t) : TimeEntry.t :=
  TimeEntry.mk
    (TimeEntry.id timeEntry)
    (TimeEntry.taskId timeEntry)
    (TimeEntry.userId timeEntry)
    (match TimeEntryPatch.startTime patch with
     | Some s => s
     | None => TimeEntry.startTime timeEntry
     end)
    (match TimeEntryPatch.endTime patch with
     | Some e => e
     | None => TimeEntry.endTime timeEntry
     end)
    (match TimeEntryPatch.durationSeconds patch with
     | Some d => d
     | None => TimeEntry.durationSeconds timeEntry
     end)
    (TimeEntry.createdAt timeEntry)
    now.

Definition update (id : string) (patch : TimeEntryPatch.t)
  : Async (option TimeEntry.t) :=
  fun w =>
    match lookup w id with
    | None => (Returned None, w)
    | Some timeEntry =>
        let updated := applyPatch patch (clock w) timeEntry in
        (Returned (Some updated),
         setTimeEntries (JsMap.set id updated (timeEntries w)) w)
    end.

Definition isActiveOf (userId : string) (e : TimeEntry.t) : bool :=
  String.eqb (TimeEntry.userId e) userId
  && match TimeEntry.endTime e with None => true | Some _ => false end.

(** [entries.find((e) => e.userId === userId && e.endTime === null) || null]. *)
Definition activeOf (w : World) (userId : string) : option TimeEntry.t :=
  find (isActiveOf userId) (JsMap.values (timeEntries w)).

Definition findActiveByUser (userId : string) : Async (option TimeEntry.t) :=
  fun w => (Returned (activeOf w userId), w).

Definition completedInRange (from to : Date) (entry : TimeEntry.t) : bool :=
  match TimeEntry.endTime entry with
  | None => false
  | Some _ =>
      (TimeEntry.startTime entry >=? from) && (TimeEntry.startTime entry <=? to)
  end.

Definition listCompletedInRange (from to : Date) : Async (list TimeEntry.t) :=
  fun w =>
    (Returned (filter (completedInRange from to)
                      (JsMap.values (timeEntries w))), w).

End TimeEntryRepo.

(* ------------------------------------------------------------------ *)
(** ** The task repository: [FirestoreTaskRepository] *)

Module TaskRepo.

(** [mapDocumentToTask]: on a document written by this repository every
    field is read back as stored, except that an empty [assigneeUserId]
    is read as [null]. *)
Definition mapDocumentToTask (id : string) (raw : TaskDoc.t) : Task.t :=
  Task.mk
    id
    (TaskDoc.title raw)
    (TaskDoc.description raw)
    (TaskDoc.status raw)
    (TaskDoc.createdByAdminId raw)
    (match TaskDoc.assigneeUserId raw with
     | Some a => if String.eqb a EmptyString then None else Some a
     | None => None
     end)
    (TaskDoc.priority raw)
    (TaskDoc.dueDate raw)
    (TaskDoc.tags raw)
    (TaskDoc.createdAt raw)
    (TaskDoc.updatedAt raw).

Definition toDoc (task : Task.t) : TaskDoc.t :=
  TaskDoc.mk
    (Task.title task)
    (Task.description task)
    (Task.status task)
    (Task.assigneeUserId task)
    (Task.createdByAdminId task)
    (Task.priority task)
    (Task.dueDate task)
    (Task.tags task)
    (Task.createdAt task)
    (Task.updatedAt task).

Definition create (task : Task.t) : Async Task.t :=
  fun w =>
    (Returned task,
     setTaskDocs (JsMap.set (Task.id task) (toDoc task) (taskDocs w)) w).

(** The document [id] of the collection, mapped to a [Task] when it
    exists. *)
Definition lookup (w : World) (id : string) : option Task.t :=
  option_map (mapDocumentToTask id) (JsMap.get id (taskDocs w)).

Definition findById (id : string) : Async (option Task.t) :=
  fun w => (Returned (lookup w id), w).

Definition applyPatch (patch : TaskPatch.t) (now : Date) (d : TaskDoc.t)
  : TaskDoc.t :=
  TaskDoc.mk
    (match TaskPatch.title patch with Some x => x | None => TaskDoc.title d end)
    (match TaskPatch.description patch with
     | Some x => x
     | None => TaskDoc.description d
     end)
    (match TaskPatch.status patch with Some x => x | None => TaskDoc.status d end)
    (match TaskPatch.assigneeUserId patch with
     | Some x => x
     | None => TaskDoc.assigneeUserId d
     end)
    (TaskDoc.createdByAdminId d)
    (match TaskPatch.priority patch with
     | Some x => x
     | None => TaskDoc.priority d
     end)
    (match TaskPatch.dueDate patch with
     | Some x => x
     | None => TaskDoc.dueDate d
     end)
    (match TaskPatch.tags patch with Some x => x | None => TaskDoc.tags d end)
    (TaskDoc.createdAt d)
    now.

Definition update (id : string) (patch : TaskPatch.t) : Async (option Task.t) :=
  fun w =>
    match JsMap.get id (taskDocs w) with
    | None => (Returned None, w)
    | Some d =>
        let d' := applyPatch patch (clock w) d in
        (Returned (Some (mapDocumentToTask id d')),
         setTaskDocs (JsMap.set id d' (taskDocs w)) w)
    end.

End TaskRepo.

(* ------------------------------------------------------------------ *)
(** ** application/services/activity.service.ts *)

Module ActivityRepo.

(** [FirestoreActivityRepository.create]: a new document under the random
    id of the activity. *)
Definition create (activity : Activity.t) : Async Activity.t :=
  fun w => (Returned activity, setActivities (activities w ++ [activity]) w).

End ActivityRepo.

Definition createActivity (taskId : string) (type : ActivityType)
    (message actorUserId : string) : Async Activity.t :=
  id <- randomUUID ;;
  now <- newDate ;;
  let activity := Activity.mk id taskId type message actorUserId now now in
  created <- ActivityRepo.create activity ;;
  ret created.

(* ------------------------------------------------------------------ *)
(** ** application/services/timeEntry.service.ts *)

(** Template-literal rendering of an integer. *)
Definition numberToString (n : Z) : string :=
  NilZero.string_of_int (Z.to_int n).

Definition stoppedTimerMessage (durationSeconds : Z) : string :=
  "Stopped timer (" ++ numberToString (durationSeconds / 60) ++ "m "
    ++ numberToString (Z.rem durationSeconds 60) ++ "s)".

Definition startTimeEntry (userId taskId : string) : Async TimeEntry.t :=
  task <- TaskRepo.findById taskId ;;
  match task with
  | None => throw "Task not found"
  | Some task =>
      if nullable_neq (Task.assigneeUserId task) userId then
        throw "Forbidden: You can only start timer for tasks assigned to you"
      else
        activeEntry <- TimeEntryRepo.findActiveByUser userId ;;
        match activeEntry with
        | Some _ =>
            throw "You already have an active time entry. Please stop it first."
        | None =>
            now <- newDate ;;
            id <- randomUUID ;;
            let timeEntry :=
              TimeEntry.mk id taskId userId now None None now now in
            created <- TimeEntryRepo.create timeEntry ;;
            createActivity taskId TIMER_STARTED "Started timer" userId ;;;
            ret created
        end
  end.

Definition stopPatch (now : Date) (durationSeconds : Z) : TimeEntryPatch.t :=
  TimeEntryPatch.mk None (Some (Some now)) (Some (Some durationSeconds)).

Definition stopTimeEntry (userId timeEntryId : string)
  : Async (option TimeEntry.t) :=
  timeEntry <- TimeEntryRepo.findById timeEntryId ;;
  match timeEntry with
  | None => ret None
  | Some timeEntry =>
      if negb (String.eqb (TimeEntry.userId timeEntry) userId) then
        throw "Forbidden: You can only stop your own time entries"
      else
        match TimeEntry.endTime timeEntry with
        | Some _ => throw "Time entry is already stopped"
        | None =>
            now <- newDate ;;
            durationSeconds <-
              computeDurationSeconds (TimeEntry.startTime timeEntry) now ;;
            updated <-
              TimeEntryRepo.update timeEntryId (stopPatch now durationSeconds) ;;
            match updated with
            | Some _ =>
                createActivity (TimeEntry.taskId timeEntry) TIMER_STOPPED
                  (stoppedTimerMessage durationSeconds) userId ;;;
                ret updated
            | None => ret updated
            end
        end
  end.

Definition getActiveTimeEntry (userId : string) : Async (option TimeEntry.t) :=
  TimeEntryRepo.findActiveByUser userId.

(** How the controllers tell a forbidden request from the other failures:
    [error.message.includes('Forbidden')]. *)
Fixpoint includes (needle s : string) : bool :=
  String.prefix needle s
  || match s with
     | EmptyString => false
     | String _ s' => includes needle s'
     end.

Definition isForbidden (message : string) : bool := includes "Forbidden" message.

(* ------------------------------------------------------------------ *)
(** ** JavaScript built-ins used by the services *)

(** [Array.prototype.sort(compare)]: a stable sort; [compare a b <= 0]
    leaves [a] before [b]. *)
Fixpoint sortInsert {A : Type} (compare : A -> A -> Z) (x : A) (l : list A)
  : list A :=
  match l with
  | [] => [x]
  | y :: l' =>
      if compare x y <=? 0 then x :: y :: l' else y :: sortInsert compare x l'
  end.

Definition jsSort {A : Type} (compare : A -> A -> Z) (l : list A) : list A :=
  fold_right (sortInsert compare) [] l.

(** [String.prototype.toLowerCase].  A string is the sequence of its code
    units, all below 256.  Among these the upper-case letters are A-Z
    (U+0041-U+005A), U+00C0-U+00D6 and U+00D8-U+00DE (U+00D7 is the
    multiplication sign); each has its lower-case letter 32 code units
    further on, and every other code unit is left as it is. *)
Definition isUpperCase (c : ascii) : bool :=
  let n := nat_of_ascii c in
  (Nat.leb 65 n && Nat.leb n 90)
  || (Nat.leb 192 n && Nat.leb n 214)
  || (Nat.leb 216 n && Nat.leb n 222).

Definition lowerChar (c : ascii) : ascii :=
  if isUpperCase c then ascii_of_nat (nat_of_ascii c + 32) else c.

Fixpoint toLowerCase (s : string) : string :=
  match s with
  | EmptyString => EmptyString
  | String c s' => String (lowerChar c) (toLowerCase s')
  end.

(** [String.prototype.trim]: white space and line terminators among the
    code units below 256. *)
Definition isWhiteSpace (c : ascii) : bool :=
  let n := nat_of_ascii c in
  (Nat.leb 9 n && Nat.leb n 13) || Nat.eqb n 32 || Nat.eqb n 160.

Fixpoint trimStart (s : string) : string :=
  match s with
  | EmptyString => EmptyString
  | String c s' => if isWhiteSpace c then trimStart s' else s
  end.

Fixpoint trimEnd (s : string) : string :=
  match s with
  | EmptyString => EmptyString
  | String c s' =>
      match trimEnd s' with
      | EmptyString => if isWhiteSpace c then EmptyString else String c EmptyString
      | t => String c t
      end
  end.

Definition trim (s : string) : string := trimEnd (trimStart s).

Definition strLength (s : string) : Z := Z.of_nat (String.length s).

(** [JSON.stringify] of an array of strings. *)
Definition hexDigit (n : nat) : ascii :=
  if Nat.ltb n 10 then ascii_of_nat (48 + n) else ascii_of_nat (87 + n).

Definition backslash : ascii := "092"%char.

Definition doubleQuote : ascii := "034"%char.

Definition escaped (s : string) : string := String backslash s.

Definition quoteJSONChar (c : ascii) : string :=
  let n := nat_of_ascii c in
  if Nat.eqb n 8 then escaped "b"
  else if Nat.eqb n 9 then escaped "t"
  else if Nat.eqb n 10 then escaped "n"
  else if Nat.eqb n 12 then escaped "f"
  else if Nat.eqb n 13 then escaped "r"
  else if Nat.eqb n 34 then escaped (String doubleQuote EmptyString)
  else if Nat.eqb n 92 then escaped (String backslash EmptyString)
  else if Nat.ltb n 32 then
    escaped ("u00" ++ String (hexDigit (Nat.div n 16))
                       (String (hexDigit (Nat.modulo n 16)) EmptyString))
  else String c EmptyString.

Fixpoint quoteJSONChars (s : string) : string :=
  match s with
  | EmptyString => EmptyString
  | String c s' => quoteJSONChar c ++ quoteJSONChars s'
  end.

Definition quoteJSONString (s : string) : string :=
  String doubleQuote (quoteJSONChars s ++ String doubleQuote EmptyString).

Fixpoint joinElements (l : list string) : string :=
  match l with
  | [] => EmptyString
  | [s] => quoteJSONString s
  | s :: l' => quoteJSONString s ++ "," ++ joinElements l'
  end.

Definition JSON_stringify (l : list string) : string :=
  "[" ++ joinElements l ++ "]".

(** [date.toISOString().split('T')[0]]: the calendar date (UTC) of a time
    value, from the day number by the usual civil-calendar computation. *)
Definition padLeft (width : nat) (s : string) : string :=
  let fix zeros (n : nat) : string :=
    match n with
    | O => EmptyString
    | S n' => String "0" (zeros n')
    end in
  zeros (Nat.sub width (String.length s)) ++ s.

Definition isoYear (y : Z) : string :=
  if (0 <=? y) && (y <=? 9999) then padLeft 4 (numberToString y)
  else if y <? 0 then "-" ++ padLeft 6 (numberToString (- y))
  else "+" ++ padLeft 6 (numberToString y).

Definition isoDate (time : Date) : string :=
  let days := time / 86400000 in
  let z := days + 719468 in
  let era := z / 146097 in
  let doe := z - era * 146097 in
  let yoe := (doe - doe / 1460 + doe / 36524 - doe / 146096) / 365 in
  let doy := doe - (365 * yoe + yoe / 4 - yoe / 100) in
  let mp := (5 * doy + 2) / 153 in
  let d := doy - (153 * mp + 2) / 5 + 1 in
  let m := if mp <? 10 then mp + 3 else mp - 9 in
  let y := yoe + era * 400 + (if m <=? 2 then 1 else 0) in
  isoYear y ++ "-" ++ padLeft 2 (numberToString m)
    ++ "-" ++ padLeft 2 (numberToString d).

(* ------------------------------------------------------------------ *)
(** ** The queries of [FirestoreTaskRepository] *)

Inductive SortBy : Type := SortByDueDate | SortByCreatedAt.

Inductive SortOrder : Type := Asc | Desc.

(** The [filters] object of [searchAndFilter] and of the listing services. *)
Module TaskFilters.
Record t : Type := mk {
  status : option TaskStatus;
  priority : option Priority;
  assigneeUserId : option string;
  tag : option string;
  searchQuery : option string;
  sortBy : option SortBy;
  sortOrder : option SortOrder
}.

(** [Object.keys(filters).length > 0], a key being present when its field
    is. *)
Definition hasKeys (f : t) : bool :=
  match status f, priority f, assigneeUserId f, tag f, searchQuery f,
        sortBy f, sortOrder f with
  | None, None, None, None, None, None, None => false
  | _, _, _, _, _, _, _ => true
  end.

(** [{ ...filters, assigneeUserId: memberId }]. *)
Definition withAssignee (f : option t) (memberId : string) : t :=
  match f with
  | Some f =>
      mk (status f) (priority f) (Some memberId) (tag f) (searchQuery f)
         (sortBy f) (sortOrder f)
  | None => mk None None (Some memberId) None None None None
  end.
End TaskFilters.

(** [{ ...filters, searchQuery }]. *)
Definition withSearchQuery (f : TaskFilters.t) (searchQuery : string)
  : TaskFilters.t :=
  TaskFilters.mk (TaskFilters.status f) (TaskFilters.priority f)
                 (TaskFilters.assigneeUserId f) (TaskFilters.tag f)
                 (Some searchQuery) (TaskFilters.sortBy f)
                 (TaskFilters.sortOrder f).

(** Truthiness of an optional string: present and not empty. *)
Definition truthy (s : option string) : option string :=
  match s with
  | Some x => if String.eqb x EmptyString then None else Some x
  | None => None
  end.

(** The queries of [FirestoreTaskRepository].  None of them has a range or
    an [orderBy], so that all their snapshots list the documents in one
    order, that of the document ids; the list [taskDocs] stands for the
    collection in that order.  Where that order puts a document that
    [create] adds is not modelled: [create] files it last. *)
Module TaskQuery.

Definition Doc : Type := (string * TaskDoc.t)%type.

(** [query.where(field, '==', value)] and
    [query.where('tags', 'array-contains', tag)] on the stored documents. *)
Definition whereStatus (s : TaskStatus) (d : Doc) : bool :=
  TaskStatus_eqb (TaskDoc.status (snd d)) s.

Definition wherePriority (p : Priority) (d : Doc) : bool :=
  Priority_eqb (TaskDoc.priority (snd d)) p.

Definition whereAssignee (userId : string) (d : Doc) : bool :=
  match TaskDoc.assigneeUserId (snd d) with
  | Some a => String.eqb a userId
  | None => false
  end.

Definition whereTag (tag : string) (d : Doc) : bool :=
  existsb (String.eqb tag) (TaskDoc.tags (snd d)).

Definition optFilter {A : Type} (o : option A) (p : A -> Doc -> bool)
    (l : list Doc) : list Doc :=
  match o with
  | Some a => filter (p a) l
  | None => l
  end.

Definition toTask (d : Doc) : Task.t :=
  TaskRepo.mapDocumentToTask (fst d) (snd d).

Definition matchesSearch (searchLower : string) (task : Task.t) : bool :=
  includes searchLower (toLowerCase (Task.title task))
  || includes searchLower (toLowerCase (Task.description task)).

Definition sortValue (by_ : SortBy) (task : Task.t) : Z :=
  match by_ with
  | SortByDueDate =>
      match Task.dueDate task with Some d => d | None => 0 end
  | SortByCreatedAt => Task.createdAt task
  end.

Definition compareTasks (by_ : SortBy) (order : option SortOrder)
    (a b : Task.t) : Z :=
  let aValue := sortValue by_ a in
  let bValue := sortValue by_ b in
  match order with
  | Some Desc => bValue - aValue
  | _ => aValue - bValue
  end.

Definition listAll : Async (list Task.t) :=
  fun w => (Returned (map toTask (taskDocs w)), w).

Definition listByAssignee (userId : string) : Async (list Task.t) :=
  fun w =>
    (Returned (map toTask (filter (whereAssignee userId) (taskDocs w))), w).

Definition searchAndFilter (filters : TaskFilters.t) : Async (list Task.t) :=
  fun w =>
    let query := taskDocs w in
    let query := optFilter (TaskFilters.status filters) whereStatus query in
    let query := optFilter (TaskFilters.priority filters) wherePriority query in
    let query :=
      optFilter (truthy (TaskFilters.assigneeUserId filters)) whereAssignee
                query in
    let query := optFilter (truthy (TaskFilters.tag filters)) whereTag query in
    let tasks := map toTask query in
    let tasks :=
      match truthy (TaskFilters.searchQuery filters) with
      | Some q => filter (matchesSearch (toLowerCase q)) tasks
      | None => tasks
      end in
    let tasks :=
      match TaskFilters.sortBy filters with
      | Some by_ =>
          jsSort (compareTasks by_ (TaskFilters.sortOrder filters)) tasks
      | None => tasks
      end in
    (Returned tasks, w).

End TaskQuery.

(* ------------------------------------------------------------------ *)
(** ** application/services/task.service.ts *)

Definition assignedMessage (assigneeUserId : option string) : string :=
  match truthy assigneeUserId with
  | Some a => "Assigned to user " ++ a
  | None => "Unassigned"
  end.

Definition dueDateMessage (dueDate : option Date) : string :=
  "Due date set to "
    ++ match dueDate with Some d => isoDate d | None => "None" end.

Definition when (b : bool) (c : Async Activity.t) : Async unit :=
  if b then c ;;; ret tt else ret tt.

Definition updateTaskAsAdmin (taskId : string) (patch : TaskPatch.t)
    (actorUserId : string) : Async (option Task.t) :=
  existing <- TaskRepo.findById taskId ;;
  match existing with
  | None => ret None
  | Some existing =>
      updated <- TaskRepo.update taskId patch ;;
      match updated with
      | None => ret updated
      | Some _ =>
          match TaskPatch.status patch with
          | Some status =>
              when (negb (TaskStatus_eqb status (Task.status existing)))
                (createActivity taskId TASK_STATUS_CHANGED
                   ("Status changed to " ++ TaskStatus_toString status)
                   actorUserId)
          | None => ret tt
          end ;;;
          match TaskPatch.assigneeUserId patch with
          | Some assignee =>
              when (negb (option_eqb String.eqb assignee
                                     (Task.assigneeUserId existing)))
                (createActivity taskId TASK_ASSIGNED
                   (assignedMessage assignee) actorUserId)
          | None => ret tt
          end ;;;
          match TaskPatch.priority patch with
          | Some priority =>
              when (negb (Priority_eqb priority (Task.priority existing)))
                (createActivity taskId TASK_PRIORITY_CHANGED
                   ("Priority changed to " ++ Priority_toString priority)
                   actorUserId)
          | None => ret tt
          end ;;;
          match TaskPatch.dueDate patch with
          | Some dueDate =>
              createActivity taskId TASK_DUE_DATE_CHANGED
                (dueDateMessage dueDate) actorUserId ;;;
              ret tt
          | None => ret tt
          end ;;;
          match TaskPatch.tags patch with
          | Some tags =>
              when (negb (String.eqb (JSON_stringify tags)
                                     (JSON_stringify (Task.tags existing))))
                (createActivity taskId TASK_TAGS_CHANGED "Tags updated"
                   actorUserId)
          | None => ret tt
          end ;;;
          ret updated
      end
  end.

Definition listTasksForAdmin (filters : option TaskFilters.t)
  : Async (list Task.t) :=
  match filters with
  | Some f =>
      if TaskFilters.hasKeys f then TaskQuery.searchAndFilter f
      else TaskQuery.listAll
  | None => TaskQuery.listAll
  end.

Definition listTasksForMember (memberId : string)
    (filters : option TaskFilters.t) : Async (list Task.t) :=
  let memberFilters := TaskFilters.withAssignee filters memberId in
  match filters with
  | Some f =>
      if TaskFilters.hasKeys f then TaskQuery.searchAndFilter memberFilters
      else TaskQuery.listByAssignee memberId
  | None => TaskQuery.listByAssignee memberId
  end.

Definition statusPatch (status : TaskStatus) : TaskPatch.t :=
  TaskPatch.mk None None (Some status) None None None None.

Definition updateTaskStatusAsMember (taskId memberId : string)
    (status : TaskStatus) : Async (option Task.t) :=
  task <- TaskRepo.findById taskId ;;
  match task with
  | None => ret None
  | Some task =>
      if nullable_neq (Task.assigneeUserId task) memberId then
        throw "Forbidden: You can only update status of tasks assigned to you"
      else
        updated <- TaskRepo.update taskId (statusPatch status) ;;
        match updated with
        | Some _ =>
            createActivity taskId TASK_STATUS_CHANGED
              ("Status changed to " ++ TaskStatus_toString status) memberId ;;;
            ret updated
        | None => ret updated
        end
  end.

(** The result of [completeTask]. *)
Module CompleteTaskResult.
Record t : Type := mk {
  task : Task.t;
  stoppedTimeEntry : option TimeEntry.t
}.
End CompleteTaskResult.

Definition completeTask (taskId memberId : string)
  : Async CompleteTaskResult.t :=
  task <- TaskRepo.findById taskId ;;
  match task with
  | None => throw "Task not found"
  | Some task =>
      if nullable_neq (Task.assigneeUserId task) memberId then
        throw "Forbidden: You can only complete tasks assigned to you"
      else
        activeEntry <- getActiveTimeEntry memberId ;;
        stoppedTimeEntry <-
          match activeEntry with
          | Some activeEntry =>
              if String.eqb (TimeEntry.taskId activeEntry) taskId then
                stopTimeEntry memberId (TimeEntry.id activeEntry)
              else ret None
          | None => ret None
          end ;;
        updated <- TaskRepo.update taskId (statusPatch DONE) ;;
        match updated with
        | None => throw "Failed to update task"
        | Some updated =>
            createActivity taskId TASK_STATUS_CHANGED "Task completed"
              memberId ;;;
            ret (CompleteTaskResult.mk updated stoppedTimeEntry)
        end
  end.

(* ------------------------------------------------------------------ *)
(** ** application/services/comment.service.ts *)

Module CommentRepo.

(** [FirestoreCommentRepository.create]: a new document under the random
    id of the comment. *)
Definition create (comment : Comment.t) : Async Comment.t :=
  fun w => (Returned comment, setComments (comments w ++ [comment]) w).

End CommentRepo.

Definition createComment (taskId userId : string) (userRole : Role)
    (text : string) : Async Comment.t :=
  task <- TaskRepo.findById taskId ;;
  match task with
  | None => throw "Task not found"
  | Some task =>
      if negb (Role_eqb userRole ADMIN)
         && nullable_neq (Task.assigneeUserId task) userId then
        throw "Forbidden: You can only comment on tasks assigned to you"
      else
        id <- randomUUID ;;
        now <- newDate ;;
        let comment := Comment.mk id taskId userId text now now in
        created <- CommentRepo.create comment ;;
        createActivity taskId COMMENT_ADDED "Added a comment" userId ;;;
        ret created
  end.

(* ------------------------------------------------------------------ *)
(** ** presentation/controllers/comment.controller.ts *)

(** What the JSON body of a request can hold under [text]. *)
Inductive JsValue : Type :=
| JsUndefined
| JsNull
| JsBoolean (b : bool)
| JsNumber (n : Z)
| JsString (s : string)
| JsObject.

Record AuthUser : Type := mkAuthUser {
  uid : string;
  role : Role
}.

Record CommentRequest : Type := mkCommentRequest {
  user : option AuthUser;
  paramsId : string;
  bodyText : JsValue
}.

Inductive ResponseBody : Type :=
| ErrorBody (error : string)
| CommentBody (comment : Comment.t).

Record Response : Type := mkResponse {
  statusCode : Z;
  body : ResponseBody
}.

(** [!text || typeof text !== 'string' || text.trim().length === 0]. *)
Definition textMissing (text : JsValue) : bool :=
  match text with
  | JsString s =>
      String.eqb s EmptyString || (strLength (trim s) =? 0)
  | _ => true
  end.

Definition commentController_create (req : CommentRequest)
  : World -> Response * World :=
  fun w =>
    match user req with
    | None => (mkResponse 401 (ErrorBody "Unauthorized"), w)
    | Some u =>
        let taskId := paramsId req in
        let text := bodyText req in
        if textMissing text then
          (mkResponse 400 (ErrorBody "Comment text is required"), w)
        else
          match text with
          | JsString text =>
              if strLength text >? 2000 then
                (mkResponse 400
                   (ErrorBody "Comment text must be 2000 characters or less"),
                 w)
              else
                match createComment taskId (uid u) (role u) (trim text) w with
                | (Returned comment, w') =>
                    (mkResponse 201 (CommentBody comment), w')
                | (Thrown message, w') =>
                    (mkResponse 400 (ErrorBody message), w')
                end
          | _ => (mkResponse 400 (ErrorBody "Comment text is required"), w)
          end
    end.

(* ------------------------------------------------------------------ *)
(** ** application/services/reports.service.ts *)

Module TimeTotalByUser.
Record t : Type := mk {
  userId : string;
  totalDurationSeconds : Z
}.
End TimeTotalByUser.

Module TimeReportResult.
Record t : Type := mk {
  from : string;
  to : string;
  totals : list TimeTotalByUser.t
}.
End TimeReportResult.

Definition invalidDateRangeMessage : string :=
  "Invalid date range: " ++ String doubleQuote "from"
    ++ String doubleQuote " date must be before or equal to "
    ++ String doubleQuote "to" ++ String doubleQuote " date".

(** One turn of the aggregation loop over [userTotals]. *)
Definition addEntry (userTotals : JsMap.t Z) (entry : TimeEntry.t) : JsMap.t Z :=
  match TimeEntry.durationSeconds entry with
  | Some durationSeconds =>
      if durationSeconds >? 0 then
        let currentTotal :=
          match JsMap.get (TimeEntry.userId entry) userTotals with
          | Some t => t
          | None => 0
          end in
        JsMap.set (TimeEntry.userId entry) (currentTotal + durationSeconds)
                  userTotals
      else userTotals
  | None => userTotals
  end.

Section Reports.

(** [String.prototype.localeCompare]: the collation of the host's locale. *)
Variable localeCompare : string -> string -> Z.

Definition compareTotals (a b : TimeTotalByUser.t) : Z :=
  localeCompare (TimeTotalByUser.userId a) (TimeTotalByUser.userId b).

Definition getTimeTotalsByUser (from to : Date)
  : Async TimeReportResult.t :=
  if from >? to then throw invalidDateRangeMessage
  else
    timeEntries <- TimeEntryRepo.listCompletedInRange from to ;;
    let userTotals := fold_left addEntry timeEntries JsMap.empty in
    let totals :=
      jsSort compareTotals
        (map (fun kv => TimeTotalByUser.mk (fst kv) (snd kv)) userTotals) in
    ret (TimeReportResult.mk (isoDate from) (isoDate to) totals).

End Reports.

(* ------------------------------------------------------------------ *)
(** ** Invariants of the time-entry store *)

(** A [Map] holds a key once. *)
Fixpoint uniqueKeys {V : Type} (m : JsMap.t V) : bool :=
  match m with
  | [] => true
  | (k, _) :: m' => negb (existsb (String.eqb k) (JsMap.keys m')) && uniqueKeys m'
  end.

(** The repository files every entry under the entry's own id. *)
Definition keyedById (m : JsMap.t TimeEntry.t) : bool :=
  forallb (fun kv => String.eqb (fst kv) (TimeEntry.id (snd kv))) m.

Definition validStore (w : World) : bool :=
  uniqueKeys (timeEntries w) && keyedById (timeEntries w).

(** At most one Active entry for the user. *)
Definition singleTimer (w : World) (userId : string) : bool :=
  Nat.leb
    (List.length (filter (TimeEntryRepo.isActiveOf userId)
                         (JsMap.values (timeEntries w))))
    1.

(** The activities appended between two worlds. *)
Definition emitted (w w' : World) : list Activity.t :=
  skipn (List.length (activities w)) (activities w').

Definition countType (type : ActivityType) (l : list Activity.t) : nat :=
  List.length (filter (fun a => ActivityType_eqb (Activity.type a) type) l).

(* ------------------------------------------------------------------ *)
(** ** Sample data *)

Module Sample.

Definition uuid (n : nat) : string :=
  "uuid-" ++ numberToString (Z.of_nat n).

Definition doc (assignee : option string) (dueDate : option Date)
    (tags : list string) : TaskDoc.t :=
  TaskDoc.mk "Write report" "Quarterly numbers" TODO assignee "admin1"
             MEDIUM dueDate tags 1000 1000.

Definition tasks : JsMap.t TaskDoc.t :=
  [ ("task1", doc (Some "member1") None []);
    ("task2", doc (Some "member1") (Some 86400000) ["a"; "b"]);
    ("task3", doc (Some "member2") None []);
    ("task4", doc None None []) ].

(** No time entry yet; the clock reads 1000 s. *)
Definition idle : World := mkWorld tasks [] [] [] 1000000 uuid 0.

Definition entry (id taskId userId : string) (startTime : Date)
    (endTime : option Date) (durationSeconds : option Z) : TimeEntry.t :=
  TimeEntry.mk id taskId userId startTime endTime durationSeconds
               startTime startTime.

(** [member1] runs a timer on [task1] since 1000 s; the clock reads
    1090 s. *)
Definition running : World :=
  mkWorld tasks
    [ ("e0", entry "e0" "task2" "member1" 0 (Some 60000) (Some 60));
      ("e1", entry "e1" "task1" "member1" 1000000 None None);
      ("e2", entry "e2" "task3" "member2" 500000 None None) ]
    [] [] 1090000 uuid 0.

(** [member1] runs two timers, the older on [task2], the other on
    [task1]; the clock reads 1090 s. *)
Definition twoTimers : World :=
  mkWorld tasks
    [ ("e1", entry "e1" "task2" "member1" 900000 None None);
      ("e3", entry "e3" "task1" "member1" 1000000 None None) ]
    [] [] 1090000 uuid 0.

(** The source of ids draws [task1], the id of a stored task, next. *)
Definition clash : World :=
  mkWorld tasks [] [] [] 1000000 (fun _ => "task1") 0.

End Sample.

(** The activity that [completeTask] logs. *)
Definition isTaskCompleted (taskId memberId : string) (a : Activity.t) : Prop :=
  Activity.type a = TASK_STATUS_CHANGED
  /\ Activity.message a = "Task completed"
  /\ Activity.taskId a = taskId
  /\ Activity.actorUserId a = memberId.

(** A text of [n] characters. *)
Definition textOfLength (n : nat) : string :=
  string_of_list_ascii (repeat "a"%char n).

(* ------------------------------------------------------------------ *)
(** ** The time report, as the specification words it

    An entry contributes to the report over [from, to] when it is Stopped,
    its start time lies in the closed range and its duration is positive;
    the total of a user is the sum of the durations of the user's
    contributing entries. *)

Definition durationOf (e : TimeEntry.t) : Z :=
  match TimeEntry.durationSeconds e with
  | Some d => d
  | None => 0
  end.

Definition positiveDuration (e : TimeEntry.t) : bool :=
  match TimeEntry.durationSeconds e with
  | Some d => d >? 0
  | None => false
  end.

Definition contributes (from to : Date) (e : TimeEntry.t) : bool :=
  match TimeEntry.endTime e with
  | Some _ =>
      (from <=? TimeEntry.startTime e) && (TimeEntry.startTime e <=? to)
      && positiveDuration e
  | None => false
  end.

Definition contributesFor (from to : Date) (u : string) (e : TimeEntry.t)
  : bool :=
  contributes from to e && String.eqb (TimeEntry.userId e) u.

Definition expectedTotal (from to : Date) (entries : list TimeEntry.t)
    (u : string) : Z :=
  fold_right Z.add 0
    (map durationOf (filter (contributesFor from to u) entries)).

(** The running total of a user in [userTotals], and what a list of
    entries adds to it. *)
Definition totalOf (userTotals : JsMap.t Z) (u : string) : Z :=
  match JsMap.get u userTotals with
  | Some t => t
  | None => 0
  end.

Definition countsFor (u : string) (e : TimeEntry.t) : bool :=
  positiveDuration e && String.eqb (TimeEntry.userId e) u.

Definition sumFor (u : string) (l : list TimeEntry.t) : Z :=
  fold_right Z.add 0 (map durationOf (filter (countsFor u) l)).

(** The order that a comparator stands for: [a] may come before [b]. *)
Definition inOrder {A : Type} (compare : A -> A -> Z) (a b : A) : Prop :=
  compare a b <= 0.

(** Order of the user ids of a report. *)
Definition userIdsAscending (localeCompare : string -> string -> Z)
    (a b : TimeTotalByUser.t) : Prop :=
  localeCompare (TimeTotalByUser.userId a) (TimeTotalByUser.userId b) <= 0.

Module ReportSample.

(** A collation: the order of the code units. *)
Definition codeUnitCompare (a b : string) : Z :=
  match String.compare a b with
  | Lt => -1
  | Eq => 0
  | Gt => 1
  end.

(** January 2024, in milliseconds. *)
Definition jan1 : Date := 1704067200000.
Definition jan31 : Date := 1706659200000.

Definition entries : JsMap.t TimeEntry.t :=
  [ ("r1", Sample.entry "r1" "task3" "user2" (jan1 + 1000)
                        (Some (jan1 + 7201000)) (Some 7200));
    ("r2", Sample.entry "r2" "task1" "user1" (jan1 + 5000)
                        (Some (jan1 + 1805000)) (Some 1800));
    ("r3", Sample.entry "r3" "task2" "user1" jan31
                        (Some (jan31 + 1800000)) (Some 1800));
    ("r4", Sample.entry "r4" "task1" "user1" (jan31 + 1)
                        (Some (jan31 + 60001)) (Some 60));
    ("r5", Sample.entry "r5" "task1" "user3" (jan1 + 9000) None None);
    ("r6", Sample.entry "r6" "task1" "user3" (jan1 + 9000)
                        (Some (jan1 + 9000)) (Some 0)) ].

Definition world : World :=
  mkWorld Sample.tasks entries [] [] (jan31 + 86400000) Sample.uuid 0.

End ReportSample.

(* ------------------------------------------------------------------ *)
(** ** Auxiliary definitions for the properties of [JSON.stringify] *)

Definition allAscii : list ascii := map ascii_of_nat (seq 0 256).

(** Two characters with different codes: the quoted form of neither starts
    the quoted form of the other, and neither starts with a double quote. *)
Definition quotedApart (c1 c2 : ascii) : bool :=
  Ascii.eqb c1 c2
  || negb (String.prefix (quoteJSONChar c1) (quoteJSONChar c2)).

Definition quotedHead (c : ascii) : bool :=
  match quoteJSONChar c with
  | EmptyString => false
  | String h _ => negb (Ascii.eqb h doubleQuote)
  end.

(* ------------------------------------------------------------------ *)
(** ** What [updateTaskAsAdmin] logs, as the specification words it *)

(** An activity of the given type was appended between the two worlds. *)
Definition logged (type : ActivityType) (w w' : World) : Prop :=
  In type (map Activity.type (emitted w w')).

(** The patch carries the field, with a value other than the prior one. *)
Definition differs {A : Type} (patched : option A) (prior : A) : Prop :=
  exists v, patched = Some v /\ v <> prior.

(** A computation that only appends activities, of the given types in that
    order, leaves the tasks and the time entries alone and returns [r]. *)
Definition logsTypes {A : Type} (c : Async A) (r : A)
    (types : list ActivityType) : Prop :=
  forall w,
    exists w' l,
      c w = (Returned r, w')
      /\ activities w' = (activities w ++ l)%list
      /\ map Activity.type l = types
      /\ taskDocs w' = taskDocs w
      /\ timeEntries w' = timeEntries w.

(* ------------------------------------------------------------------ *)
(** ** The order of a Firestore snapshot

    A query without [orderBy] lists its documents by document id, the ids
    compared by their UTF-8 bytes, which is the order of their code units
    here; a query with a range on a field, or ordered by a field, lists
    them by that field and then by id, the ids in the direction of the
    field. *)

Definition compareDocumentIds (a b : string) : Z :=
  match String.compare a b with
  | Lt => -1
  | Eq => 0
  | Gt => 1
  end.

(** One comparison after another: the second decides where the first
    finds no difference. *)
Definition thenBy (first second : Z) : Z :=
  if first =? 0 then second else first.

(* ------------------------------------------------------------------ *)
(** ** data/repositories/implementations/FirestoreTimeEntryRepository.ts

    The collection [timeEntries]: a document per entry, under the entry's
    id, holding the other fields.  The repository is embedded over the
    collection itself, a map whose own order plays no part: every query
    lists its documents in the order of its snapshot.  [stored] gives the
    collection that holds the entries of a [MockTimeEntryRepository]. *)

Module TimeEntryDoc.
Record t : Type := mk {
  taskId : string;
  userId : string;
  startTime : Date;
  endTime : option Date;
  durationSeconds : option Z;
  createdAt : Date;
  updatedAt : Date
}.
End TimeEntryDoc.

Module FirestoreTimeEntryRepository.

Definition Collection : Type := JsMap.t TimeEntryDoc.t.

Definition toDoc (timeEntry : TimeEntry.t) : TimeEntryDoc.t :=
  TimeEntryDoc.mk
    (TimeEntry.taskId timeEntry)
    (TimeEntry.userId timeEntry)
    (TimeEntry.startTime timeEntry)
    (TimeEntry.endTime timeEntry)
    (TimeEntry.durationSeconds timeEntry)
    (TimeEntry.createdAt timeEntry)
    (TimeEntry.updatedAt timeEntry).

(** [mapDocumentToTimeEntry], on a document written by this repository. *)
Definition mapDocumentToTimeEntry (id : string) (raw : TimeEntryDoc.t)
  : TimeEntry.t :=
  TimeEntry.mk
    id
    (TimeEntryDoc.taskId raw)
    (TimeEntryDoc.userId raw)
    (TimeEntryDoc.startTime raw)
    (TimeEntryDoc.endTime raw)
    (TimeEntryDoc.durationSeconds raw)
    (TimeEntryDoc.createdAt raw)
    (TimeEntryDoc.updatedAt raw).

Definition docToEntry (d : string * TimeEntryDoc.t) : TimeEntry.t :=
  mapDocumentToTimeEntry (fst d) (snd d).

Definition create (timeEntry : TimeEntry.t) (c : Collection)
  : TimeEntry.t * Collection :=
  (timeEntry, JsMap.set (TimeEntry.id timeEntry) (toDoc timeEntry) c).

Definition findById (id : string) (c : Collection) : option TimeEntry.t :=
  option_map (mapDocumentToTimeEntry id) (JsMap.get id c).

Definition applyPatch (patch : TimeEntryPatch.t) (now : Date)
    (d : TimeEntryDoc.t) : TimeEntryDoc.t :=
  TimeEntryDoc.mk
    (TimeEntryDoc.taskId d)
    (TimeEntryDoc.userId d)
    (match TimeEntryPatch.startTime patch with
     | Some s => s
     | None => TimeEntryDoc.startTime d
     end)
    (match TimeEntryPatch.endTime patch with
     | Some e => e
     | None => TimeEntryDoc.endTime d
     end)
    (match TimeEntryPatch.durationSeconds patch with
     | Some x => x
     | None => TimeEntryDoc.durationSeconds d
     end)
    (TimeEntryDoc.createdAt d)
    now.

(** [now] is the reading of [new Date()]. *)
Definition update (id : string) (patch : TimeEntryPatch.t) (now : Date)
    (c : Collection) : option TimeEntry.t * Collection :=
  match JsMap.get id c with
  | None => (None, c)
  | Some d =>
      let d' := applyPatch patch now d in
      (Some (mapDocumentToTimeEntry id d'), JsMap.set id d' c)
  end.

Definition whereActiveOf (userId : string) (d : string * TimeEntryDoc.t)
  : bool :=
  String.eqb (TimeEntryDoc.userId (snd d)) userId
  && match TimeEntryDoc.endTime (snd d) with None => true | Some _ => false end.

(** The snapshot of a query with equalities only. *)
Definition byId (docs : list (string * TimeEntryDoc.t))
  : list (string * TimeEntryDoc.t) :=
  jsSort (fun a b => compareDocumentIds (fst a) (fst b)) docs.

(** The snapshot of a query with a range on [startTime]. *)
Definition byStartTime (docs : list (string * TimeEntryDoc.t))
  : list (string * TimeEntryDoc.t) :=
  jsSort (fun a b =>
            thenBy (TimeEntryDoc.startTime (snd a)
                    - TimeEntryDoc.startTime (snd b))
                   (compareDocumentIds (fst a) (fst b)))
         docs.

(** [.where('userId', '==', userId).where('endTime', '==', null).limit(1)]. *)
Definition findActiveByUser (userId : string) (c : Collection)
  : option TimeEntry.t :=
  match byId (filter (whereActiveOf userId) c) with
  | [] => None
  | doc :: _ => Some (docToEntry doc)
  end.

Definition findByTaskAndUser (taskId userId : string) (c : Collection)
  : list TimeEntry.t :=
  map docToEntry
    (byId
       (filter (fun d => String.eqb (TimeEntryDoc.taskId (snd d)) taskId
                         && String.eqb (TimeEntryDoc.userId (snd d)) userId)
               c)).

Definition whereStartTimeIn (from to : Date) (d : string * TimeEntryDoc.t)
  : bool :=
  (TimeEntryDoc.startTime (snd d) >=? from)
  && (TimeEntryDoc.startTime (snd d) <=? to).

Definition listCompletedInRange (from to : Date) (c : Collection)
  : list TimeEntry.t :=
  filter (fun entry =>
            match TimeEntry.endTime entry with Some _ => true | None => false end)
         (map docToEntry (byStartTime (filter (whereStartTimeIn from to) c))).

(** The collection that holds the entries of a map from id to entry. *)
Definition stored (m : JsMap.t TimeEntry.t) : Collection :=
  map (fun kv => (fst kv, toDoc (snd kv))) m.

End FirestoreTimeEntryRepository.

(** [MockTimeEntryRepository.findByTaskAndUser]. *)
Definition mockFindByTaskAndUser (taskId userId : string)
    (m : JsMap.t TimeEntry.t) : list TimeEntry.t :=
  filter (fun e => String.eqb (TimeEntry.taskId e) taskId
                   && String.eqb (TimeEntry.userId e) userId)
         (JsMap.values m).

(* ------------------------------------------------------------------ *)
(** ** The invariant of the time entries

    The store is a map keyed by entry id, and no user has more than one
    Active entry. *)

Definition wellFormed (w : World) : Prop :=
  validStore w = true /\ forall userId, singleTimer w userId = true.

(* ------------------------------------------------------------------ *)
(** ** application/services/task.service.ts: [createTask], [assignTask] *)

Definition createdMessage (title : string) : string :=
  "Task " ++ String doubleQuote title ++ String doubleQuote " created".

(** [priority] is [None] when the argument is [undefined], and then
    defaults to MEDIUM. *)
Definition createTask (adminId title description : string)
    (assigneeUserId : option string) (priority : option Priority)
    (dueDate : option Date) (tags : list string) : Async Task.t :=
  id <- randomUUID ;;
  now <- newDate ;;
  let task :=
    Task.mk id title description TODO adminId assigneeUserId
            (match priority with Some p => p | None => MEDIUM end)
            dueDate tags now now in
  created <- TaskRepo.create task ;;
  createActivity (Task.id created) TASK_CREATED (createdMessage title)
    adminId ;;;
  match truthy assigneeUserId with
  | Some a =>
      createActivity (Task.id created) TASK_ASSIGNED
        ("Assigned to user " ++ a) adminId ;;;
      ret created
  | None => ret created
  end.

Definition assigneePatch (assigneeUserId : option string) : TaskPatch.t :=
  TaskPatch.mk None None None (Some assigneeUserId) None None None.

Definition assignTask (taskId : string) (assigneeUserId : option string)
    (actorUserId : string) : Async (option Task.t) :=
  updated <- TaskRepo.update taskId (assigneePatch assigneeUserId) ;;
  match updated with
  | Some _ =>
      createActivity taskId TASK_ASSIGNED (assignedMessage assigneeUserId)
        actorUserId ;;;
      ret updated
  | None => ret updated
  end.

(** How [mapDocumentToTask] reads a stored assignee. *)
Definition readAssignee (a : option string) : option string :=
  match a with
  | Some x => if String.eqb x EmptyString then None else Some x
  | None => None
  end.

(** A document passes the filters that are given. *)
Definition matchesFilters (filters : TaskFilters.t) (d : TaskQuery.Doc) : bool :=
  match TaskFilters.status filters with
  | Some s => TaskQuery.whereStatus s d
  | None => true
  end
  && match TaskFilters.priority filters with
     | Some p => TaskQuery.wherePriority p d
     | None => true
     end
  && match truthy (TaskFilters.assigneeUserId filters) with
     | Some a => TaskQuery.whereAssignee a d
     | None => true
     end
  && match truthy (TaskFilters.tag filters) with
     | Some t => TaskQuery.whereTag t d
     | None => true
     end
  && match truthy (TaskFilters.searchQuery filters) with
     | Some q => TaskQuery.matchesSearch (toLowerCase q) (TaskQuery.toTask d)
     | None => true
     end.

(* ------------------------------------------------------------------ *)
(** ** [listComments] and [listActivities]

    [FirestoreCommentRepository.findByTaskId] and
    [FirestoreActivityRepository.findByTaskId] read the sub-collection of the
    task ordered by [createdAt], ascending for the comments and descending
    for the activities.  Documents of equal [createdAt] come by document
    id, which is the id of the entity, in the same direction. *)

Definition oldestFirst (a b : Comment.t) : Z :=
  thenBy (Comment.createdAt a - Comment.createdAt b)
         (compareDocumentIds (Comment.id a) (Comment.id b)).

Definition newestFirst (a b : Activity.t) : Z :=
  thenBy (Activity.createdAt b - Activity.createdAt a)
         (compareDocumentIds (Activity.id b) (Activity.id a)).

Definition findCommentsByTaskId (taskId : string) : Async (list Comment.t) :=
  fun w =>
    (Returned
       (jsSort oldestFirst
          (filter (fun c => String.eqb (Comment.taskId c) taskId) (comments w))),
     w).

Definition findActivitiesByTaskId (taskId : string) : Async (list Activity.t) :=
  fun w =>
    (Returned
       (jsSort newestFirst
          (filter (fun a => String.eqb (Activity.taskId a) taskId)
                  (activities w))),
     w).

Definition listComments (taskId userId : string) (userRole : Role)
  : Async (list Comment.t) :=
  task <- TaskRepo.findById taskId ;;
  match task with
  | None => throw "Task not found"
  | Some task =>
      if negb (Role_eqb userRole ADMIN)
         && nullable_neq (Task.assigneeUserId task) userId then
        throw "Forbidden: You can only view comments on tasks assigned to you"
      else findCommentsByTaskId taskId
  end.

Definition listActivities (taskId userId : string) (userRole : Role)
  : Async (list Activity.t) :=
  task <- TaskRepo.findById taskId ;;
  match task with
  | None => throw "Task not found"
  | Some task =>
      if negb (Role_eqb userRole ADMIN)
         && nullable_neq (Task.assigneeUserId task) userId then
        throw "Forbidden: You can only view activities on tasks assigned to you"
      else findActivitiesByTaskId taskId
  end.

(** The role and assignee check of the comment and activity services. *)
Definition mayAccess (userRole : Role) (userId : string) (task : Task.t)
  : Prop :=
  userRole = ADMIN \/ Task.assigneeUserId task = Some userId.

(* ------------------------------------------------------------------ *)
(** ** presentation/dto: the [validate] methods

    A DTO's [validate] returns or throws; it does not touch the world.  The
    fields have the types that the classes declare, an absent field being
    [None]. *)

Definition Validation : Type := Outcome unit.

Definition valid : Validation := Returned tt.

Definition invalid (message : string) : Validation := Thrown message.

(** [!s || s.trim().length === 0] on an optional string. *)
Definition blank (s : option string) : bool :=
  match s with
  | Some x => String.eqb x EmptyString || (strLength (trim x) =? 0)
  | None => true
  end.

Definition CreateTaskDTO_validate (title description : option string)
  : Validation :=
  if blank title then invalid "Title is required"
  else if blank description then invalid "Description is required"
  else
    match title, description with
    | Some title, Some description =>
        if strLength title >? 200 then
          invalid "Title must be 200 characters or less"
        else if strLength description >? 2000 then
          invalid "Description must be 2000 characters or less"
        else valid
    | _, _ => invalid "Title is required"
    end.

(** [status] and [priority] are members of their enums by type, so that
    their membership checks pass. *)
Definition UpdateTaskDTO_validate (title description : option string)
    (tags : option (list string)) : Validation :=
  match
    match title with
    | Some title =>
        if strLength (trim title) =? 0 then invalid "Title cannot be empty"
        else if strLength title >? 200 then
          invalid "Title must be 200 characters or less"
        else valid
    | None => valid
    end
  with
  | Thrown m => Thrown m
  | Returned _ =>
      match
        match description with
        | Some description =>
            if strLength (trim description) =? 0 then
              invalid "Description cannot be empty"
            else if strLength description >? 2000 then
              invalid "Description must be 2000 characters or less"
            else valid
        | None => valid
        end
      with
      | Thrown m => Thrown m
      | Returned _ =>
          match tags with
          | Some tags =>
              if existsb (fun tag => strLength (trim tag) =? 0) tags then
                invalid "All tags must be non-empty strings"
              else valid
          | None => valid
          end
      end
  end.

(** The id field of [StartTimeEntryDTO] and [StopTimeEntryDTO], as the JSON
    body gives it.  On a value that is truthy and not a string the call of
    [trim] throws a [TypeError], whose message is that of the engine. *)
Definition falsy (v : JsValue) : bool :=
  match v with
  | JsUndefined | JsNull => true
  | JsBoolean b => negb b
  | JsNumber n => n =? 0
  | JsString s => String.eqb s EmptyString
  | JsObject => false
  end.

Definition idField_validate (required notAFunction : string) (v : JsValue)
  : Outcome string :=
  if falsy v then Thrown required
  else
    match v with
    | JsString s =>
        if strLength (trim s) =? 0 then Thrown required else Returned s
    | _ => Thrown notAFunction
    end.

Definition StartTimeEntryDTO_validate (taskId : JsValue) : Outcome string :=
  idField_validate "Task ID is required"
                   "this.taskId.trim is not a function" taskId.

Definition StopTimeEntryDTO_validate (timeEntryId : JsValue) : Outcome string :=
  idField_validate "Time entry ID is required"
                   "this.timeEntryId.trim is not a function" timeEntryId.

(* ------------------------------------------------------------------ *)
(** ** presentation/controllers/timeEntry.controller.ts: [start], [stop]

    The body of a response holds the entry, whose dates the controller
    prints with [toISOString]. *)

Module TimeEntryRequest.
Record t : Type := mk {
  user : option AuthUser;
  bodyId : JsValue
}.
End TimeEntryRequest.

Inductive TimeEntryBody : Type :=
| EntryError (error : string)
| EntryJson (timeEntry : TimeEntry.t).

Module TimeEntryResponse.
Record t : Type := mk {
  status : Z;
  body : TimeEntryBody
}.
End TimeEntryResponse.

Definition isMember (user : option AuthUser) : option AuthUser :=
  match user with
  | Some u => if Role_eqb (role u) MEMBER then Some u else None
  | None => None
  end.

Definition timeEntryController_start (req : TimeEntryRequest.t)
  : World -> TimeEntryResponse.t * World :=
  fun w =>
    match isMember (TimeEntryRequest.user req) with
    | None =>
        (TimeEntryResponse.mk 403
           (EntryError "Forbidden: Member access required"), w)
    | Some u =>
        match StartTimeEntryDTO_validate (TimeEntryRequest.bodyId req) with
        | Thrown message => (TimeEntryResponse.mk 400 (EntryError message), w)
        | Returned taskId =>
            match startTimeEntry (uid u) taskId w with
            | (Returned timeEntry, w') =>
                (TimeEntryResponse.mk 201 (EntryJson timeEntry), w')
            | (Thrown message, w') =>
                (TimeEntryResponse.mk 400 (EntryError message), w')
            end
        end
    end.

Definition timeEntryController_stop (req : TimeEntryRequest.t)
  : World -> TimeEntryResponse.t * World :=
  fun w =>
    match isMember (TimeEntryRequest.user req) with
    | None =>
        (TimeEntryResponse.mk 403
           (EntryError "Forbidden: Member access required"), w)
    | Some u =>
        match StopTimeEntryDTO_validate (TimeEntryRequest.bodyId req) with
        | Thrown message => (TimeEntryResponse.mk 400 (EntryError message), w)
        | Returned timeEntryId =>
            match stopTimeEntry (uid u) timeEntryId w with
            | (Returned None, w') =>
                (TimeEntryResponse.mk 404 (EntryError "Time entry not found"),
                 w')
            | (Returned (Some timeEntry), w') =>
                (TimeEntryResponse.mk 200 (EntryJson timeEntry), w')
            | (Thrown message, w') =>
                if includes "Forbidden" message then
                  (TimeEntryResponse.mk 403 (EntryError message), w')
                else (TimeEntryResponse.mk 400 (EntryError message), w')
            end
        end
    end.

(* ------------------------------------------------------------------ *)
(** ** application/services/timeEntry.service.ts: [getTodaySummary]

    [perTaskTodaySeconds] is a plain object, so that a key is first looked
    up among the object's own properties and then on [Object.prototype].
    Under a key that names a member of [Object.prototype] the loop finds
    the inherited member, which is truthy, and [+] makes a string of it and
    the number; the string is stored as an own property, except under
    [__proto__], whose setter ignores a string.  The association list
    holds the own properties by their order of creation, which is not the
    enumeration order of the object where a key is an array index. *)

Inductive PropertyValue : Type :=
| Seconds (n : Z)
| Concatenated.

Definition objectPrototypeMembers : list string :=
  [ "constructor"; "__defineGetter__"; "__defineSetter__"; "hasOwnProperty";
    "__lookupGetter__"; "__lookupSetter__"; "isPrototypeOf";
    "propertyIsEnumerable"; "toString"; "valueOf"; "__proto__";
    "toLocaleString" ].

Definition inherited (key : string) : bool :=
  existsb (String.eqb key) objectPrototypeMembers.

(** [perTask[taskId] = (perTask[taskId] || 0) + durationSeconds]. *)
Definition addSeconds (perTask : JsMap.t PropertyValue) (taskId : string)
    (durationSeconds : Z) : JsMap.t PropertyValue :=
  match JsMap.get taskId perTask with
  | Some (Seconds n) =>
      JsMap.set taskId (Seconds ((if n =? 0 then 0 else n) + durationSeconds))
                perTask
  | Some Concatenated => JsMap.set taskId Concatenated perTask
  | None =>
      if String.eqb taskId "__proto__" then perTask
      else if inherited taskId then JsMap.set taskId Concatenated perTask
      else JsMap.set taskId (Seconds (0 + durationSeconds)) perTask
  end.

Module TodaySummary.
Record t : Type := mk {
  totalTodaySeconds : Z;
  perTaskTodaySeconds : JsMap.t PropertyValue;
  completedTasksTodayCount : Z
}.
End TodaySummary.

(** One turn of the loop over [userEntries]. *)
Definition addToday (acc : Z * JsMap.t PropertyValue) (entry : TimeEntry.t)
  : Z * JsMap.t PropertyValue :=
  match TimeEntry.durationSeconds entry with
  | Some durationSeconds =>
      if durationSeconds >? 0 then
        (fst acc + durationSeconds,
         addSeconds (snd acc) (TimeEntry.taskId entry) durationSeconds)
      else acc
  | None => acc
  end.

(** The filter of [completedTasksToday]; the [updatedAt] of a task is a
    [Date] object, which is truthy. *)
Definition completedToday (todayStart todayEnd : Date) (task : Task.t)
  : bool :=
  if negb (TaskStatus_eqb (Task.status task) DONE) then false
  else
    let updatedDate := Task.updatedAt task in
    (updatedDate >=? todayStart) && (updatedDate <=? todayEnd).

Section Today.

(** [new Date(now.getFullYear(), now.getMonth(), now.getDate())]: the
    midnight that starts the day of [now] in the time zone of the host. *)
Variable startOfLocalDay : Date -> Date.

Definition getTodaySummary (userId : string) : Async TodaySummary.t :=
  now <- newDate ;;
  let todayStart := startOfLocalDay now in
  let todayEnd := now in
  todayEntries <- TimeEntryRepo.listCompletedInRange todayStart todayEnd ;;
  let userEntries :=
    filter (fun entry => String.eqb (TimeEntry.userId entry) userId)
           todayEntries in
  let totals := fold_left addToday userEntries (0, JsMap.empty) in
  assignedTasks <- TaskQuery.listByAssignee userId ;;
  let completedTasksToday :=
    filter (completedToday todayStart todayEnd) assignedTasks in
  ret (TodaySummary.mk (fst totals) (snd totals)
         (Z.of_nat (List.length completedTasksToday))).

End Today.

(** The start of the day in UTC. *)
Definition startOfUtcDay (now : Date) : Date := now - now mod 86400000.

(** What the entries of a user on one task add up to, and the sum of the
    numbers of [perTaskTodaySeconds]. *)
Definition expectedPerTask (from to : Date) (entries : list TimeEntry.t)
    (u taskId : string) : Z :=
  fold_right Z.add 0
    (map durationOf
       (filter (fun e => contributesFor from to u e
                         && String.eqb (TimeEntry.taskId e) taskId)
               entries)).

Definition secondsOf (v : PropertyValue) : Z :=
  match v with
  | Seconds n => n
  | Concatenated => 0
  end.

Definition sumSeconds (perTask : JsMap.t PropertyValue) : Z :=
  fold_right Z.add 0 (map secondsOf (JsMap.values perTask)).

(** The entries that count for a task. *)
Definition onTask (taskId : string) (e : TimeEntry.t) : bool :=
  positiveDuration e && String.eqb (TimeEntry.taskId e) taskId.

Definition secondsAt (perTask : JsMap.t PropertyValue) (key : string) : Z :=
  match JsMap.get key perTask with
  | Some v => secondsOf v
  | None => 0
  end.

(** The stored tasks that [completedTasksTodayCount] counts. *)
Definition countedToday (userId : string) (from to : Date)
    (d : TaskQuery.Doc) : bool :=
  TaskQuery.whereAssignee userId d
  && TaskStatus_eqb (TaskDoc.status (snd d)) DONE
  && (from <=? TaskDoc.updatedAt (snd d))
  && (TaskDoc.updatedAt (snd d) <=? to).

(* ------------------------------------------------------------------ *)
(** ** presentation/controllers/task.controller.ts: [update]

    The body follows the types that [UpdateTaskDTO] declares.  Its
    [dueDate] is absent, [null], the empty string, or a string that
    [new Date] parses, given here by the date it denotes; a string that
    is no date is outside the model. *)

Inductive DueDateField : Type :=
| DueAbsent
| DueNull
| DueEmpty
| DueDate (date : Date).

Module UpdateTaskBody.
Record t : Type := mk {
  title : option string;
  description : option string;
  status : option TaskStatus;
  assigneeUserId : option (option string);
  priority : option Priority;
  dueDate : DueDateField;
  tags : option (list string)
}.
End UpdateTaskBody.

Module TaskRequest.
Record t : Type := mk {
  user : option AuthUser;
  paramsId : string;
  body : UpdateTaskBody.t
}.
End TaskRequest.

Inductive TaskBody : Type :=
| TaskError (error : string)
| TaskJson (task : Task.t).

Module TaskResponse.
Record t : Type := mk {
  status : Z;
  body : TaskBody
}.
End TaskResponse.

Definition isAdmin (user : option AuthUser) : option AuthUser :=
  match user with
  | Some u => if Role_eqb (role u) ADMIN then Some u else None
  | None => None
  end.

(** [dto.dueDate ? new Date(dto.dueDate) : undefined]. *)
Definition dueDateOf (field : DueDateField) : option Date :=
  match field with
  | DueDate date => Some date
  | DueAbsent | DueNull | DueEmpty => None
  end.

(** The updates that the controller hands to [updateTaskAsAdmin]: the
    fields of the DTO, and under [dueDate] the date, or [null] where the
    controller found none. *)
Definition updatesOf (dto : UpdateTaskBody.t) : TaskPatch.t :=
  let dueDate := dueDateOf (UpdateTaskBody.dueDate dto) in
  TaskPatch.mk
    (UpdateTaskBody.title dto)
    (UpdateTaskBody.description dto)
    (UpdateTaskBody.status dto)
    (UpdateTaskBody.assigneeUserId dto)
    (UpdateTaskBody.priority dto)
    (Some match dueDate with Some date => Some date | None => None end)
    (UpdateTaskBody.tags dto).

Definition taskController_update (req : TaskRequest.t)
  : World -> TaskResponse.t * World :=
  fun w =>
    match isAdmin (TaskRequest.user req) with
    | None =>
        (TaskResponse.mk 403 (TaskError "Forbidden: Admin access required"), w)
    | Some u =>
        let id := TaskRequest.paramsId req in
        let dto := TaskRequest.body req in
        match
          UpdateTaskDTO_validate (UpdateTaskBody.title dto)
            (UpdateTaskBody.description dto) (UpdateTaskBody.tags dto)
        with
        | Thrown message => (TaskResponse.mk 400 (TaskError message), w)
        | Returned _ =>
            match updateTaskAsAdmin id (updatesOf dto) (uid u) w with
            | (Returned None, w') =>
                (TaskResponse.mk 404 (TaskError "Task not found"), w')
            | (Returned (Some updated), w') =>
                (TaskResponse.mk 200 (TaskJson updated), w')
            | (Thrown message, w') =>
                (TaskResponse.mk 400 (TaskError message), w')
            end
        end
    end.

(* ================================================================== *)
(** * Properties *)

(** ** [JsMap] *)

Lemma JsMap_get_set_same {V : Type} (k : string) (v : V) (m : JsMap.t V) :
  JsMap.get k (JsMap.set k v m) = Some v.
Proof.
  induction m as [|[k' v'] m IH]; simpl.
  - now rewrite String.eqb_refl.
  - destruct (String.eqb k k') eqn:E; simpl; rewrite ?E, ?String.eqb_refl; auto.
Qed.

Lemma JsMap_get_set_other {V : Type} (k k' : string) (v : V) (m : JsMap.t V) :
  k <> k' -> JsMap.get k' (JsMap.set k v m) = JsMap.get k' m.
Proof.
  intros Hne. induction m as [|[k0 v0] m IH]; simpl.
  - destruct (String.eqb_spec k' k); congruence.
  - destruct (String.eqb_spec k k0) as [->|Hk]; simpl.
    + destruct (String.eqb_spec k' k0); congruence.
    + destruct (String.eqb_spec k' k0); auto.
Qed.

Lemma JsMap_get_In {V : Type} (k : string) (v : V) (m : JsMap.t V) :
  JsMap.get k m = Some v -> In (k, v) m.
Proof.
  induction m as [|[k' v'] m IH]; simpl; [discriminate|].
  destruct (String.eqb_spec k k') as [->|Hk]; intros H.
  - inversion H; auto.
  - auto.
Qed.

Lemma JsMap_In_values_set {V : Type} (k : string) (v : V) (m : JsMap.t V) :
  In v (JsMap.values (JsMap.set k v m)).
Proof.
  induction m as [|[k' v'] m IH]; simpl; auto.
  destruct (String.eqb k k'); simpl; auto.
Qed.

Lemma existsb_keys_In {V : Type} (k : string) (v : V) (m : JsMap.t V) :
  In (k, v) m -> existsb (String.eqb k) (JsMap.keys m) = true.
Proof.
  intros H. apply existsb_exists. exists k. split.
  - unfold JsMap.keys. change k with (fst (k, v)). now apply in_map.
  - apply String.eqb_refl.
Qed.

Lemma JsMap_In_get {V : Type} (k : string) (v : V) (m : JsMap.t V) :
  uniqueKeys m = true -> In (k, v) m -> JsMap.get k m = Some v.
Proof.
  induction m as [|[k' v'] m IH]; simpl; [tauto|].
  intros Hu [Hin|Hin].
  - inversion Hin; subst. now rewrite String.eqb_refl.
  - apply andb_true_iff in Hu as [Hk Hu].
    destruct (String.eqb_spec k k') as [->|Hne]; auto.
    apply (existsb_keys_In _ _ _) in Hin. rewrite Hin in Hk. discriminate.
Qed.

Lemma find_some_of_In {A : Type} (p : A -> bool) (l : list A) (x : A) :
  In x l -> p x = true -> exists y, find p l = Some y.
Proof.
  intros Hin Hp. destruct (find p l) eqn:E; eauto.
  rewrite (find_none _ _ E x Hin) in Hp. discriminate.
Qed.

(** ** The validators *)

Lemma computeDurationSeconds_ok (start end_ : Date) (w : World) :
  start < end_ ->
  computeDurationSeconds start end_ w = (Returned ((end_ - start) / 1000), w).
Proof.
  intros H. unfold computeDurationSeconds, ensureStartBeforeEnd, bind.
  destruct (Z.geb_spec start end_); [lia|reflexivity].
Qed.

Lemma computeDurationSeconds_guard (start end_ : Date) (w : World) :
  start >= end_ ->
  computeDurationSeconds start end_ w
  = (Thrown "Start time must be before end time", w).
Proof.
  intros H. unfold computeDurationSeconds, ensureStartBeforeEnd, bind.
  destruct (Z.geb_spec start end_); [reflexivity|lia].
Qed.

Lemma duration_nonneg (start end_ : Date) :
  start < end_ -> 0 <= (end_ - start) / 1000.
Proof. intros H. apply Z.div_pos; lia. Qed.

(** ** [stopTimeEntry] *)

Lemma stopTimeEntry_missing (userId timeEntryId : string) (w : World) :
  TimeEntryRepo.lookup w timeEntryId = None ->
  stopTimeEntry userId timeEntryId w = (Returned None, w).
Proof.
  intros H. unfold stopTimeEntry, bind, TimeEntryRepo.findById.
  now rewrite H.
Qed.

Lemma stopTimeEntry_forbidden (userId timeEntryId : string) (w : World)
    (e : TimeEntry.t) :
  TimeEntryRepo.lookup w timeEntryId = Some e ->
  TimeEntry.userId e <> userId ->
  stopTimeEntry userId timeEntryId w
  = (Thrown "Forbidden: You can only stop your own time entries", w).
Proof.
  intros H Hu. unfold stopTimeEntry, bind, TimeEntryRepo.findById.
  rewrite H. apply String.eqb_neq in Hu. now rewrite Hu.
Qed.

Lemma stopTimeEntry_already_stopped (userId timeEntryId : string) (w : World)
    (e : TimeEntry.t) (t : Date) :
  TimeEntryRepo.lookup w timeEntryId = Some e ->
  TimeEntry.userId e = userId ->
  TimeEntry.endTime e = Some t ->
  stopTimeEntry userId timeEntryId w
  = (Thrown "Time entry is already stopped", w).
Proof.
  intros H Hu He. unfold stopTimeEntry, bind, TimeEntryRepo.findById.
  rewrite H. apply String.eqb_eq in Hu. now rewrite Hu, He.
Qed.

Lemma stopTimeEntry_guard (userId timeEntryId : string) (w : World)
    (e : TimeEntry.t) :
  TimeEntryRepo.lookup w timeEntryId = Some e ->
  TimeEntry.userId e = userId ->
  TimeEntry.endTime e = None ->
  TimeEntry.startTime e >= clock w ->
  stopTimeEntry userId timeEntryId w
  = (Thrown "Start time must be before end time", w).
Proof.
  intros H Hu He Hs. unfold stopTimeEntry, bind, TimeEntryRepo.findById, newDate.
  rewrite H. apply String.eqb_eq in Hu. rewrite Hu, He. simpl.
  now rewrite (computeDurationSeconds_guard _ _ w Hs).
Qed.

Lemma stopTimeEntry_applied (userId timeEntryId : string) (w : World)
    (e : TimeEntry.t) :
  TimeEntryRepo.lookup w timeEntryId = Some e ->
  TimeEntry.userId e = userId ->
  TimeEntry.endTime e = None ->
  TimeEntry.startTime e < clock w ->
  let d := (clock w - TimeEntry.startTime e) / 1000 in
  let e' := TimeEntryRepo.applyPatch (stopPatch (clock w) d) (clock w) e in
  let a := Activity.mk (uuidSource w (uuidCount w)) (TimeEntry.taskId e)
             TIMER_STOPPED (stoppedTimerMessage d) userId (clock w) (clock w) in
  stopTimeEntry userId timeEntryId w
  = (Returned (Some e'),
     mkWorld (taskDocs w) (JsMap.set timeEntryId e' (timeEntries w))
             (comments w) (activities w ++ [a]) (clock w) (uuidSource w)
             (S (uuidCount w))).
Proof.
  intros H Hu He Hs d e' a.
  unfold stopTimeEntry, bind, TimeEntryRepo.findById, newDate.
  rewrite H. apply String.eqb_eq in Hu. rewrite Hu, He. simpl.
  rewrite (computeDurationSeconds_ok _ _ w Hs).
  unfold TimeEntryRepo.update. rewrite H. reflexivity.
Qed.

(** C2. [stopTimeEntry] returns [null], without throwing, when no entry has
    the id; it throws the Forbidden error when the entry is another user's;
    it throws "Time entry is already stopped" when the entry is the user's and
    has an end time.  No other check stands before the stop: for an Active
    entry of the user the stop is carried out, and it returns the stopped
    entry unless the start-before-now guard of its duration computation
    fails. *)
Theorem stopTimeEntry_failure_modes (userId timeEntryId : string) (w : World) :
  match TimeEntryRepo.lookup w timeEntryId with
  | None => stopTimeEntry userId timeEntryId w = (Returned None, w)
  | Some e =>
      if negb (String.eqb (TimeEntry.userId e) userId) then
        exists message,
          stopTimeEntry userId timeEntryId w = (Thrown message, w)
          /\ isForbidden message = true
      else
        match TimeEntry.endTime e with
        | Some _ =>
            stopTimeEntry userId timeEntryId w
            = (Thrown "Time entry is already stopped", w)
        | None =>
            if TimeEntry.startTime e <? clock w then
              exists e' w',
                stopTimeEntry userId timeEntryId w = (Returned (Some e'), w')
                /\ TimeEntry.id e' = TimeEntry.id e
                /\ TimeEntry.endTime e' = Some (clock w)
            else
              stopTimeEntry userId timeEntryId w
              = (Thrown "Start time must be before end time", w)
        end
  end.
Proof.
  destruct (TimeEntryRepo.lookup w timeEntryId) as [e|] eqn:H.
  - destruct (String.eqb_spec (TimeEntry.userId e) userId) as [Hu|Hu]; simpl.
    + destruct (TimeEntry.endTime e) as [t|] eqn:He.
      * eapply stopTimeEntry_already_stopped; eauto.
      * destruct (Z.ltb_spec (TimeEntry.startTime e) (clock w)) as [Hs|Hs].
        -- do 2 eexists. split; [|split].
           ++ apply (stopTimeEntry_applied _ _ _ _ H Hu He Hs).
           ++ reflexivity.
           ++ reflexivity.
        -- apply (stopTimeEntry_guard _ _ _ _ H Hu He). lia.
    + eexists. split.
      * apply (stopTimeEntry_forbidden _ _ _ _ H Hu).
      * reflexivity.
  - now apply stopTimeEntry_missing.
Qed.

(** C3. An Active entry of the user that started at [T0], stopped when the
    clock reads [T1]: if [T0 < T1] the stopped entry carries
    [durationSeconds = floor((T1 - T0) / 1000)], which is not negative, and
    [endTime = T1], both written by the one update; if [T0 >= T1] the call
    throws "Start time must be before end time" and the world is as
    before. *)
Theorem stopTimeEntry_duration (userId timeEntryId : string) (w : World)
    (e : TimeEntry.t) :
  TimeEntryRepo.lookup w timeEntryId = Some e ->
  TimeEntry.userId e = userId ->
  TimeEntry.endTime e = None ->
  let T0 := TimeEntry.startTime e in
  let T1 := clock w in
  (T0 < T1 ->
   exists e' w',
     stopTimeEntry userId timeEntryId w = (Returned (Some e'), w')
     /\ TimeEntry.durationSeconds e' = Some ((T1 - T0) / 1000)
     /\ 0 <= (T1 - T0) / 1000
     /\ TimeEntry.endTime e' = Some T1
     /\ TimeEntry.startTime e' = T0
     /\ TimeEntryRepo.lookup w' timeEntryId = Some e')
  /\ (T0 >= T1 ->
      stopTimeEntry userId timeEntryId w
      = (Thrown "Start time must be before end time", w)).
Proof.
  intros H Hu He T0 T1. split; intros Hs.
  - do 2 eexists. split.
    + apply (stopTimeEntry_applied _ _ _ _ H Hu He Hs).
    + repeat split; try reflexivity.
      * now apply duration_nonneg.
      * unfold TimeEntryRepo.lookup. simpl. apply JsMap_get_set_same.
  - apply (stopTimeEntry_guard _ _ _ _ H Hu He Hs).
Qed.

Lemma stopTimeEntry_duration_witness :
  let e1 := Sample.entry "e1" "task1" "member1" 1000000 None None in
  TimeEntryRepo.lookup Sample.running "e1" = Some e1
  /\ TimeEntry.userId e1 = "member1"
  /\ TimeEntry.endTime e1 = None
  /\ exists e' w',
       stopTimeEntry "member1" "e1" Sample.running = (Returned (Some e'), w')
       /\ TimeEntry.durationSeconds e' = Some 90
       /\ TimeEntry.endTime e' = Some 1090000.
Proof.
  intros e1. repeat split.
  destruct (stopTimeEntry_duration "member1" "e1" Sample.running e1
              eq_refl eq_refl eq_refl) as [Hok _].
  destruct (Hok eq_refl) as (e' & w' & Hrun & Hd & _ & Hend & _).
  exists e', w'. repeat split; assumption.
Defined.

(** C9. Whenever [stopTimeEntry] throws, the world it leaves is the world
    it found: no time entry is updated and no activity is created.  The
    same holds when it returns [null].  Only when it returns a stopped entry
    has the store been updated (that entry, under its id) and one
    TIMER_STOPPED activity been appended. *)
Theorem stopTimeEntry_effects_only_on_success (userId timeEntryId : string)
    (w : World) :
  match stopTimeEntry userId timeEntryId w with
  | (Thrown _, w') => w' = w
  | (Returned None, w') => w' = w
  | (Returned (Some e'), w') =>
      timeEntries w' = JsMap.set timeEntryId e' (timeEntries w)
      /\ exists a,
           activities w' = (activities w ++ [a])%list
           /\ Activity.type a = TIMER_STOPPED
  end.
Proof.
  destruct (TimeEntryRepo.lookup w timeEntryId) as [e|] eqn:H.
  - destruct (String.eqb_spec (TimeEntry.userId e) userId) as [Hu|Hu].
    + destruct (TimeEntry.endTime e) as [t|] eqn:He.
      * now rewrite (stopTimeEntry_already_stopped _ _ _ _ _ H Hu He).
      * destruct (Z.ltb_spec (TimeEntry.startTime e) (clock w)) as [Hs|Hs].
        -- rewrite (stopTimeEntry_applied _ _ _ _ H Hu He Hs). simpl.
           split; [reflexivity|]. eexists. split; reflexivity.
        -- rewrite (stopTimeEntry_guard _ _ _ _ H Hu He); [reflexivity|lia].
    + now rewrite (stopTimeEntry_forbidden _ _ _ _ H Hu).
  - now rewrite (stopTimeEntry_missing _ _ _ H).
Qed.

(** ** [startTimeEntry] *)

Lemma startTimeEntry_not_found (userId taskId : string) (w : World) :
  TaskRepo.lookup w taskId = None ->
  startTimeEntry userId taskId w = (Thrown "Task not found", w).
Proof.
  intros H. unfold startTimeEntry, bind, TaskRepo.findById. now rewrite H.
Qed.

Lemma startTimeEntry_forbidden (userId taskId : string) (w : World)
    (task : Task.t) :
  TaskRepo.lookup w taskId = Some task ->
  nullable_neq (Task.assigneeUserId task) userId = true ->
  startTimeEntry userId taskId w
  = (Thrown "Forbidden: You can only start timer for tasks assigned to you", w).
Proof.
  intros H Ha. unfold startTimeEntry, bind, TaskRepo.findById.
  now rewrite H, Ha.
Qed.

Lemma startTimeEntry_conflict (userId taskId : string) (w : World)
    (task : Task.t) (active : TimeEntry.t) :
  TaskRepo.lookup w taskId = Some task ->
  nullable_neq (Task.assigneeUserId task) userId = false ->
  TimeEntryRepo.activeOf w userId = Some active ->
  startTimeEntry userId taskId w
  = (Thrown "You already have an active time entry. Please stop it first.", w).
Proof.
  intros H Ha Hact.
  unfold startTimeEntry, bind, TaskRepo.findById, TimeEntryRepo.findActiveByUser.
  now rewrite H, Ha, Hact.
Qed.

Lemma startTimeEntry_created (userId taskId : string) (w : World)
    (task : Task.t) :
  TaskRepo.lookup w taskId = Some task ->
  nullable_neq (Task.assigneeUserId task) userId = false ->
  TimeEntryRepo.activeOf w userId = None ->
  let id := uuidSource w (uuidCount w) in
  let timeEntry :=
    TimeEntry.mk id taskId userId (clock w) None None (clock w) (clock w) in
  let a := Activity.mk (uuidSource w (S (uuidCount w))) taskId TIMER_STARTED
             "Started timer" userId (clock w) (clock w) in
  startTimeEntry userId taskId w
  = (Returned timeEntry,
     mkWorld (taskDocs w) (JsMap.set id timeEntry (timeEntries w))
             (comments w) (activities w ++ [a]) (clock w) (uuidSource w)
             (S (S (uuidCount w)))).
Proof.
  intros H Ha Hact id timeEntry a.
  unfold startTimeEntry, bind, TaskRepo.findById, TimeEntryRepo.findActiveByUser.
  now rewrite H, Ha, Hact.
Qed.

Lemma nullable_neq_false (a : option string) (b : string) :
  nullable_neq a b = false <-> a = Some b.
Proof.
  destruct a as [a|]; simpl.
  - rewrite negb_false_iff, String.eqb_eq. split; congruence.
  - split; discriminate.
Qed.

Lemma activeOf_present (w : World) (userId : string) (e : TimeEntry.t) :
  In e (JsMap.values (timeEntries w)) ->
  TimeEntry.userId e = userId ->
  TimeEntry.endTime e = None ->
  exists active, TimeEntryRepo.activeOf w userId = Some active.
Proof.
  intros Hin Hu He. apply (find_some_of_In _ _ e Hin).
  unfold TimeEntryRepo.isActiveOf. rewrite He.
  apply String.eqb_eq in Hu. now rewrite Hu.
Qed.

Lemma startTimeEntry_decision (userId taskId : string) (w : World) :
  match TaskRepo.lookup w taskId with
  | None => startTimeEntry userId taskId w = (Thrown "Task not found", w)
  | Some task =>
      if nullable_neq (Task.assigneeUserId task) userId then
        exists message,
          startTimeEntry userId taskId w = (Thrown message, w)
          /\ isForbidden message = true
      else
        match TimeEntryRepo.activeOf w userId with
        | Some _ =>
            startTimeEntry userId taskId w
            = (Thrown
                 "You already have an active time entry. Please stop it first.",
               w)
        | None =>
            exists created w',
              startTimeEntry userId taskId w = (Returned created, w')
              /\ TimeEntry.endTime created = None
              /\ TimeEntry.durationSeconds created = None
              /\ TimeEntry.taskId created = taskId
              /\ TimeEntry.userId created = userId
              /\ TimeEntry.startTime created = clock w
              /\ In created (JsMap.values (timeEntries w'))
        end
  end.
Proof.
  destruct (TaskRepo.lookup w taskId) as [task|] eqn:H.
  - destruct (nullable_neq (Task.assigneeUserId task) userId) eqn:Ha.
    + eexists. split.
      * apply (startTimeEntry_forbidden _ _ _ _ H Ha).
      * reflexivity.
    + destruct (TimeEntryRepo.activeOf w userId) as [active|] eqn:Hact.
      * apply (startTimeEntry_conflict _ _ _ _ _ H Ha Hact).
      * do 2 eexists. split.
        -- apply (startTimeEntry_created _ _ _ _ H Ha Hact).
        -- repeat split. simpl. apply JsMap_In_values_set.
  - now apply startTimeEntry_not_found.
Qed.

(** C1, as amended.  [startTimeEntry] checks its preconditions in this order:
    no task under [taskId]: it throws "Task not found"; the task's assignee
    is not the user (also when the task has none): it throws the Forbidden
    error; the user has an Active entry, on whatever task: it throws "You
    already have an active time entry..."; otherwise it creates and returns
    an entry with no end time and no duration.  A second start by the same
    user, in any later world that still holds the created entry, always
    fails: with the Conflict error when its task exists and is assigned to
    the user, with the error of an earlier check otherwise. *)
Theorem startTimeEntry_preconditions_in_order (userId taskId : string)
    (w : World) :
  match TaskRepo.lookup w taskId with
  | None => startTimeEntry userId taskId w = (Thrown "Task not found", w)
  | Some task =>
      if nullable_neq (Task.assigneeUserId task) userId then
        exists message,
          startTimeEntry userId taskId w = (Thrown message, w)
          /\ isForbidden message = true
      else
        match TimeEntryRepo.activeOf w userId with
        | Some _ =>
            startTimeEntry userId taskId w
            = (Thrown
                 "You already have an active time entry. Please stop it first.",
               w)
        | None =>
            exists created w',
              startTimeEntry userId taskId w = (Returned created, w')
              /\ TimeEntry.endTime created = None
              /\ TimeEntry.durationSeconds created = None
              /\ TimeEntry.taskId created = taskId
              /\ TimeEntry.userId created = userId
              /\ In created (JsMap.values (timeEntries w'))
              /\ forall (taskId2 : string) (w2 : World),
                   In created (JsMap.values (timeEntries w2)) ->
                   (exists message,
                      startTimeEntry userId taskId2 w2 = (Thrown message, w2))
                   /\ (forall task2,
                         TaskRepo.lookup w2 taskId2 = Some task2 ->
                         Task.assigneeUserId task2 = Some userId ->
                         startTimeEntry userId taskId2 w2
                         = (Thrown
                              "You already have an active time entry. Please stop it first.",
                            w2))
        end
  end.
Proof.
  pose proof (startTimeEntry_decision userId taskId w) as D.
  destruct (TaskRepo.lookup w taskId) as [task|]; [|exact D].
  destruct (nullable_neq (Task.assigneeUserId task) userId); [exact D|].
  destruct (TimeEntryRepo.activeOf w userId); [exact D|].
  destruct D as (created & w' & Hrun & He & Hd & Ht & Hu & _ & Hin).
  exists created, w'. repeat split; try assumption.
  - destruct (activeOf_present w2 userId created H Hu He) as [active Hact].
    pose proof (startTimeEntry_decision userId taskId2 w2) as D2.
    destruct (TaskRepo.lookup w2 taskId2) as [task2|]; [|eauto].
    destruct (nullable_neq (Task.assigneeUserId task2) userId).
    + destruct D2 as (m & Hm & _). eauto.
    + rewrite Hact in D2. eauto.
  - intros task2 Hl Ha.
    destruct (activeOf_present w2 userId created H Hu He) as [active Hact].
    apply (startTimeEntry_conflict _ _ _ _ active Hl); [|exact Hact].
    now apply nullable_neq_false.
Qed.

Lemma startTimeEntry_preconditions_witness :
  exists created w1,
    startTimeEntry "member1" "task1" Sample.idle = (Returned created, w1)
    /\ startTimeEntry "member1" "task2" w1
       = (Thrown "You already have an active time entry. Please stop it first.",
          w1).
Proof.
  pose proof (startTimeEntry_preconditions_in_order "member1" "task1"
                Sample.idle) as D.
  change (TaskRepo.lookup Sample.idle "task1")
    with (Some (TaskRepo.mapDocumentToTask "task1"
                  (Sample.doc (Some "member1") None []))) in D.
  change (TimeEntryRepo.activeOf Sample.idle "member1")
    with (@None TimeEntry.t) in D.
  cbv iota beta in D.
  change (nullable_neq _ "member1") with false in D.
  cbv iota in D.
  destruct D as (created & w1 & Hrun & _ & _ & _ & _ & Hin & Hnext).
  exists created, w1. split; [exact Hrun|].
  destruct (Hnext "task2" w1 Hin) as [_ Hconflict].
  apply (Hconflict (TaskRepo.mapDocumentToTask "task2"
                      (Sample.doc (Some "member1") (Some 86400000) ["a"; "b"]))).
  - assert (Ht : taskDocs w1 = Sample.tasks).
    { vm_compute in Hrun. inversion Hrun. reflexivity. }
    unfold TaskRepo.lookup. rewrite Ht. reflexivity.
  - reflexivity.
Defined.

(** C1 as first stated fails: after a successful start, a second start on a
    task that does not exist throws "Task not found", not the Conflict
    error. *)
Lemma second_start_may_fail_earlier :
  exists created w1,
    startTimeEntry "member1" "task1" Sample.idle = (Returned created, w1)
    /\ TimeEntry.endTime created = None
    /\ startTimeEntry "member1" "task9" w1 = (Thrown "Task not found", w1)
    /\ "Task not found"
       <> "You already have an active time entry. Please stop it first.".
Proof.
  do 2 eexists. split; [lazy; reflexivity|].
  split; [reflexivity|]. split; [reflexivity|discriminate].
Qed.

(** ** The store invariants *)

Lemma validStore_lookup (w : World) (e : TimeEntry.t) :
  validStore w = true ->
  In e (JsMap.values (timeEntries w)) ->
  TimeEntryRepo.lookup w (TimeEntry.id e) = Some e.
Proof.
  unfold validStore, TimeEntryRepo.lookup. intros Hv Hin.
  apply andb_true_iff in Hv as [Hu Hk].
  apply in_map_iff in Hin as ([k e0] & He & Hin). simpl in He. subst e0.
  unfold keyedById in Hk. rewrite forallb_forall in Hk.
  specialize (Hk _ Hin). simpl in Hk. apply String.eqb_eq in Hk. subst k.
  now apply JsMap_In_get.
Qed.

Lemma isActiveOf_spec (userId : string) (e : TimeEntry.t) :
  TimeEntryRepo.isActiveOf userId e = true
  <-> TimeEntry.userId e = userId /\ TimeEntry.endTime e = None.
Proof.
  unfold TimeEntryRepo.isActiveOf. rewrite andb_true_iff, String.eqb_eq.
  destruct (TimeEntry.endTime e); intuition congruence.
Qed.

Lemma activeOf_some (w : World) (userId : string) (e : TimeEntry.t) :
  TimeEntryRepo.activeOf w userId = Some e ->
  In e (JsMap.values (timeEntries w))
  /\ TimeEntry.userId e = userId /\ TimeEntry.endTime e = None.
Proof.
  intros H. apply find_some in H as [Hin Hp].
  apply isActiveOf_spec in Hp. tauto.
Qed.

Lemma find_filter_head {A : Type} (p : A -> bool) (l : list A) :
  find p l = hd_error (filter p l).
Proof.
  induction l as [|x l IH]; simpl; [reflexivity|].
  destruct (p x); simpl; auto.
Qed.

Lemma singleTimer_activeOf (w : World) (userId : string) (e : TimeEntry.t) :
  singleTimer w userId = true ->
  In e (JsMap.values (timeEntries w)) ->
  TimeEntry.userId e = userId ->
  TimeEntry.endTime e = None ->
  TimeEntryRepo.activeOf w userId = Some e.
Proof.
  unfold singleTimer, TimeEntryRepo.activeOf. intros Hs Hin Hu He.
  rewrite find_filter_head.
  assert (Hf : In e (filter (TimeEntryRepo.isActiveOf userId)
                            (JsMap.values (timeEntries w)))).
  { apply filter_In. split; [assumption|]. now apply isActiveOf_spec. }
  apply Nat.leb_le in Hs.
  destruct (filter (TimeEntryRepo.isActiveOf userId)
                   (JsMap.values (timeEntries w))) as [|x [|y l]];
    simpl in *; [tauto| |lia].
  destruct Hf as [->|[]]. reflexivity.
Qed.

(** ** [completeTask] *)

Lemma TaskRepo_lookup_doc (w : World) (taskId : string) (task : Task.t) :
  TaskRepo.lookup w taskId = Some task ->
  exists d,
    JsMap.get taskId (taskDocs w) = Some d
    /\ task = TaskRepo.mapDocumentToTask taskId d.
Proof.
  unfold TaskRepo.lookup. destruct (JsMap.get taskId (taskDocs w)) as [d|];
    simpl; intros H; inversion H. eauto.
Qed.

Lemma completeTask_not_found (taskId memberId : string) (w : World) :
  TaskRepo.lookup w taskId = None ->
  completeTask taskId memberId w = (Thrown "Task not found", w).
Proof.
  intros H. unfold completeTask, bind, TaskRepo.findById. now rewrite H.
Qed.

Lemma completeTask_forbidden (taskId memberId : string) (w : World)
    (task : Task.t) :
  TaskRepo.lookup w taskId = Some task ->
  nullable_neq (Task.assigneeUserId task) memberId = true ->
  completeTask taskId memberId w
  = (Thrown "Forbidden: You can only complete tasks assigned to you", w).
Proof.
  intros H Ha. unfold completeTask, bind, TaskRepo.findById. now rewrite H, Ha.
Qed.

(** No Active entry of the member on this task: only the task changes. *)
Lemma completeTask_without_timer (taskId memberId : string) (w : World)
    (task : Task.t) (d : TaskDoc.t) :
  JsMap.get taskId (taskDocs w) = Some d ->
  task = TaskRepo.mapDocumentToTask taskId d ->
  nullable_neq (Task.assigneeUserId task) memberId = false ->
  match TimeEntryRepo.activeOf w memberId with
  | Some e => String.eqb (TimeEntry.taskId e) taskId = false
  | None => True
  end ->
  let d' := TaskRepo.applyPatch (statusPatch DONE) (clock w) d in
  let a := Activity.mk (uuidSource w (uuidCount w)) taskId TASK_STATUS_CHANGED
             "Task completed" memberId (clock w) (clock w) in
  completeTask taskId memberId w
  = (Returned (CompleteTaskResult.mk (TaskRepo.mapDocumentToTask taskId d') None),
     mkWorld (JsMap.set taskId d' (taskDocs w)) (timeEntries w) (comments w)
             (activities w ++ [a]) (clock w) (uuidSource w) (S (uuidCount w))).
Proof.
  intros Hd Ht Ha Hact d' a.
  unfold completeTask, bind, TaskRepo.findById, TaskRepo.lookup,
    getActiveTimeEntry, TimeEntryRepo.findActiveByUser.
  rewrite Hd. cbn [option_map]. rewrite <- Ht, Ha.
  destruct (TimeEntryRepo.activeOf w memberId) as [e|].
  - rewrite Hact. unfold ret, TaskRepo.update. rewrite Hd. reflexivity.
  - unfold ret, TaskRepo.update. rewrite Hd. reflexivity.
Qed.

(** The member's Active entry is on this task and started before now: the
    entry is stopped, then the task is completed. *)
Lemma completeTask_with_timer (taskId memberId : string) (w : World)
    (task : Task.t) (d : TaskDoc.t) (e : TimeEntry.t) :
  JsMap.get taskId (taskDocs w) = Some d ->
  task = TaskRepo.mapDocumentToTask taskId d ->
  nullable_neq (Task.assigneeUserId task) memberId = false ->
  validStore w = true ->
  TimeEntryRepo.activeOf w memberId = Some e ->
  TimeEntry.taskId e = taskId ->
  TimeEntry.startTime e < clock w ->
  let s := (clock w - TimeEntry.startTime e) / 1000 in
  let e' := TimeEntryRepo.applyPatch (stopPatch (clock w) s) (clock w) e in
  let d' := TaskRepo.applyPatch (statusPatch DONE) (clock w) d in
  let a1 := Activity.mk (uuidSource w (uuidCount w)) taskId TIMER_STOPPED
              (stoppedTimerMessage s) memberId (clock w) (clock w) in
  let a2 := Activity.mk (uuidSource w (S (uuidCount w))) taskId
              TASK_STATUS_CHANGED "Task completed" memberId (clock w) (clock w) in
  completeTask taskId memberId w
  = (Returned (CompleteTaskResult.mk (TaskRepo.mapDocumentToTask taskId d')
                                     (Some e')),
     mkWorld (JsMap.set taskId d' (taskDocs w))
             (JsMap.set (TimeEntry.id e) e' (timeEntries w)) (comments w)
             ((activities w ++ [a1]) ++ [a2]) (clock w) (uuidSource w)
             (S (S (uuidCount w)))).
Proof.
  intros Hd Ht Ha Hv Hact He Hs s e' d' a1 a2.
  destruct (activeOf_some _ _ _ Hact) as (Hin & Hu & Hend).
  pose proof (validStore_lookup _ _ Hv Hin) as Hl.
  unfold completeTask, bind, TaskRepo.findById, TaskRepo.lookup,
    getActiveTimeEntry, TimeEntryRepo.findActiveByUser.
  rewrite Hd. cbn [option_map]. rewrite <- Ht, Ha, Hact.
  apply String.eqb_eq in He as Heq. rewrite Heq.
  rewrite (stopTimeEntry_applied _ _ _ _ Hl Hu Hend Hs).
  unfold TaskRepo.update. cbn [taskDocs clock]. rewrite Hd.
  subst a1 a2. rewrite He. reflexivity.
Qed.

(** The same, when the entry did not start before now: the guard of the
    stop throws, and the task is not touched. *)
Lemma completeTask_with_timer_guard (taskId memberId : string) (w : World)
    (task : Task.t) (e : TimeEntry.t) :
  TaskRepo.lookup w taskId = Some task ->
  nullable_neq (Task.assigneeUserId task) memberId = false ->
  validStore w = true ->
  TimeEntryRepo.activeOf w memberId = Some e ->
  TimeEntry.taskId e = taskId ->
  TimeEntry.startTime e >= clock w ->
  completeTask taskId memberId w
  = (Thrown "Start time must be before end time", w).
Proof.
  intros Hl Ha Hv Hact He Hs.
  destruct (activeOf_some _ _ _ Hact) as (Hin & Hu & Hend).
  pose proof (validStore_lookup _ _ Hv Hin) as Hle.
  unfold completeTask, bind, TaskRepo.findById,
    getActiveTimeEntry, TimeEntryRepo.findActiveByUser.
  rewrite Hl, Ha, Hact. apply String.eqb_eq in He. rewrite He.
  now rewrite (stopTimeEntry_guard _ _ _ _ Hle Hu Hend Hs).
Qed.

Lemma TaskRepo_lookup_set (w w' : World) (taskId : string) (d : TaskDoc.t) :
  taskDocs w' = JsMap.set taskId d (taskDocs w) ->
  TaskRepo.lookup w' taskId = Some (TaskRepo.mapDocumentToTask taskId d).
Proof.
  intros H. unfold TaskRepo.lookup. rewrite H, JsMap_get_set_same. reflexivity.
Qed.

(** C4, as amended.  The time-entry store being a map keyed by entry id:
    [completeTask] throws "Task not found" when the task is missing and
    the Forbidden error when the member is not its assignee.  Otherwise it
    looks at one entry, the Active entry that [findActiveByUser] finds for
    the member.  When that entry is on this very task it is stopped first,
    with the end time and the duration of a stop (an entry started before
    now), and then the task is saved with status DONE: the result holds
    the saved task and the stopped entry, and the activities logged are
    the TIMER_STOPPED of the stop followed by one TASK_STATUS_CHANGED "Task
    completed".  When there is no such entry, or it is on another task,
    the result holds the saved task and [null], the time entries are
    untouched and the one activity logged is that TASK_STATUS_CHANGED.
    The stop comes before the status change: when its guard fails, the
    error is thrown and the task is left as it was.  Where the member has
    at most one Active entry, the entry found is that one: every Active
    entry of the member on this task is then the entry stopped. *)
Theorem completeTask_stops_timer_then_completes (taskId memberId : string)
    (w : World) :
  validStore w = true ->
  (TaskRepo.lookup w taskId = None ->
   completeTask taskId memberId w = (Thrown "Task not found", w))
  /\ (forall task,
        TaskRepo.lookup w taskId = Some task ->
        Task.assigneeUserId task <> Some memberId ->
        exists message,
          completeTask taskId memberId w = (Thrown message, w)
          /\ isForbidden message = true)
  /\ (forall task e,
        TaskRepo.lookup w taskId = Some task ->
        Task.assigneeUserId task = Some memberId ->
        TimeEntryRepo.activeOf w memberId = Some e ->
        TimeEntry.taskId e = taskId ->
        TimeEntry.startTime e < clock w ->
        exists r w' e' a1 a2,
          completeTask taskId memberId w = (Returned r, w')
          /\ CompleteTaskResult.stoppedTimeEntry r = Some e'
          /\ TimeEntry.id e' = TimeEntry.id e
          /\ TimeEntry.endTime e' = Some (clock w)
          /\ TimeEntry.durationSeconds e'
             = Some ((clock w - TimeEntry.startTime e) / 1000)
          /\ TimeEntryRepo.lookup w' (TimeEntry.id e) = Some e'
          /\ Task.id (CompleteTaskResult.task r) = taskId
          /\ Task.status (CompleteTaskResult.task r) = DONE
          /\ TaskRepo.lookup w' taskId = Some (CompleteTaskResult.task r)
          /\ activities w' = (activities w ++ [a1; a2])%list
          /\ Activity.type a1 = TIMER_STOPPED
          /\ isTaskCompleted taskId memberId a2
          /\ countType TASK_STATUS_CHANGED (emitted w w') = 1%nat)
  /\ (forall task,
        TaskRepo.lookup w taskId = Some task ->
        Task.assigneeUserId task = Some memberId ->
        (forall e,
           TimeEntryRepo.activeOf w memberId = Some e ->
           TimeEntry.taskId e <> taskId) ->
        exists r w' a,
          completeTask taskId memberId w = (Returned r, w')
          /\ CompleteTaskResult.stoppedTimeEntry r = None
          /\ timeEntries w' = timeEntries w
          /\ Task.id (CompleteTaskResult.task r) = taskId
          /\ Task.status (CompleteTaskResult.task r) = DONE
          /\ TaskRepo.lookup w' taskId = Some (CompleteTaskResult.task r)
          /\ activities w' = (activities w ++ [a])%list
          /\ isTaskCompleted taskId memberId a
          /\ countType TASK_STATUS_CHANGED (emitted w w') = 1%nat)
  /\ (forall task e,
        TaskRepo.lookup w taskId = Some task ->
        Task.assigneeUserId task = Some memberId ->
        TimeEntryRepo.activeOf w memberId = Some e ->
        TimeEntry.taskId e = taskId ->
        TimeEntry.startTime e >= clock w ->
        completeTask taskId memberId w
        = (Thrown "Start time must be before end time", w))
  /\ (singleTimer w memberId = true ->
      forall e,
        In e (JsMap.values (timeEntries w)) ->
        TimeEntry.userId e = memberId ->
        TimeEntry.endTime e = None ->
        TimeEntryRepo.activeOf w memberId = Some e).
Proof.
  intros Hv. split; [|split; [|split; [|split; [|split]]]].
  - apply completeTask_not_found.
  - intros task Hl Ha. eexists. split.
    + apply (completeTask_forbidden _ _ _ _ Hl).
      destruct (nullable_neq (Task.assigneeUserId task) memberId) eqn:E; auto.
      apply nullable_neq_false in E. contradiction.
    + reflexivity.
  - intros task e Hl Ha Hact Ht Hstart.
    destruct (TaskRepo_lookup_doc _ _ _ Hl) as (d & Hd & Htask).
    apply nullable_neq_false in Ha.
    do 5 eexists. split.
    + apply (completeTask_with_timer _ _ _ _ _ _ Hd Htask Ha Hv Hact Ht Hstart).
    + cbn [CompleteTaskResult.stoppedTimeEntry CompleteTaskResult.task].
      split; [reflexivity|]. split; [reflexivity|]. split; [reflexivity|].
      split; [reflexivity|].
      split. { unfold TimeEntryRepo.lookup. simpl. apply JsMap_get_set_same. }
      split; [reflexivity|]. split; [reflexivity|].
      split. { apply (TaskRepo_lookup_set w). reflexivity. }
      split. { simpl. rewrite <- app_assoc. reflexivity. }
      split; [reflexivity|].
      split. { repeat split. }
      unfold emitted. simpl. rewrite <- app_assoc, skipn_app, skipn_all.
      rewrite Nat.sub_diag. reflexivity.
  - intros task Hl Ha Hnone.
    destruct (TaskRepo_lookup_doc _ _ _ Hl) as (d & Hd & Htask).
    apply nullable_neq_false in Ha.
    do 3 eexists. split.
    + apply (completeTask_without_timer _ _ _ _ _ Hd Htask Ha).
      destruct (TimeEntryRepo.activeOf w memberId) as [e|] eqn:Hact; [|exact I].
      apply String.eqb_neq. now apply Hnone.
    + cbn [CompleteTaskResult.stoppedTimeEntry CompleteTaskResult.task].
      split; [reflexivity|]. split; [reflexivity|]. split; [reflexivity|].
      split; [reflexivity|].
      split. { apply (TaskRepo_lookup_set w). reflexivity. }
      split; [reflexivity|].
      split. { repeat split. }
      unfold emitted. simpl. rewrite skipn_app, skipn_all.
      rewrite Nat.sub_diag. reflexivity.
  - intros task e Hl Ha Hact Ht Hstart.
    apply nullable_neq_false in Ha.
    apply (completeTask_with_timer_guard _ _ _ _ _ Hl Ha Hv Hact Ht Hstart).
  - intros Hs e Hin Hu He. now apply singleTimer_activeOf.
Qed.

Lemma completeTask_stops_timer_witness :
  let e1 := Sample.entry "e1" "task1" "member1" 1000000 None None in
  validStore Sample.running = true
  /\ TimeEntryRepo.activeOf Sample.running "member1" = Some e1
  /\ exists r w' e',
       completeTask "task1" "member1" Sample.running = (Returned r, w')
       /\ CompleteTaskResult.stoppedTimeEntry r = Some e'
       /\ TimeEntry.durationSeconds e' = Some 90
       /\ Task.status (CompleteTaskResult.task r) = DONE.
Proof.
  intros e1.
  split; [reflexivity|]. split; [reflexivity|].
  destruct (completeTask_stops_timer_then_completes "task1" "member1"
              Sample.running eq_refl) as (_ & _ & Hstop & _ & _ & _).
  destruct (Hstop (TaskRepo.mapDocumentToTask "task1"
                     (Sample.doc (Some "member1") None []))
                  e1 eq_refl eq_refl eq_refl eq_refl eq_refl)
    as (r & w' & e' & a1 & a2 & Hrun & Hst & _ & _ & Hd & _ & _ & Hdone & _).
  exists r, w', e'. repeat split; assumption.
Defined.

(** C4 as first stated fails: a member with two Active entries, the older
    on another task, completes the task of the newer one.  The store is a
    proper map, the task is saved with status DONE, yet the result holds
    [null] and the member's Active entry on the task is left running. *)
Lemma completeTask_misses_second_timer :
  let e3 := Sample.entry "e3" "task1" "member1" 1000000 None None in
  validStore Sample.twoTimers = true
  /\ In e3 (JsMap.values (timeEntries Sample.twoTimers))
  /\ TimeEntry.userId e3 = "member1"
  /\ TimeEntry.endTime e3 = None
  /\ TimeEntry.taskId e3 = "task1"
  /\ TimeEntry.startTime e3 < clock Sample.twoTimers
  /\ exists r w',
       completeTask "task1" "member1" Sample.twoTimers = (Returned r, w')
       /\ Task.status (CompleteTaskResult.task r) = DONE
       /\ CompleteTaskResult.stoppedTimeEntry r = None
       /\ TimeEntryRepo.lookup w' "e3" = Some e3
       /\ timeEntries w' = timeEntries Sample.twoTimers.
Proof.
  intros e3. split; [reflexivity|]. split; [simpl; auto|].
  split; [reflexivity|]. split; [reflexivity|]. split; [reflexivity|].
  split; [reflexivity|].
  do 2 eexists. split; [lazy; reflexivity|].
  repeat split.
Qed.

(** C10. When the Active entry of the member, if there is one, is on
    another task than [taskId], [completeTask] leaves the time entries as
    they are (that entry stays Active, unchanged), returns
    [stoppedTimeEntry = null], and still saves the task with status DONE. *)
Theorem completeTask_leaves_other_timer (taskId memberId : string) (w : World)
    (task : Task.t) :
  TaskRepo.lookup w taskId = Some task ->
  Task.assigneeUserId task = Some memberId ->
  (forall e,
     TimeEntryRepo.activeOf w memberId = Some e ->
     TimeEntry.taskId e <> taskId) ->
  exists r w',
    completeTask taskId memberId w = (Returned r, w')
    /\ CompleteTaskResult.stoppedTimeEntry r = None
    /\ timeEntries w' = timeEntries w
    /\ TimeEntryRepo.activeOf w' memberId = TimeEntryRepo.activeOf w memberId
    /\ Task.status (CompleteTaskResult.task r) = DONE
    /\ TaskRepo.lookup w' taskId = Some (CompleteTaskResult.task r).
Proof.
  intros Hl Ha Hother.
  destruct (TaskRepo_lookup_doc _ _ _ Hl) as (d & Hd & Htask).
  apply nullable_neq_false in Ha.
  do 2 eexists. split.
  - apply (completeTask_without_timer _ _ _ _ _ Hd Htask Ha).
    destruct (TimeEntryRepo.activeOf w memberId) as [e|]; [|exact I].
    apply String.eqb_neq. now apply Hother.
  - cbn [CompleteTaskResult.stoppedTimeEntry CompleteTaskResult.task].
    repeat split. apply (TaskRepo_lookup_set w). reflexivity.
Qed.

Lemma completeTask_leaves_other_timer_witness :
  let e1 := Sample.entry "e1" "task1" "member1" 1000000 None None in
  TimeEntryRepo.activeOf Sample.running "member1" = Some e1
  /\ exists r w',
       completeTask "task2" "member1" Sample.running = (Returned r, w')
       /\ CompleteTaskResult.stoppedTimeEntry r = None
       /\ TimeEntryRepo.lookup w' "e1" = Some e1
       /\ Task.status (CompleteTaskResult.task r) = DONE.
Proof.
  intros e1. split; [reflexivity|].
  destruct (completeTask_leaves_other_timer "task2" "member1" Sample.running
              (TaskRepo.mapDocumentToTask "task2"
                 (Sample.doc (Some "member1") (Some 86400000) ["a"; "b"]))
              eq_refl eq_refl)
    as (r & w' & Hrun & Hnone & Hsame & _ & Hdone & _).
  - intros e He. vm_compute in He. inversion He. discriminate.
  - exists r, w'. repeat split; try assumption.
    unfold TimeEntryRepo.lookup. rewrite Hsame. reflexivity.
Defined.

(** ** [Array.prototype.sort] *)

Lemma sortInsert_In {A : Type} (compare : A -> A -> Z) (a x : A) (l : list A) :
  In x (sortInsert compare a l) <-> x = a \/ In x l.
Proof.
  induction l as [|y l IH]; simpl.
  - intuition.
  - destruct (compare a y <=? 0); simpl; [intuition|].
    rewrite IH. intuition.
Qed.

Lemma jsSort_In {A : Type} (compare : A -> A -> Z) (x : A) (l : list A) :
  In x (jsSort compare l) <-> In x l.
Proof.
  unfold jsSort. induction l as [|a l IH]; simpl; [tauto|].
  rewrite sortInsert_In, IH. intuition.
Qed.

(** ** [listTasksForMember] *)

Lemma optFilter_In {A : Type} (o : option A)
    (p : A -> TaskQuery.Doc -> bool) (l : list TaskQuery.Doc)
    (d : TaskQuery.Doc) :
  In d (TaskQuery.optFilter o p l) -> In d l.
Proof.
  destruct o; simpl; [|auto]. intros H. now apply filter_In in H.
Qed.

Lemma whereAssignee_task (memberId : string) (d : TaskQuery.Doc) :
  memberId <> EmptyString ->
  TaskQuery.whereAssignee memberId d = true ->
  Task.assigneeUserId (TaskQuery.toTask d) = Some memberId.
Proof.
  unfold TaskQuery.whereAssignee, TaskQuery.toTask. simpl. intros Hne H.
  destruct (TaskDoc.assigneeUserId (snd d)) as [a|]; [|discriminate].
  apply String.eqb_eq in H. subst a.
  apply String.eqb_neq in Hne. now rewrite Hne.
Qed.

Lemma searchAndFilter_assignee (filters : TaskFilters.t) (memberId : string)
    (w : World) :
  truthy (TaskFilters.assigneeUserId filters) = Some memberId ->
  exists tasks,
    TaskQuery.searchAndFilter filters w = (Returned tasks, w)
    /\ forall t,
         In t tasks ->
         In t (map TaskQuery.toTask
                   (filter (TaskQuery.whereAssignee memberId) (taskDocs w))).
Proof.
  intros Ht. unfold TaskQuery.searchAndFilter. rewrite Ht.
  eexists. split; [reflexivity|]. intros t Hin.
  assert (Hin' :
    In t (map TaskQuery.toTask
            (TaskQuery.optFilter (truthy (TaskFilters.tag filters))
               TaskQuery.whereTag
               (TaskQuery.optFilter (Some memberId) TaskQuery.whereAssignee
                  (TaskQuery.optFilter (TaskFilters.priority filters)
                     TaskQuery.wherePriority
                     (TaskQuery.optFilter (TaskFilters.status filters)
                        TaskQuery.whereStatus (taskDocs w))))))).
  { destruct (TaskFilters.sortBy filters);
      [apply jsSort_In in Hin|];
      destruct (truthy (TaskFilters.searchQuery filters));
      try (apply filter_In in Hin as [Hin _]); exact Hin. }
  apply in_map_iff in Hin' as (d & Hd & Hin').
  apply in_map_iff. exists d. split; [assumption|].
  apply optFilter_In in Hin'. simpl in Hin'.
  apply filter_In in Hin' as [Hin' Ha].
  apply optFilter_In in Hin'. apply optFilter_In in Hin'.
  apply filter_In. now split.
Qed.

(** C7, as amended.  For every member id that is not the empty string and
    every [filters] argument, every task that [listTasksForMember] returns
    has the member as assignee, and is among the tasks the call without
    filters returns: the filters narrow the assignee-scoped list and never
    widen it. *)
Theorem listTasksForMember_scoped (memberId : string)
    (filters : option TaskFilters.t) (w : World) :
  memberId <> EmptyString ->
  exists tasks assigned,
    listTasksForMember memberId filters w = (Returned tasks, w)
    /\ listTasksForMember memberId None w = (Returned assigned, w)
    /\ forall t,
         In t tasks ->
         Task.assigneeUserId t = Some memberId /\ In t assigned.
Proof.
  intros Hne.
  assert (Hscope : forall t,
    In t (map TaskQuery.toTask
              (filter (TaskQuery.whereAssignee memberId) (taskDocs w))) ->
    Task.assigneeUserId t = Some memberId
    /\ In t (map TaskQuery.toTask
                 (filter (TaskQuery.whereAssignee memberId) (taskDocs w)))).
  { intros t Hin. split; [|assumption].
    apply in_map_iff in Hin as (d & <- & Hd).
    apply filter_In in Hd as [_ Hd]. now apply whereAssignee_task. }
  assert (Hall : exists tasks,
    TaskQuery.searchAndFilter (TaskFilters.withAssignee filters memberId) w
    = (Returned tasks, w)
    /\ forall t,
         In t tasks ->
         In t (map TaskQuery.toTask
                   (filter (TaskQuery.whereAssignee memberId) (taskDocs w)))).
  { apply searchAndFilter_assignee.
    apply String.eqb_neq in Hne.
    destruct filters; simpl; now rewrite Hne. }
  destruct Hall as (tasks & Hrun & Hsub).
  unfold listTasksForMember.
  destruct filters as [f|].
  - destruct (TaskFilters.hasKeys f).
    + exists tasks. eexists. split; [exact Hrun|]. split; [reflexivity|].
      intros t Hin. apply Hscope. now apply Hsub.
    + do 2 eexists. split; [reflexivity|]. split; [reflexivity|].
      exact Hscope.
  - do 2 eexists. split; [reflexivity|]. split; [reflexivity|]. exact Hscope.
Qed.

Lemma listTasksForMember_scoped_witness :
  let filters :=
    Some (TaskFilters.mk (Some TODO) None None None None
                         (Some SortByDueDate) (Some Desc)) in
  "member1" <> EmptyString
  /\ exists tasks assigned,
       listTasksForMember "member1" filters Sample.idle
       = (Returned tasks, Sample.idle)
       /\ listTasksForMember "member1" None Sample.idle
          = (Returned assigned, Sample.idle)
       /\ forall t,
            In t tasks ->
            Task.assigneeUserId t = Some "member1" /\ In t assigned.
Proof.
  intros filters.
  assert (Hne : "member1" <> EmptyString) by discriminate.
  split; [exact Hne|].
  exact (listTasksForMember_scoped "member1" filters Sample.idle Hne).
Defined.

(** C7 as first stated fails for the empty member id: [searchAndFilter]
    applies the assignee filter only when it is truthy, so with a filter on
    the status the call returns the tasks of every assignee. *)
Lemma listTasksForMember_empty_member_unscoped :
  let filters :=
    Some (TaskFilters.mk (Some TODO) None None None None None None) in
  exists tasks t,
    listTasksForMember EmptyString filters Sample.idle
    = (Returned tasks, Sample.idle)
    /\ In t tasks
    /\ Task.assigneeUserId t = Some "member1"
    /\ Task.assigneeUserId t <> Some EmptyString.
Proof.
  intros filters.
  exists (map TaskQuery.toTask Sample.tasks).
  exists (TaskRepo.mapDocumentToTask "task1"
            (Sample.doc (Some "member1") None [])).
  split; [reflexivity|]. split; [simpl; auto|].
  split; [reflexivity|discriminate].
Qed.

(** ** [createComment] and [commentController.create] *)

Lemma createComment_stores_text (taskId userId : string) (userRole : Role)
    (text : string) (w : World) (task : Task.t) :
  TaskRepo.lookup w taskId = Some task ->
  userRole = ADMIN \/ Task.assigneeUserId task = Some userId ->
  let comment :=
    Comment.mk (uuidSource w (uuidCount w)) taskId userId text
               (clock w) (clock w) in
  let a := Activity.mk (uuidSource w (S (uuidCount w))) taskId COMMENT_ADDED
             "Added a comment" userId (clock w) (clock w) in
  createComment taskId userId userRole text w
  = (Returned comment,
     mkWorld (taskDocs w) (timeEntries w) (comments w ++ [comment])
             (activities w ++ [a]) (clock w) (uuidSource w)
             (S (S (uuidCount w)))).
Proof.
  intros Hl Hrbac comment a.
  unfold createComment, bind, TaskRepo.findById. rewrite Hl.
  assert (Hgate : negb (Role_eqb userRole ADMIN)
                  && nullable_neq (Task.assigneeUserId task) userId = false).
  { destruct Hrbac as [->|Ha]; [reflexivity|].
    apply nullable_neq_false in Ha. rewrite Ha. apply andb_false_r. }
  now rewrite Hgate.
Qed.

(** C8, as amended.  The check that a comment text is not empty after
    trimming and not longer than 2000 characters is made at the boundary
    only: for every role, [commentController.create] answers 400 to such a
    text (as to a missing or non-string one) and leaves the world as it was,
    the service not being called.  [createComment] itself does not look at
    the text: once the task exists and the caller passes the role and
    assignee check, it stores whatever text it is given. *)
Theorem comment_text_validated_at_boundary_only :
  (forall (req : CommentRequest) (u : AuthUser) (w : World),
     user req = Some u ->
     match bodyText req with
     | JsString text => strLength (trim text) = 0 \/ strLength text > 2000
     | _ => True
     end ->
     exists message,
       commentController_create req w = (mkResponse 400 (ErrorBody message), w)
       /\ (message = "Comment text is required"
           \/ message = "Comment text must be 2000 characters or less"))
  /\ (forall (taskId userId : string) (userRole : Role) (text : string)
             (w : World) (task : Task.t),
        TaskRepo.lookup w taskId = Some task ->
        userRole = ADMIN \/ Task.assigneeUserId task = Some userId ->
        exists created w',
          createComment taskId userId userRole text w = (Returned created, w')
          /\ Comment.text created = text
          /\ In created (comments w')).
Proof.
  split.
  - intros req u w Hu Hbad. unfold commentController_create. rewrite Hu.
    destruct (bodyText req) as [| |b|n|text|] eqn:Hb;
      try (eexists; split; [reflexivity|auto]).
    destruct (textMissing (JsString text)) eqn:Hm.
    + eexists; split; [reflexivity|auto].
    + simpl in Hm. apply orb_false_iff in Hm as [_ Hm].
      apply Z.eqb_neq in Hm.
      destruct Hbad as [Hbad|Hbad]; [contradiction|].
      destruct (Z.gtb_spec (strLength text) 2000); [|lia].
      eexists; split; [reflexivity|auto].
  - intros taskId userId userRole text w task Hl Hrbac.
    do 2 eexists. split.
    + apply (createComment_stores_text _ _ _ _ _ _ Hl Hrbac).
    + split; [reflexivity|]. simpl. apply in_or_app. right. simpl. auto.
Qed.

Lemma comment_text_validated_at_boundary_witness :
  let req :=
    mkCommentRequest (Some (mkAuthUser "member1" MEMBER)) "task1"
                     (JsString "   ") in
  user req = Some (mkAuthUser "member1" MEMBER)
  /\ strLength (trim "   ") = 0
  /\ (exists message,
        commentController_create req Sample.idle
        = (mkResponse 400 (ErrorBody message), Sample.idle))
  /\ exists created w',
       createComment "task1" "member1" MEMBER "   " Sample.idle
       = (Returned created, w')
       /\ Comment.text created = "   ".
Proof.
  intros req.
  destruct comment_text_validated_at_boundary_only as [Hctl Hsvc].
  split; [reflexivity|]. split; [reflexivity|]. split.
  - destruct (Hctl req (mkAuthUser "member1" MEMBER) Sample.idle eq_refl)
      as (message & Hrun & _).
    + simpl. left. reflexivity.
    + exists message. exact Hrun.
  - destruct (Hsvc "task1" "member1" MEMBER "   " Sample.idle
                (TaskRepo.mapDocumentToTask "task1"
                   (Sample.doc (Some "member1") None []))
                eq_refl (or_intror eq_refl))
      as (created & w' & Hrun & Htext & _).
    exists created, w'. split; assumption.
Defined.

(** C8 as first stated fails: the service accepts, for an administrator, the
    empty text, and for a member, on a task assigned to that member, a text
    of 2001 characters. *)
Lemma createComment_accepts_any_text :
  (exists created w',
     createComment "task1" "admin1" ADMIN EmptyString Sample.idle
     = (Returned created, w')
     /\ Comment.text created = EmptyString
     /\ strLength (trim (Comment.text created)) = 0)
  /\ (exists created w',
        createComment "task1" "member1" MEMBER (textOfLength 2001) Sample.idle
        = (Returned created, w')
        /\ strLength (Comment.text created) = 2001).
Proof.
  split.
  - do 2 eexists. split; [lazy; reflexivity|]. split; reflexivity.
  - do 2 eexists. split.
    + apply (createComment_stores_text "task1" "member1" MEMBER
               (textOfLength 2001) Sample.idle
               (TaskRepo.mapDocumentToTask "task1"
                  (Sample.doc (Some "member1") None []))
               eq_refl (or_intror eq_refl)).
    + vm_compute. reflexivity.
Qed.

(** ** The aggregation loop of the report *)

Lemma existsb_keys_set {V : Type} (x k : string) (v : V) (m : JsMap.t V) :
  existsb (String.eqb x) (JsMap.keys (JsMap.set k v m))
  = existsb (String.eqb x) (JsMap.keys m) || String.eqb x k.
Proof.
  induction m as [|[k' v'] m IH]; simpl.
  - apply orb_comm.
  - destruct (String.eqb_spec k k') as [->|Hne]; simpl.
    + destruct (String.eqb x k'), (existsb (String.eqb x) (JsMap.keys m));
        reflexivity.
    + rewrite IH. now rewrite orb_assoc.
Qed.

Lemma uniqueKeys_set {V : Type} (k : string) (v : V) (m : JsMap.t V) :
  uniqueKeys m = true -> uniqueKeys (JsMap.set k v m) = true.
Proof.
  induction m as [|[k' v'] m IH]; simpl; [reflexivity|].
  intros H. apply andb_true_iff in H as [Hk Hu].
  destruct (String.eqb_spec k k') as [->|Hne]; simpl.
  - now rewrite Hk, Hu.
  - rewrite existsb_keys_set, IH by assumption.
    apply negb_true_iff in Hk. rewrite Hk. simpl.
    assert (E : String.eqb k' k = false) by (apply String.eqb_neq; congruence).
    now rewrite E.
Qed.

Lemma uniqueKeys_NoDup {V : Type} (m : JsMap.t V) :
  uniqueKeys m = true -> NoDup (JsMap.keys m).
Proof.
  induction m as [|[k v] m IH]; simpl; intros H; constructor.
  - apply andb_true_iff in H as [Hk _]. apply negb_true_iff in Hk.
    intros Hin. assert (E : existsb (String.eqb k) (JsMap.keys m) = true).
    { apply existsb_exists. exists k. split; [assumption|apply String.eqb_refl]. }
    congruence.
  - apply andb_true_iff in H as [_ Hu]. auto.
Qed.

Lemma addEntry_get (m : JsMap.t Z) (e : TimeEntry.t) (u : string) :
  JsMap.get u (addEntry m e)
  = if countsFor u e then Some (totalOf m u + durationOf e) else JsMap.get u m.
Proof.
  unfold addEntry, countsFor, positiveDuration, durationOf, totalOf.
  destruct (TimeEntry.durationSeconds e) as [d|]; simpl; [|reflexivity].
  destruct (d >? 0); simpl; [|reflexivity].
  destruct (String.eqb_spec (TimeEntry.userId e) u) as [->|Hne].
  - apply JsMap_get_set_same.
  - now apply JsMap_get_set_other.
Qed.

Lemma addEntry_uniqueKeys (m : JsMap.t Z) (e : TimeEntry.t) :
  uniqueKeys m = true -> uniqueKeys (addEntry m e) = true.
Proof.
  intros H. unfold addEntry.
  destruct (TimeEntry.durationSeconds e) as [d|]; [|assumption].
  destruct (d >? 0); [|assumption]. now apply uniqueKeys_set.
Qed.

Lemma fold_addEntry_uniqueKeys (l : list TimeEntry.t) (m : JsMap.t Z) :
  uniqueKeys m = true -> uniqueKeys (fold_left addEntry l m) = true.
Proof.
  revert m. induction l as [|e l IH]; simpl; intros m H; [assumption|].
  apply IH. now apply addEntry_uniqueKeys.
Qed.

Lemma filter_none {A : Type} (p : A -> bool) (l : list A) :
  existsb p l = false -> filter p l = [].
Proof.
  induction l as [|x l IH]; simpl; [reflexivity|].
  destruct (p x); simpl; [discriminate|auto].
Qed.

Lemma fold_addEntry_get (l : list TimeEntry.t) (m : JsMap.t Z) (u : string) :
  JsMap.get u (fold_left addEntry l m)
  = if existsb (countsFor u) l then Some (totalOf m u + sumFor u l)
    else JsMap.get u m.
Proof.
  revert m. induction l as [|e l IH]; intros m; simpl; [reflexivity|].
  rewrite IH. unfold sumFor. simpl.
  destruct (countsFor u e) eqn:E; simpl.
  - unfold totalOf at 1. rewrite addEntry_get, E.
    destruct (existsb (countsFor u) l) eqn:Ex.
    + f_equal. lia.
    + rewrite (filter_none _ _ Ex). simpl. f_equal. lia.
  - unfold totalOf at 1. rewrite addEntry_get, E. reflexivity.
Qed.

Lemma filter_filter {A : Type} (p q : A -> bool) (l : list A) :
  filter p (filter q l) = filter (fun x => q x && p x) l.
Proof.
  induction l as [|x l IH]; simpl; [reflexivity|].
  destruct (q x); simpl; [destruct (p x)|]; now rewrite IH.
Qed.

Lemma contributesFor_split (from to : Date) (u : string) (e : TimeEntry.t) :
  contributesFor from to u e
  = TimeEntryRepo.completedInRange from to e && countsFor u e.
Proof.
  unfold contributesFor, contributes, TimeEntryRepo.completedInRange, countsFor.
  destruct (TimeEntry.endTime e); [|reflexivity].
  rewrite Z.geb_leb. now rewrite andb_assoc.
Qed.

Lemma sumFor_completed (from to : Date) (u : string) (l : list TimeEntry.t) :
  sumFor u (filter (TimeEntryRepo.completedInRange from to) l)
  = expectedTotal from to l u.
Proof.
  unfold sumFor, expectedTotal. rewrite filter_filter.
  do 2 f_equal. apply filter_ext. intros e. symmetry.
  apply contributesFor_split.
Qed.

Lemma existsb_completed (from to : Date) (u : string) (l : list TimeEntry.t) :
  existsb (countsFor u) (filter (TimeEntryRepo.completedInRange from to) l)
  = true
  <-> exists e,
        In e l /\ contributes from to e = true /\ TimeEntry.userId e = u.
Proof.
  rewrite existsb_exists. split.
  - intros (e & Hin & Hc). apply filter_In in Hin as [Hin Hr].
    exists e. split; [assumption|].
    assert (H : contributesFor from to u e = true).
    { rewrite contributesFor_split. now rewrite Hr, Hc. }
    unfold contributesFor in H. apply andb_true_iff in H as [H1 H2].
    split; [assumption|]. now apply String.eqb_eq.
  - intros (e & Hin & Hc & Hu). exists e.
    assert (H : contributesFor from to u e = true).
    { unfold contributesFor. rewrite Hc. apply String.eqb_eq in Hu.
      now rewrite Hu. }
    rewrite contributesFor_split in H. apply andb_true_iff in H as [H1 H2].
    split; [|assumption]. apply filter_In. now split.
Qed.

(** ** Sorting with a comparator *)

Lemma sortInsert_Permutation {A : Type} (compare : A -> A -> Z) (a : A)
    (l : list A) :
  Permutation (a :: l) (sortInsert compare a l).
Proof.
  induction l as [|y l IH]; simpl; [reflexivity|].
  destruct (compare a y <=? 0); [reflexivity|].
  rewrite perm_swap. now constructor.
Qed.

Lemma jsSort_Permutation {A : Type} (compare : A -> A -> Z) (l : list A) :
  Permutation l (jsSort compare l).
Proof.
  unfold jsSort. induction l as [|a l IH]; simpl; [constructor|].
  rewrite <- sortInsert_Permutation. now constructor.
Qed.

Section SortedByComparator.

Context {A : Type}.
Variable compare : A -> A -> Z.
Hypothesis compare_total : forall a b, compare a b <= 0 \/ compare b a <= 0.

Lemma sortInsert_Sorted (a : A) (l : list A) :
  Sorted (inOrder compare) l -> Sorted (inOrder compare) (sortInsert compare a l).
Proof.
  induction l as [|y l IH]; simpl; intros Hs.
  - repeat constructor.
  - destruct (Z.leb_spec (compare a y) 0) as [Hle|Hgt].
    + constructor; [assumption|]. now constructor.
    + inversion Hs as [|? ? Hs' Hhd]; subst.
      constructor; [now apply IH|].
      assert (Hya : inOrder compare y a).
      { unfold inOrder. destruct (compare_total a y); [lia|assumption]. }
      destruct l as [|z l]; simpl.
      * now constructor.
      * destruct (compare a z <=? 0); constructor; [assumption|].
        now inversion Hhd.
Qed.

Lemma jsSort_Sorted (l : list A) : Sorted (inOrder compare) (jsSort compare l).
Proof.
  unfold jsSort. induction l as [|a l IH]; simpl; [constructor|].
  now apply sortInsert_Sorted.
Qed.

End SortedByComparator.

(** ** [getTimeTotalsByUser] *)

Section ReportProperties.

Variable localeCompare : string -> string -> Z.

(** [localeCompare] orders the strings: any two are comparable, and the
    order is transitive. *)
Hypothesis localeCompare_total :
  forall a b, localeCompare a b <= 0 \/ localeCompare b a <= 0.
Hypothesis localeCompare_trans :
  forall a b c,
    localeCompare a b <= 0 -> localeCompare b c <= 0 ->
    localeCompare a c <= 0.

Lemma getTimeTotalsByUser_invalid_range (from to : Date) (w : World) :
  from > to ->
  getTimeTotalsByUser localeCompare from to w
  = (Thrown invalidDateRangeMessage, w).
Proof.
  intros H. unfold getTimeTotalsByUser.
  destruct (Z.gtb_spec from to); [reflexivity|lia].
Qed.

Lemma getTimeTotalsByUser_run (from to : Date) (w : World) :
  from <= to ->
  let userTotals :=
    fold_left addEntry
      (filter (TimeEntryRepo.completedInRange from to)
              (JsMap.values (timeEntries w)))
      JsMap.empty in
  getTimeTotalsByUser localeCompare from to w
  = (Returned
       (TimeReportResult.mk (isoDate from) (isoDate to)
          (jsSort (compareTotals localeCompare)
             (map (fun kv => TimeTotalByUser.mk (fst kv) (snd kv))
                  userTotals))),
     w).
Proof.
  intros H. unfold getTimeTotalsByUser.
  destruct (Z.gtb_spec from to); [lia|reflexivity].
Qed.

(** C6. [getTimeTotalsByUser] throws the invalid-range error whenever
    [from > to].  Otherwise it returns, for exactly the users who have a
    contributing entry (Stopped, start time in the closed range
    [from, to], positive duration), the sum of the durations of the user's
    contributing entries: entries outside the range, still Active, or of
    null or zero duration add nothing.  Every user appears once, and the
    totals are in ascending order of user id under [localeCompare]. *)
Theorem getTimeTotalsByUser_report (from to : Date) (w : World) :
  (from > to ->
   getTimeTotalsByUser localeCompare from to w
   = (Thrown invalidDateRangeMessage, w))
  /\ (from <= to ->
      exists report,
        getTimeTotalsByUser localeCompare from to w = (Returned report, w)
        /\ (forall u n,
              In (TimeTotalByUser.mk u n) (TimeReportResult.totals report)
              <-> (exists e,
                     In e (JsMap.values (timeEntries w))
                     /\ contributes from to e = true
                     /\ TimeEntry.userId e = u)
                  /\ n = expectedTotal from to
                           (JsMap.values (timeEntries w)) u)
        /\ NoDup (map TimeTotalByUser.userId
                      (TimeReportResult.totals report))
        /\ StronglySorted (userIdsAscending localeCompare)
                          (TimeReportResult.totals report)).
Proof.
  split; [apply getTimeTotalsByUser_invalid_range|].
  intros Hrange. eexists. split.
  { apply (getTimeTotalsByUser_run from to w Hrange). }
  cbn [TimeReportResult.totals].
  set (entries := filter (TimeEntryRepo.completedInRange from to)
                         (JsMap.values (timeEntries w))).
  set (userTotals := fold_left addEntry entries JsMap.empty).
  assert (Hu : uniqueKeys userTotals = true).
  { apply fold_addEntry_uniqueKeys. reflexivity. }
  split; [|split].
  - intros u n. rewrite jsSort_In, in_map_iff.
    assert (Hget : JsMap.get u userTotals = Some n
                   <-> (exists e,
                          In e (JsMap.values (timeEntries w))
                          /\ contributes from to e = true
                          /\ TimeEntry.userId e = u)
                       /\ n = expectedTotal from to
                                (JsMap.values (timeEntries w)) u).
    { unfold userTotals. rewrite fold_addEntry_get.
      rewrite <- existsb_completed. fold entries.
      unfold entries at 2. rewrite sumFor_completed. unfold totalOf. simpl.
      destruct (existsb (countsFor u) entries); split.
      - intros H. inversion H. auto.
      - intros [_ ->]. reflexivity.
      - discriminate.
      - intros [H _]. discriminate. }
    rewrite <- Hget. split.
    + intros ([k v] & Heq & Hin). inversion Heq; subst.
      now apply JsMap_In_get.
    + intros H. exists (u, n). split; [reflexivity|].
      now apply JsMap_get_In.
  - apply (Permutation_NoDup
             (l := map TimeTotalByUser.userId
                       (map (fun kv => TimeTotalByUser.mk (fst kv) (snd kv))
                            userTotals))).
    + apply Permutation_map. apply jsSort_Permutation.
    + rewrite map_map. simpl. now apply uniqueKeys_NoDup.
  - apply Sorted_StronglySorted.
    + intros a b c. unfold userIdsAscending. apply localeCompare_trans.
    + apply (jsSort_Sorted (compareTotals localeCompare)).
      intros a b. apply localeCompare_total.
Qed.

End ReportProperties.

Lemma codeUnitCompare_le (a b : string) :
  ReportSample.codeUnitCompare a b <= 0 <-> String.compare a b <> Gt.
Proof.
  unfold ReportSample.codeUnitCompare.
  destruct (String.compare a b); split; intros H; try lia; congruence.
Qed.

Lemma codeUnitCompare_total (a b : string) :
  ReportSample.codeUnitCompare a b <= 0 \/ ReportSample.codeUnitCompare b a <= 0.
Proof.
  rewrite !codeUnitCompare_le, (String.compare_antisym a b).
  destruct (String.compare b a); simpl; [left|right|left]; congruence.
Qed.

Lemma codeUnitCompare_trans (a b c : string) :
  ReportSample.codeUnitCompare a b <= 0 ->
  ReportSample.codeUnitCompare b c <= 0 ->
  ReportSample.codeUnitCompare a c <= 0.
Proof.
  rewrite !codeUnitCompare_le. intros Hab Hbc.
  destruct (String.compare a b) eqn:Eab; [| |congruence].
  - apply String_as_OT.cmp_eq in Eab. now subst.
  - destruct (String.compare b c) eqn:Ebc; [| |congruence].
    + apply String_as_OT.cmp_eq in Ebc. subst. now rewrite Eab.
    + apply String_as_OT.cmp_lt in Eab, Ebc.
      pose proof (String_as_OT.lt_trans _ _ _ Eab Ebc) as Hac.
      apply String_as_OT.cmp_lt in Hac.
      unfold String_as_OT.cmp in Hac. now rewrite Hac.
Qed.

Lemma getTimeTotalsByUser_report_witness :
  ReportSample.jan1 <= ReportSample.jan31
  /\ exists report,
       getTimeTotalsByUser ReportSample.codeUnitCompare
         ReportSample.jan1 ReportSample.jan31 ReportSample.world
       = (Returned report, ReportSample.world)
       /\ TimeReportResult.totals report
          = [TimeTotalByUser.mk "user1" 3600; TimeTotalByUser.mk "user2" 7200]
       /\ StronglySorted (userIdsAscending ReportSample.codeUnitCompare)
                         (TimeReportResult.totals report).
Proof.
  assert (Hrange : ReportSample.jan1 <= ReportSample.jan31).
  { unfold ReportSample.jan1, ReportSample.jan31. lia. }
  split; [exact Hrange|].
  destruct (getTimeTotalsByUser_report ReportSample.codeUnitCompare
              codeUnitCompare_total codeUnitCompare_trans
              ReportSample.jan1 ReportSample.jan31 ReportSample.world)
    as [_ Hok].
  destruct (Hok Hrange) as (report & Hrun & _ & _ & Hsorted).
  exists report. split; [exact Hrun|]. split; [|exact Hsorted].
  vm_compute in Hrun. inversion Hrun. reflexivity.
Defined.

(** ** [JSON.stringify] tells two lists of strings apart *)

Lemma string_app_assoc (a b c : string) : ((a ++ b) ++ c = a ++ (b ++ c))%string.
Proof. induction a as [|x a IH]; simpl; [reflexivity|now rewrite IH]. Qed.

Lemma string_app_inv_head (a x y : string) :
  (a ++ x = a ++ y)%string -> x = y.
Proof. induction a as [|c a IH]; simpl; intros H; [assumption|]. inversion H. auto. Qed.

Lemma prefix_app (a b x y : string) :
  (a ++ x = b ++ y)%string ->
  String.prefix a b = true \/ String.prefix b a = true.
Proof.
  revert b. induction a as [|c a IH]; intros b H.
  - left. destruct b; reflexivity.
  - destruct b as [|d b]; [right; reflexivity|].
    simpl in H. inversion H; subst. destruct (IH b H2) as [Hp|Hp].
    + left. simpl. destruct (ascii_dec d d); [assumption|contradiction].
    + right. simpl. destruct (ascii_dec d d); [assumption|contradiction].
Qed.

Lemma In_allAscii (c : ascii) : In c allAscii.
Proof.
  unfold allAscii. rewrite <- (ascii_nat_embedding c).
  apply in_map, in_seq. pose proof (nat_ascii_bounded c). lia.
Qed.

Lemma quotedApart_all :
  forallb (fun c1 => forallb (quotedApart c1) allAscii) allAscii = true.
Proof. vm_compute. reflexivity. Qed.

Lemma quotedHead_all : forallb quotedHead allAscii = true.
Proof. vm_compute. reflexivity. Qed.

Lemma quoteJSONChar_prefix (c1 c2 : ascii) :
  String.prefix (quoteJSONChar c1) (quoteJSONChar c2) = true -> c1 = c2.
Proof.
  intros H. pose proof quotedApart_all as Hall.
  rewrite forallb_forall in Hall. specialize (Hall c1 (In_allAscii c1)).
  rewrite forallb_forall in Hall. specialize (Hall c2 (In_allAscii c2)).
  unfold quotedApart in Hall. rewrite H in Hall. simpl in Hall.
  rewrite orb_false_r in Hall. now apply Ascii.eqb_eq.
Qed.

Lemma quoteJSONChar_decode (c1 c2 : ascii) (x y : string) :
  (quoteJSONChar c1 ++ x = quoteJSONChar c2 ++ y)%string -> c1 = c2 /\ x = y.
Proof.
  intros H. assert (E : c1 = c2).
  { destruct (prefix_app _ _ _ _ H) as [Hp|Hp];
      [|symmetry]; now apply quoteJSONChar_prefix. }
  subst c2. split; [reflexivity|]. now apply string_app_inv_head in H.
Qed.

Lemma quoteJSONChar_not_quote (c : ascii) (x y : string) :
  (quoteJSONChar c ++ x)%string <> String doubleQuote y.
Proof.
  pose proof quotedHead_all as Hall. rewrite forallb_forall in Hall.
  specialize (Hall c (In_allAscii c)). unfold quotedHead in Hall.
  destruct (quoteJSONChar c) as [|h t]; [discriminate|].
  simpl. intros H. inversion H; subst.
  now rewrite Ascii.eqb_refl in Hall.
Qed.

Lemma quoteJSONChars_decode (s1 s2 r1 r2 : string) :
  (quoteJSONChars s1 ++ String doubleQuote r1
   = quoteJSONChars s2 ++ String doubleQuote r2)%string ->
  s1 = s2 /\ r1 = r2.
Proof.
  revert s2. induction s1 as [|c1 s1 IH]; intros [|c2 s2]; simpl; intros H.
  - inversion H. auto.
  - symmetry in H. rewrite string_app_assoc in H.
    now apply quoteJSONChar_not_quote in H.
  - rewrite string_app_assoc in H. now apply quoteJSONChar_not_quote in H.
  - rewrite !string_app_assoc in H.
    apply quoteJSONChar_decode in H as [-> H].
    apply IH in H as [-> ->]. auto.
Qed.

Lemma quoteJSONString_decode (s1 s2 r1 r2 : string) :
  (quoteJSONString s1 ++ r1 = quoteJSONString s2 ++ r2)%string ->
  s1 = s2 /\ r1 = r2.
Proof.
  unfold quoteJSONString. simpl. intros H. inversion H as [H'].
  rewrite !string_app_assoc in H'. simpl in H'.
  now apply quoteJSONChars_decode in H'.
Qed.

Lemma joinElements_cons (s : string) (l : list string) :
  joinElements (s :: l)
  = (quoteJSONString s
     ++ match l with [] => EmptyString | _ => "," ++ joinElements l end)%string.
Proof.
  destruct l; simpl; [|reflexivity].
  unfold quoteJSONString. simpl. f_equal.
  induction (quoteJSONChars s ++ String doubleQuote EmptyString)%string
    as [|c t IH]; simpl; [reflexivity|now rewrite <- IH].
Qed.

Lemma joinElements_decode (l1 l2 : list string) :
  (joinElements l1 ++ "]" = joinElements l2 ++ "]")%string -> l1 = l2.
Proof.
  revert l2. induction l1 as [|s1 l1 IH]; intros [|s2 l2] H.
  - reflexivity.
  - exfalso. rewrite joinElements_cons in H. simpl in H. inversion H.
  - exfalso. rewrite joinElements_cons in H. simpl in H. inversion H.
  - rewrite !joinElements_cons, !string_app_assoc in H.
    apply quoteJSONString_decode in H as [-> H]. f_equal.
    destruct l1 as [|a1 l1], l2 as [|a2 l2]; simpl in H;
      try reflexivity; try discriminate.
    inversion H as [H']. now apply IH.
Qed.

Lemma JSON_stringify_inj (l1 l2 : list string) :
  JSON_stringify l1 = JSON_stringify l2 -> l1 = l2.
Proof.
  unfold JSON_stringify. simpl. intros H. inversion H as [H'].
  now apply joinElements_decode.
Qed.

Lemma JSON_stringify_differs (l1 l2 : list string) :
  negb (String.eqb (JSON_stringify l1) (JSON_stringify l2)) = true
  <-> l1 <> l2.
Proof.
  rewrite negb_true_iff, String.eqb_neq. split.
  - intros H E. apply H. now rewrite E.
  - intros H E. apply H. now apply JSON_stringify_inj.
Qed.

(** ** [updateTaskAsAdmin] *)

Lemma bind_findById {B : Type} (id : string) (k : option Task.t -> Async B)
    (w : World) :
  (x <- TaskRepo.findById id ;; k x) w = k (TaskRepo.lookup w id) w.
Proof. reflexivity. Qed.

Lemma bind_update {B : Type} (id : string) (patch : TaskPatch.t)
    (k : option Task.t -> Async B) (w : World) (d : TaskDoc.t) :
  JsMap.get id (taskDocs w) = Some d ->
  let d' := TaskRepo.applyPatch patch (clock w) d in
  (x <- TaskRepo.update id patch ;; k x) w
  = k (Some (TaskRepo.mapDocumentToTask id d'))
      (setTaskDocs (JsMap.set id d' (taskDocs w)) w).
Proof.
  intros H d'. unfold bind, TaskRepo.update. rewrite H. reflexivity.
Qed.

Lemma logsTypes_ret {A : Type} (r : A) : logsTypes (ret r) r [].
Proof.
  intros w. exists w, []. split; [reflexivity|].
  split; [now rewrite app_nil_r|repeat split].
Qed.

Lemma logsTypes_createActivity (taskId : string) (type : ActivityType)
    (message actorUserId : string) :
  logsTypes (createActivity taskId type message actorUserId ;;; ret tt) tt
            [type].
Proof.
  intros w. do 2 eexists. split; [reflexivity|]. repeat split.
Qed.

Lemma logsTypes_when (b : bool) (taskId : string) (type : ActivityType)
    (message actorUserId : string) :
  logsTypes (when b (createActivity taskId type message actorUserId)) tt
            (if b then [type] else []).
Proof.
  destruct b; simpl; [apply logsTypes_createActivity|apply logsTypes_ret].
Qed.

Lemma logsTypes_optional {X : Type} (o : option X) (f : X -> Async unit)
    (g : X -> list ActivityType) :
  (forall x, logsTypes (f x) tt (g x)) ->
  logsTypes (match o with Some x => f x | None => ret tt end) tt
            (match o with Some x => g x | None => [] end).
Proof.
  intros H. destruct o; [apply H|apply logsTypes_ret].
Qed.

Lemma logsTypes_seq {A B : Type} (c : Async A) (k : Async B) (a : A) (r : B)
    (t1 t2 : list ActivityType) :
  logsTypes c a t1 -> logsTypes k r t2 ->
  logsTypes (c ;;; k) r (t1 ++ t2).
Proof.
  intros H1 H2 w. destruct (H1 w) as (w1 & l1 & E1 & A1 & T1 & D1 & M1).
  destruct (H2 w1) as (w2 & l2 & E2 & A2 & T2 & D2 & M2).
  exists w2, (l1 ++ l2)%list. unfold bind. rewrite E1, E2.
  split; [reflexivity|]. split; [|split; [|split]].
  - rewrite A2, A1. now rewrite app_assoc.
  - rewrite map_app. now rewrite T1, T2.
  - congruence.
  - congruence.
Qed.

Lemma emitted_app (w w' : World) (l : list Activity.t) :
  activities w' = (activities w ++ l)%list -> emitted w w' = l.
Proof.
  intros H. unfold emitted. rewrite H, skipn_app, skipn_all, Nat.sub_diag.
  reflexivity.
Qed.

(** A successful [updateTaskAsAdmin]: the document it leaves, the task it
    returns and the types of the activities it appends, in order. *)
Lemma updateTaskAsAdmin_run (taskId : string) (patch : TaskPatch.t)
    (actorUserId : string) (w : World) (d : TaskDoc.t) :
  JsMap.get taskId (taskDocs w) = Some d ->
  let existing := TaskRepo.mapDocumentToTask taskId d in
  let d' := TaskRepo.applyPatch patch (clock w) d in
  exists w',
    updateTaskAsAdmin taskId patch actorUserId w
    = (Returned (Some (TaskRepo.mapDocumentToTask taskId d')), w')
    /\ taskDocs w' = JsMap.set taskId d' (taskDocs w)
    /\ timeEntries w' = timeEntries w
    /\ map Activity.type (emitted w w')
       = (match TaskPatch.status patch with
          | Some status =>
              if negb (TaskStatus_eqb status (Task.status existing))
              then [TASK_STATUS_CHANGED] else []
          | None => []
          end
          ++ match TaskPatch.assigneeUserId patch with
             | Some assignee =>
                 if negb (option_eqb String.eqb assignee
                                     (Task.assigneeUserId existing))
                 then [TASK_ASSIGNED] else []
             | None => []
             end
          ++ match TaskPatch.priority patch with
             | Some priority =>
                 if negb (Priority_eqb priority (Task.priority existing))
                 then [TASK_PRIORITY_CHANGED] else []
             | None => []
             end
          ++ match TaskPatch.dueDate patch with
             | Some _ => [TASK_DUE_DATE_CHANGED]
             | None => []
             end
          ++ match TaskPatch.tags patch with
             | Some tags =>
                 if negb (String.eqb (JSON_stringify tags)
                                     (JSON_stringify (Task.tags existing)))
                 then [TASK_TAGS_CHANGED] else []
             | None => []
             end
          ++ [])%list.
Proof.
  intros Hd existing d'.
  assert (Hl : TaskRepo.lookup w taskId = Some existing).
  { unfold TaskRepo.lookup. now rewrite Hd. }
  unfold updateTaskAsAdmin. rewrite bind_findById, Hl.
  rewrite (bind_update _ _ _ _ _ Hd). fold d'.
  set (w1 := setTaskDocs (JsMap.set taskId d' (taskDocs w)) w).
  match goal with
  | |- exists w', ?c w1 = _ /\ _ =>
      assert (L : logsTypes c (Some (TaskRepo.mapDocumentToTask taskId d'))
        (match TaskPatch.status patch with
          | Some status =>
              if negb (TaskStatus_eqb status (Task.status existing))
              then [TASK_STATUS_CHANGED] else []
          | None => []
          end
          ++ match TaskPatch.assigneeUserId patch with
             | Some assignee =>
                 if negb (option_eqb String.eqb assignee
                                     (Task.assigneeUserId existing))
                 then [TASK_ASSIGNED] else []
             | None => []
             end
          ++ match TaskPatch.priority patch with
             | Some priority =>
                 if negb (Priority_eqb priority (Task.priority existing))
                 then [TASK_PRIORITY_CHANGED] else []
             | None => []
             end
          ++ match TaskPatch.dueDate patch with
             | Some _ => [TASK_DUE_DATE_CHANGED]
             | None => []
             end
          ++ match TaskPatch.tags patch with
             | Some tags =>
                 if negb (String.eqb (JSON_stringify tags)
                                     (JSON_stringify (Task.tags existing)))
                 then [TASK_TAGS_CHANGED] else []
             | None => []
             end
          ++ [])%list)
  end.
  { repeat (eapply logsTypes_seq;
            [ first [ apply (logsTypes_optional (TaskPatch.dueDate patch));
                      intros x; apply logsTypes_createActivity
                    | apply logsTypes_optional; intros x; apply logsTypes_when ]
            | ]).
    apply logsTypes_ret. }
  destruct (L w1) as (w' & l & E & Ha & Ht & Hdocs & Hentries).
  exists w'. split; [exact E|]. split; [exact Hdocs|].
  split; [exact Hentries|].
  rewrite (emitted_app w w' l); [exact Ht|exact Ha].
Qed.

(** The types of the activities that a successful [updateTaskAsAdmin]
    appends, in order. *)
Lemma updateTaskAsAdmin_types (taskId : string) (patch : TaskPatch.t)
    (actorUserId : string) (w : World) (existing : Task.t) :
  TaskRepo.lookup w taskId = Some existing ->
  exists updated w',
    updateTaskAsAdmin taskId patch actorUserId w = (Returned (Some updated), w')
    /\ TaskRepo.lookup w' taskId = Some updated
    /\ map Activity.type (emitted w w')
       = (match TaskPatch.status patch with
          | Some status =>
              if negb (TaskStatus_eqb status (Task.status existing))
              then [TASK_STATUS_CHANGED] else []
          | None => []
          end
          ++ match TaskPatch.assigneeUserId patch with
             | Some assignee =>
                 if negb (option_eqb String.eqb assignee
                                     (Task.assigneeUserId existing))
                 then [TASK_ASSIGNED] else []
             | None => []
             end
          ++ match TaskPatch.priority patch with
             | Some priority =>
                 if negb (Priority_eqb priority (Task.priority existing))
                 then [TASK_PRIORITY_CHANGED] else []
             | None => []
             end
          ++ match TaskPatch.dueDate patch with
             | Some _ => [TASK_DUE_DATE_CHANGED]
             | None => []
             end
          ++ match TaskPatch.tags patch with
             | Some tags =>
                 if negb (String.eqb (JSON_stringify tags)
                                     (JSON_stringify (Task.tags existing)))
                 then [TASK_TAGS_CHANGED] else []
             | None => []
             end
          ++ [])%list.
Proof.
  intros Hl. destruct (TaskRepo_lookup_doc _ _ _ Hl) as (d & Hd & ->).
  destruct (updateTaskAsAdmin_run taskId patch actorUserId w d Hd)
    as (w' & Hrun & Hdocs & _ & Ht).
  do 2 eexists. split; [exact Hrun|]. split; [|exact Ht].
  apply (TaskRepo_lookup_set w). exact Hdocs.
Qed.

Lemma TaskStatus_eqb_eq (a b : TaskStatus) : TaskStatus_eqb a b = true <-> a = b.
Proof. destruct a, b; simpl; split; intros H; congruence. Qed.

Lemma Priority_eqb_eq (a b : Priority) : Priority_eqb a b = true <-> a = b.
Proof. destruct a, b; simpl; split; intros H; congruence. Qed.

Lemma option_string_eqb_eq (a b : option string) :
  option_eqb String.eqb a b = true <-> a = b.
Proof.
  destruct a as [a|], b as [b|]; simpl; try (split; congruence).
  rewrite String.eqb_eq. split; congruence.
Qed.

Lemma negb_eqb_differs {A : Type} (eqb : A -> A -> bool) (a b : A) :
  (eqb a b = true <-> a = b) -> (negb (eqb a b) = true <-> a <> b).
Proof.
  intros H. rewrite negb_true_iff. destruct (eqb a b).
  - split; [discriminate|]. intros Hne. exfalso. apply Hne. now apply H.
  - split; [|reflexivity]. intros _ E. apply H in E. discriminate.
Qed.

Lemma In_logged_if {X : Type} (type type' : ActivityType) (o : option X)
    (test : X -> bool) :
  In type (match o with
           | Some x => if test x then [type'] else []
           | None => []
           end)
  <-> type' = type /\ exists x, o = Some x /\ test x = true.
Proof.
  destruct o as [x|]; simpl.
  - destruct (test x) eqn:E; simpl.
    + split; [intros [H|[]]; eauto|intros [H _]; auto].
    + split; [tauto|]. intros (_ & y & Hy & Ht). congruence.
  - split; [tauto|]. intros (_ & y & Hy & _). discriminate.
Qed.

Lemma In_logged_present {X : Type} (type type' : ActivityType) (o : option X) :
  In type (match o with Some _ => [type'] | None => [] end)
  <-> type' = type /\ o <> None.
Proof.
  destruct o; simpl.
  - split; [intros [H|[]]; split; [assumption|discriminate]|intros [H _]; auto].
  - split; [tauto|]. intros [_ H]. congruence.
Qed.

(** X8. What a successful [updateTaskAsAdmin] logs, field by field: for
    the status, the assignee, the priority and the tags, the matching
    activity exactly when the patched value differs from the prior one (tags
    as whole ordered lists); for the due date, the activity whenever the
    patch carries the field. *)
Lemma updateTaskAsAdmin_logs (taskId : string) (patch : TaskPatch.t)
    (actorUserId : string) (w : World) (existing : Task.t) :
  TaskRepo.lookup w taskId = Some existing ->
  exists updated w',
    updateTaskAsAdmin taskId patch actorUserId w = (Returned (Some updated), w')
    /\ (logged TASK_STATUS_CHANGED w w'
        <-> differs (TaskPatch.status patch) (Task.status existing))
    /\ (logged TASK_ASSIGNED w w'
        <-> differs (TaskPatch.assigneeUserId patch)
                    (Task.assigneeUserId existing))
    /\ (logged TASK_PRIORITY_CHANGED w w'
        <-> differs (TaskPatch.priority patch) (Task.priority existing))
    /\ (logged TASK_TAGS_CHANGED w w'
        <-> differs (TaskPatch.tags patch) (Task.tags existing))
    /\ (logged TASK_DUE_DATE_CHANGED w w' <-> TaskPatch.dueDate patch <> None).
Proof.
  intros Hl.
  destruct (updateTaskAsAdmin_types taskId patch actorUserId w existing Hl)
    as (updated & w' & Hrun & _ & Ht).
  exists updated, w'. split; [exact Hrun|].
  unfold logged. rewrite Ht. clear Ht Hrun.
  rewrite !in_app_iff, !In_logged_if, !In_logged_present. simpl.
  unfold differs.
  repeat split.
  - intros [(_ & x & Hx & Hc)|[(E & _)|[(E & _)|[(E & _)|[(E & _)|[]]]]]];
      try discriminate.
    exists x. split; [assumption|].
    now apply (negb_eqb_differs _ _ _ (TaskStatus_eqb_eq _ _)).
  - intros (x & Hx & Hne). left. split; [reflexivity|]. exists x.
    split; [assumption|].
    now apply (negb_eqb_differs _ _ _ (TaskStatus_eqb_eq _ _)).
  - intros [(E & _)|[(_ & x & Hx & Hc)|[(E & _)|[(E & _)|[(E & _)|[]]]]]];
      try discriminate.
    exists x. split; [assumption|].
    now apply (negb_eqb_differs _ _ _ (option_string_eqb_eq _ _)).
  - intros (x & Hx & Hne). right. left. split; [reflexivity|]. exists x.
    split; [assumption|].
    now apply (negb_eqb_differs _ _ _ (option_string_eqb_eq _ _)).
  - intros [(E & _)|[(E & _)|[(_ & x & Hx & Hc)|[(E & _)|[(E & _)|[]]]]]];
      try discriminate.
    exists x. split; [assumption|].
    now apply (negb_eqb_differs _ _ _ (Priority_eqb_eq _ _)).
  - intros (x & Hx & Hne). right. right. left. split; [reflexivity|]. exists x.
    split; [assumption|].
    now apply (negb_eqb_differs _ _ _ (Priority_eqb_eq _ _)).
  - intros [(E & _)|[(E & _)|[(E & _)|[(E & _)|[(_ & x & Hx & Hc)|[]]]]]];
      try discriminate.
    exists x. split; [assumption|]. now apply JSON_stringify_differs.
  - intros (x & Hx & Hne). do 4 right. left. split; [reflexivity|]. exists x.
    split; [assumption|]. now apply JSON_stringify_differs.
  - intros [(E & _)|[(E & _)|[(E & _)|[(_ & H)|[(E & _)|[]]]]]];
      try discriminate.
    exact H.
  - intros H. do 3 right. left. split; [reflexivity|exact H].
Qed.

(** C5 fails on the due date.  The patch carries the due date that the task
    already has: the update succeeds, the due date of the task is what it
    was, and yet one TASK_DUE_DATE_CHANGED activity is logged. *)
Theorem updateTaskAsAdmin_logs_unchanged_due_date :
  let patch :=
    TaskPatch.mk None None None None None (Some (Some 86400000)) None in
  exists existing updated w',
    TaskRepo.lookup Sample.idle "task2" = Some existing
    /\ updateTaskAsAdmin "task2" patch "admin1" Sample.idle
       = (Returned (Some updated), w')
    /\ Task.dueDate existing = Some 86400000
    /\ Task.dueDate updated = Task.dueDate existing
    /\ ~ differs (TaskPatch.dueDate patch) (Task.dueDate existing)
    /\ logged TASK_DUE_DATE_CHANGED Sample.idle w'
    /\ map Activity.message (emitted Sample.idle w')
       = ["Due date set to 1970-01-02"].
Proof.
  intros patch. do 3 eexists.
  split; [reflexivity|]. split; [lazy; reflexivity|].
  split; [reflexivity|]. split; [reflexivity|]. split; [|split].
  - intros (v & Hv & Hne). inversion Hv; subst. now apply Hne.
  - vm_compute. auto.
  - vm_compute. reflexivity.
Qed.

(* ================================================================== *)
(** * Further properties *)

(** ** The Firestore repository of the time entries and the mock *)

Lemma compareDocumentIds_total (a b : string) :
  compareDocumentIds a b <= 0 \/ compareDocumentIds b a <= 0.
Proof. exact (codeUnitCompare_total a b). Qed.

Lemma compareDocumentIds_trans (a b c : string) :
  compareDocumentIds a b <= 0 -> compareDocumentIds b c <= 0 ->
  compareDocumentIds a c <= 0.
Proof. exact (codeUnitCompare_trans a b c). Qed.

Lemma thenBy_first (x y second : Z) :
  thenBy (x - y) second <= 0 -> x <= y.
Proof. unfold thenBy. destruct (Z.eqb_spec (x - y) 0); lia. Qed.

Section ThenBy.

Context {A : Type}.
Variable key : A -> Z.
Variable name : A -> string.

Lemma thenBy_total (a b : A) :
  thenBy (key a - key b) (compareDocumentIds (name a) (name b)) <= 0
  \/ thenBy (key b - key a) (compareDocumentIds (name b) (name a)) <= 0.
Proof.
  unfold thenBy.
  destruct (Z.eqb_spec (key a - key b) 0), (Z.eqb_spec (key b - key a) 0);
    try lia.
  apply compareDocumentIds_total.
Qed.

Lemma thenBy_trans (a b c : A) :
  thenBy (key a - key b) (compareDocumentIds (name a) (name b)) <= 0 ->
  thenBy (key b - key c) (compareDocumentIds (name b) (name c)) <= 0 ->
  thenBy (key a - key c) (compareDocumentIds (name a) (name c)) <= 0.
Proof.
  unfold thenBy.
  destruct (Z.eqb_spec (key a - key b) 0), (Z.eqb_spec (key b - key c) 0),
           (Z.eqb_spec (key a - key c) 0); try lia.
  apply compareDocumentIds_trans.
Qed.

End ThenBy.

Lemma filter_Permutation {A : Type} (p : A -> bool) (l l' : list A) :
  Permutation l l' -> Permutation (filter p l) (filter p l').
Proof.
  induction 1 as [|x l l' _ IH|x y l|l l' l'' _ IH1 _ IH2]; simpl.
  - constructor.
  - destruct (p x); [now constructor|assumption].
  - destruct (p x), (p y); try reflexivity. apply perm_swap.
  - now transitivity (filter p l').
Qed.

Lemma StronglySorted_filter {A : Type} (R : A -> A -> Prop) (p : A -> bool)
    (l : list A) :
  StronglySorted R l -> StronglySorted R (filter p l).
Proof.
  induction 1 as [|a l HS IH Hall]; simpl; [constructor|].
  destruct (p a); [|assumption]. constructor; [assumption|].
  apply Forall_forall. intros x Hx. apply filter_In in Hx as [Hx _].
  rewrite Forall_forall in Hall. now apply Hall.
Qed.

Lemma StronglySorted_map {A B : Type} (R : A -> A -> Prop)
    (S : B -> B -> Prop) (f : A -> B) (l : list A) :
  (forall a b, R a b -> S (f a) (f b)) ->
  StronglySorted R l -> StronglySorted S (map f l).
Proof.
  intros H. induction 1 as [|a l HS IH Hall]; simpl; constructor;
    [assumption|].
  apply Forall_forall. intros y Hy. apply in_map_iff in Hy as (x & <- & Hx).
  rewrite Forall_forall in Hall. apply H. now apply Hall.
Qed.

Lemma Permutation_short {A : Type} (l l' : list A) :
  Permutation l l' -> (List.length l' <= 1)%nat -> l = l'.
Proof.
  intros HP Hlen. destruct l' as [|x [|y l']]; simpl in Hlen; [| |lia].
  - apply Permutation_sym in HP. now apply Permutation_nil in HP.
  - apply Permutation_sym in HP. now apply Permutation_length_1_inv in HP.
Qed.

Lemma stored_get (m : JsMap.t TimeEntry.t) (id : string) :
  JsMap.get id (FirestoreTimeEntryRepository.stored m)
  = option_map FirestoreTimeEntryRepository.toDoc (JsMap.get id m).
Proof.
  induction m as [|[k e] m IH]; simpl; [reflexivity|].
  destruct (String.eqb id k); [reflexivity|exact IH].
Qed.

Lemma stored_set (m : JsMap.t TimeEntry.t) (id : string) (e : TimeEntry.t) :
  FirestoreTimeEntryRepository.stored (JsMap.set id e m)
  = JsMap.set id (FirestoreTimeEntryRepository.toDoc e)
              (FirestoreTimeEntryRepository.stored m).
Proof.
  induction m as [|[k e0] m IH]; simpl; [reflexivity|].
  destruct (String.eqb id k); simpl; [reflexivity|now rewrite IH].
Qed.

Lemma mapDocument_toDoc (e : TimeEntry.t) :
  FirestoreTimeEntryRepository.mapDocumentToTimeEntry (TimeEntry.id e)
    (FirestoreTimeEntryRepository.toDoc e) = e.
Proof. destruct e; reflexivity. Qed.

Lemma keyedById_In (m : JsMap.t TimeEntry.t) (k : string) (e : TimeEntry.t) :
  keyedById m = true -> In (k, e) m -> k = TimeEntry.id e.
Proof.
  unfold keyedById. rewrite forallb_forall. intros H Hin.
  specialize (H _ Hin). simpl in H. now apply String.eqb_eq.
Qed.

Lemma keyedById_get (m : JsMap.t TimeEntry.t) (id : string) (e : TimeEntry.t) :
  keyedById m = true -> JsMap.get id m = Some e -> TimeEntry.id e = id.
Proof.
  intros Hk Hg. symmetry. apply (keyedById_In m); [assumption|].
  now apply JsMap_get_In.
Qed.

Lemma keyedById_tail (kv : string * TimeEntry.t) (m : JsMap.t TimeEntry.t) :
  keyedById (kv :: m) = true ->
  fst kv = TimeEntry.id (snd kv) /\ keyedById m = true.
Proof.
  unfold keyedById. simpl. rewrite andb_true_iff, String.eqb_eq. tauto.
Qed.

Lemma stored_docs (m : JsMap.t TimeEntry.t) :
  keyedById m = true ->
  map FirestoreTimeEntryRepository.docToEntry
      (FirestoreTimeEntryRepository.stored m)
  = JsMap.values m.
Proof.
  induction m as [|[k e] m IH]; intros Hk; [reflexivity|].
  apply keyedById_tail in Hk as [Hid Hk]. simpl in Hid. subst k. simpl.
  unfold FirestoreTimeEntryRepository.docToEntry at 1. simpl.
  rewrite mapDocument_toDoc. now rewrite IH.
Qed.

Lemma keyedById_set (m : JsMap.t TimeEntry.t) (e : TimeEntry.t) :
  keyedById m = true -> keyedById (JsMap.set (TimeEntry.id e) e m) = true.
Proof.
  induction m as [|[k e0] m IH]; intros Hk.
  - simpl. now rewrite String.eqb_refl.
  - apply keyedById_tail in Hk as [Hid Hk]. simpl in Hid. simpl.
    destruct (String.eqb (TimeEntry.id e) k) eqn:E.
    + unfold keyedById in *. simpl. now rewrite String.eqb_refl.
    + unfold keyedById in *. simpl. apply String.eqb_eq in Hid.
      rewrite Hid. simpl. now apply IH.
Qed.

Lemma stored_filter (p : TimeEntry.t -> bool)
    (q : string * TimeEntryDoc.t -> bool) (m : JsMap.t TimeEntry.t) :
  keyedById m = true ->
  (forall kv, q (fst kv, FirestoreTimeEntryRepository.toDoc (snd kv))
              = p (snd kv)) ->
  map FirestoreTimeEntryRepository.docToEntry
      (filter q (FirestoreTimeEntryRepository.stored m))
  = filter p (JsMap.values m).
Proof.
  intros Hk Hq. induction m as [|[k e] m IH]; [reflexivity|].
  apply keyedById_tail in Hk as [Hid Hk]. simpl in Hid. subst k. simpl.
  pose proof (Hq (TimeEntry.id e, e)) as Hqe. simpl in Hqe. rewrite Hqe.
  destruct (p e); simpl; rewrite (IH Hk); [|reflexivity].
  unfold FirestoreTimeEntryRepository.docToEntry at 1. simpl.
  now rewrite mapDocument_toDoc.
Qed.

Lemma stored_active (userId : string) (m : JsMap.t TimeEntry.t) :
  keyedById m = true ->
  Permutation
    (map FirestoreTimeEntryRepository.docToEntry
         (FirestoreTimeEntryRepository.byId
            (filter (FirestoreTimeEntryRepository.whereActiveOf userId)
                    (FirestoreTimeEntryRepository.stored m))))
    (filter (TimeEntryRepo.isActiveOf userId) (JsMap.values m)).
Proof.
  intros Hk.
  rewrite <- (stored_filter (TimeEntryRepo.isActiveOf userId)
                (FirestoreTimeEntryRepository.whereActiveOf userId) _ Hk)
    by (intros [k e]; reflexivity).
  apply Permutation_map. symmetry. apply jsSort_Permutation.
Qed.

Lemma findActiveByUser_head (userId : string)
    (c : FirestoreTimeEntryRepository.Collection) :
  FirestoreTimeEntryRepository.findActiveByUser userId c
  = hd_error
      (map FirestoreTimeEntryRepository.docToEntry
           (FirestoreTimeEntryRepository.byId
              (filter (FirestoreTimeEntryRepository.whereActiveOf userId) c))).
Proof.
  unfold FirestoreTimeEntryRepository.findActiveByUser.
  destruct (FirestoreTimeEntryRepository.byId _); reflexivity.
Qed.

(** X1. On a store that files every entry under its own id, the Firestore
    repository answers as the mock repository of the tests does, up to the
    order of a snapshot.  It finds the same entry by id.  It finds an
    Active entry of a user exactly when the mock finds one, the entry it
    finds is an Active entry of that user in the store, and it is the one
    that the mock finds when the user has at most one.  It lists the same
    entries of a task and user, and the same completed entries of a range,
    these by start time.  [create] and [update] return the same entry and
    leave the collection that holds the entries of the mock. *)
Theorem firestore_repository_agrees_with_mock (w : World) :
  keyedById (timeEntries w) = true ->
  let c := FirestoreTimeEntryRepository.stored (timeEntries w) in
  (forall id,
     FirestoreTimeEntryRepository.findById id c = TimeEntryRepo.lookup w id)
  /\ (forall userId,
        (FirestoreTimeEntryRepository.findActiveByUser userId c = None
         <-> TimeEntryRepo.activeOf w userId = None)
        /\ (forall e,
              FirestoreTimeEntryRepository.findActiveByUser userId c = Some e ->
              In e (JsMap.values (timeEntries w))
              /\ TimeEntry.userId e = userId
              /\ TimeEntry.endTime e = None)
        /\ (singleTimer w userId = true ->
            FirestoreTimeEntryRepository.findActiveByUser userId c
            = TimeEntryRepo.activeOf w userId))
  /\ (forall taskId userId,
        Permutation
          (FirestoreTimeEntryRepository.findByTaskAndUser taskId userId c)
          (mockFindByTaskAndUser taskId userId (timeEntries w)))
  /\ (forall from to,
        Permutation
          (FirestoreTimeEntryRepository.listCompletedInRange from to c)
          (filter (TimeEntryRepo.completedInRange from to)
                  (JsMap.values (timeEntries w)))
        /\ StronglySorted
             (fun a b => TimeEntry.startTime a <= TimeEntry.startTime b)
             (FirestoreTimeEntryRepository.listCompletedInRange from to c))
  /\ (forall timeEntry,
        let (created, w') := TimeEntryRepo.create timeEntry w in
        FirestoreTimeEntryRepository.create timeEntry c
        = (timeEntry, FirestoreTimeEntryRepository.stored (timeEntries w'))
        /\ created = Returned timeEntry
        /\ keyedById (timeEntries w') = true)
  /\ (forall id patch,
        let (updated, w') := TimeEntryRepo.update id patch w in
        exists r,
          updated = Returned r
          /\ FirestoreTimeEntryRepository.update id patch (clock w) c
             = (r, FirestoreTimeEntryRepository.stored (timeEntries w'))
          /\ keyedById (timeEntries w') = true).
Proof.
  intros Hk c. subst c.
  split; [|split; [|split; [|split; [|split]]]].
  - intros id. unfold FirestoreTimeEntryRepository.findById, TimeEntryRepo.lookup.
    rewrite stored_get.
    destruct (JsMap.get id (timeEntries w)) as [e|] eqn:E; simpl; [|reflexivity].
    rewrite <- (keyedById_get _ _ _ Hk E). now rewrite mapDocument_toDoc.
  - intros userId. rewrite findActiveByUser_head.
    unfold TimeEntryRepo.activeOf. rewrite find_filter_head.
    pose proof (stored_active userId _ Hk) as HP.
    set (found := map FirestoreTimeEntryRepository.docToEntry _) in *.
    set (active := filter (TimeEntryRepo.isActiveOf userId)
                          (JsMap.values (timeEntries w))) in *.
    split; [|split].
    + split; intros H.
      * destruct found; [|discriminate].
        apply Permutation_nil in HP. now rewrite HP.
      * destruct active; [|discriminate].
        apply Permutation_sym, Permutation_nil in HP. now rewrite HP.
    + intros e He.
      assert (Hin : In e found) by (destruct found; inversion He; now left).
      apply (Permutation_in _ HP) in Hin. unfold active in Hin.
      apply filter_In in Hin as [Hin Hp].
      apply isActiveOf_spec in Hp. tauto.
    + intros Hs. unfold singleTimer in Hs. fold active in Hs.
      apply Nat.leb_le in Hs. now rewrite (Permutation_short _ _ HP Hs).
  - intros taskId userId.
    unfold FirestoreTimeEntryRepository.findByTaskAndUser, mockFindByTaskAndUser.
    rewrite <- (stored_filter
                  (fun e => String.eqb (TimeEntry.taskId e) taskId
                            && String.eqb (TimeEntry.userId e) userId)
                  (fun d => String.eqb (TimeEntryDoc.taskId (snd d)) taskId
                            && String.eqb (TimeEntryDoc.userId (snd d)) userId)
                  _ Hk) by (intros [k e]; reflexivity).
    apply Permutation_map. symmetry. apply jsSort_Permutation.
  - intros from to. unfold FirestoreTimeEntryRepository.listCompletedInRange.
    split.
    + assert (E : filter (TimeEntryRepo.completedInRange from to)
                         (JsMap.values (timeEntries w))
                  = filter (fun entry =>
                              match TimeEntry.endTime entry with
                              | Some _ => true
                              | None => false
                              end)
                      (map FirestoreTimeEntryRepository.docToEntry
                         (filter (FirestoreTimeEntryRepository.whereStartTimeIn
                                    from to)
                                 (FirestoreTimeEntryRepository.stored
                                    (timeEntries w))))).
      { rewrite (stored_filter
                   (fun e => (TimeEntry.startTime e >=? from)
                             && (TimeEntry.startTime e <=? to))
                   _ _ Hk); [|intros [k e]; reflexivity].
        rewrite filter_filter. apply filter_ext. intros e.
        unfold TimeEntryRepo.completedInRange.
        destruct (TimeEntry.endTime e);
          [symmetry; apply andb_true_r|symmetry; apply andb_false_r]. }
      rewrite E. apply filter_Permutation, Permutation_map.
      symmetry. apply jsSort_Permutation.
    + apply StronglySorted_filter.
      apply (StronglySorted_map
               (inOrder (fun a b : string * TimeEntryDoc.t =>
                           thenBy (TimeEntryDoc.startTime (snd a)
                                   - TimeEntryDoc.startTime (snd b))
                                  (compareDocumentIds (fst a) (fst b))))).
      * unfold inOrder. intros a b. simpl. apply thenBy_first.
      * apply Sorted_StronglySorted.
        -- unfold inOrder. intros a b c0.
           apply (thenBy_trans (fun d => TimeEntryDoc.startTime (snd d)) fst).
        -- apply jsSort_Sorted. intros a b.
           apply (thenBy_total (fun d => TimeEntryDoc.startTime (snd d)) fst).
  - intros timeEntry.
    unfold TimeEntryRepo.create, FirestoreTimeEntryRepository.create. simpl.
    rewrite stored_set. split; [reflexivity|]. split; [reflexivity|].
    now apply keyedById_set.
  - intros id patch.
    unfold TimeEntryRepo.update, FirestoreTimeEntryRepository.update.
    unfold TimeEntryRepo.lookup. rewrite stored_get.
    destruct (JsMap.get id (timeEntries w)) as [e|] eqn:E; simpl.
    + pose proof (keyedById_get _ _ _ Hk E) as Hid. eexists. split; [reflexivity|].
      split.
      * rewrite stored_set. subst id. destruct e; reflexivity.
      * subst id.
        apply (keyedById_set _ (TimeEntryRepo.applyPatch patch (clock w) e) Hk).
    + exists None. repeat split. exact Hk.
Qed.

Lemma firestore_repository_agrees_witness :
  keyedById (timeEntries Sample.running) = true
  /\ singleTimer Sample.running "member1" = true
  /\ FirestoreTimeEntryRepository.findActiveByUser "member1"
       (FirestoreTimeEntryRepository.stored (timeEntries Sample.running))
     = TimeEntryRepo.activeOf Sample.running "member1".
Proof.
  split; [reflexivity|]. split; [reflexivity|].
  destruct (firestore_repository_agrees_with_mock Sample.running eq_refl)
    as (_ & Hactive & _).
  destruct (Hactive "member1") as (_ & _ & Hsame).
  now apply Hsame.
Defined.

(** ** The invariant of the time entries is kept *)

Lemma In_values_set_inv {V : Type} (k : string) (v x : V) (m : JsMap.t V) :
  In x (JsMap.values (JsMap.set k v m)) -> x = v \/ In x (JsMap.values m).
Proof.
  induction m as [|[k' v'] m IH]; simpl.
  - intros [H|[]]; auto.
  - destruct (String.eqb k k'); simpl; intros [H|H]; auto.
    destruct (IH H); auto.
Qed.

Lemma JsMap_set_set {V : Type} (k : string) (v1 v2 : V) (m : JsMap.t V) :
  JsMap.set k v2 (JsMap.set k v1 m) = JsMap.set k v2 m.
Proof.
  induction m as [|[k' v'] m IH]; simpl.
  - now rewrite String.eqb_refl.
  - destruct (String.eqb k k') eqn:E; simpl.
    + now rewrite String.eqb_refl.
    + now rewrite E, IH.
Qed.

Lemma count_set {V : Type} (p : V -> bool) (k : string) (v : V)
    (m : JsMap.t V) :
  (List.length (filter p (JsMap.values (JsMap.set k v m)))
   <= List.length (filter p (JsMap.values m)) + (if p v then 1 else 0))%nat.
Proof.
  induction m as [|[k' v'] m IH]; simpl.
  - destruct (p v); simpl; lia.
  - destruct (String.eqb k k'); simpl.
    + destruct (p v), (p v'); simpl; lia.
    + destruct (p v'); simpl; lia.
Qed.

Lemma validStore_set (w : World) (e : TimeEntry.t) :
  validStore w = true ->
  uniqueKeys (JsMap.set (TimeEntry.id e) e (timeEntries w))
  && keyedById (JsMap.set (TimeEntry.id e) e (timeEntries w)) = true.
Proof.
  unfold validStore. intros H. apply andb_true_iff in H as [Hu Hk].
  now rewrite uniqueKeys_set, keyedById_set.
Qed.

Lemma activeOf_none_count (w : World) (userId : string) :
  TimeEntryRepo.activeOf w userId = None ->
  filter (TimeEntryRepo.isActiveOf userId) (JsMap.values (timeEntries w)) = [].
Proof.
  unfold TimeEntryRepo.activeOf. rewrite find_filter_head.
  destruct (filter _ _); [reflexivity|discriminate].
Qed.

Lemma wellFormed_create (w w' : World) (e : TimeEntry.t) :
  wellFormed w ->
  timeEntries w' = JsMap.set (TimeEntry.id e) e (timeEntries w) ->
  (TimeEntry.endTime e = None ->
   TimeEntryRepo.activeOf w (TimeEntry.userId e) = None) ->
  wellFormed w'.
Proof.
  intros [Hv Hs] Hset Hactive. split.
  - unfold validStore. rewrite Hset. now apply validStore_set.
  - intros u. unfold singleTimer. rewrite Hset. apply Nat.leb_le.
    pose proof (count_set (TimeEntryRepo.isActiveOf u) (TimeEntry.id e) e
                  (timeEntries w)) as Hc.
    specialize (Hs u). unfold singleTimer in Hs. apply Nat.leb_le in Hs.
    destruct (TimeEntryRepo.isActiveOf u e) eqn:E; [|lia].
    apply isActiveOf_spec in E as [Hu He]. subst u.
    rewrite (activeOf_none_count _ _ (Hactive He)) in Hc. simpl in Hc. lia.
Qed.

Lemma startTimeEntry_returned (userId taskId : string) (w w' : World)
    (created : TimeEntry.t) :
  startTimeEntry userId taskId w = (Returned created, w') ->
  TimeEntryRepo.activeOf w userId = None
  /\ (exists task,
        TaskRepo.lookup w taskId = Some task
        /\ Task.assigneeUserId task = Some userId)
  /\ created
     = TimeEntry.mk (uuidSource w (uuidCount w)) taskId userId (clock w)
                    None None (clock w) (clock w)
  /\ timeEntries w'
     = JsMap.set (TimeEntry.id created) created (timeEntries w)
  /\ taskDocs w' = taskDocs w
  /\ uuidSource w' = uuidSource w
  /\ clock w' = clock w.
Proof.
  intros Hrun.
  destruct (TaskRepo.lookup w taskId) as [task|] eqn:Hl.
  - destruct (nullable_neq (Task.assigneeUserId task) userId) eqn:Ha.
    + rewrite (startTimeEntry_forbidden _ _ _ _ Hl Ha) in Hrun. discriminate.
    + destruct (TimeEntryRepo.activeOf w userId) as [active|] eqn:Hact.
      * rewrite (startTimeEntry_conflict _ _ _ _ _ Hl Ha Hact) in Hrun.
        discriminate.
      * rewrite (startTimeEntry_created _ _ _ _ Hl Ha Hact) in Hrun.
        inversion Hrun; subst. split; [reflexivity|]. split.
        { exists task. split; [reflexivity|]. now apply nullable_neq_false. }
        repeat split.
  - rewrite (startTimeEntry_not_found _ _ _ Hl) in Hrun. discriminate.
Qed.

Lemma startTimeEntry_thrown (userId taskId : string) (w w' : World)
    (message : string) :
  startTimeEntry userId taskId w = (Thrown message, w') -> w' = w.
Proof.
  intros Hrun. pose proof (startTimeEntry_decision userId taskId w) as D.
  destruct (TaskRepo.lookup w taskId) as [task|].
  - destruct (nullable_neq (Task.assigneeUserId task) userId).
    + destruct D as (m & Hm & _). congruence.
    + destruct (TimeEntryRepo.activeOf w userId).
      * congruence.
      * destruct D as (c & w1 & Hc & _). congruence.
  - congruence.
Qed.

Lemma wellFormed_startTimeEntry (userId taskId : string) (w : World) :
  wellFormed w -> wellFormed (snd (startTimeEntry userId taskId w)).
Proof.
  intros Hw. destruct (startTimeEntry userId taskId w) as [[created|m] w'] eqn:E.
  - simpl. destruct (startTimeEntry_returned _ _ _ _ _ E)
      as (Hact & _ & Hc & Hset & _).
    apply (wellFormed_create w w' created Hw Hset).
    intros _. subst created. exact Hact.
  - simpl. now rewrite (startTimeEntry_thrown _ _ _ _ _ E).
Qed.

Lemma wellFormed_stopTimeEntry (userId timeEntryId : string) (w : World) :
  wellFormed w -> wellFormed (snd (stopTimeEntry userId timeEntryId w)).
Proof.
  intros Hw.
  destruct (TimeEntryRepo.lookup w timeEntryId) as [e|] eqn:H.
  - destruct (String.eqb_spec (TimeEntry.userId e) userId) as [Hu|Hu].
    + destruct (TimeEntry.endTime e) as [t|] eqn:He.
      * now rewrite (stopTimeEntry_already_stopped _ _ _ _ _ H Hu He).
      * destruct (Z.ltb_spec (TimeEntry.startTime e) (clock w)) as [Hs|Hs].
        -- rewrite (stopTimeEntry_applied _ _ _ _ H Hu He Hs). simpl.
           destruct Hw as [Hv Hsingle].
           assert (Hid : TimeEntry.id e = timeEntryId).
           { unfold validStore in Hv. apply andb_true_iff in Hv as [_ Hk].
             apply (keyedById_get _ _ _ Hk H). }
           eapply (wellFormed_create w _
                     (TimeEntryRepo.applyPatch
                        (stopPatch (clock w)
                           ((clock w - TimeEntry.startTime e) / 1000))
                        (clock w) e)).
           ++ now split.
           ++ simpl. now rewrite Hid.
           ++ simpl. discriminate.
        -- rewrite (stopTimeEntry_guard _ _ _ _ H Hu He); [assumption|lia].
    + now rewrite (stopTimeEntry_forbidden _ _ _ _ H Hu).
  - now rewrite (stopTimeEntry_missing _ _ _ H).
Qed.

Lemma wellFormed_same_entries (w w' : World) :
  timeEntries w' = timeEntries w -> wellFormed w -> wellFormed w'.
Proof.
  unfold wellFormed, validStore, singleTimer. intros ->. auto.
Qed.

Lemma wellFormed_completeTask (taskId memberId : string) (w : World) :
  wellFormed w -> wellFormed (snd (completeTask taskId memberId w)).
Proof.
  intros Hw. destruct (TaskRepo.lookup w taskId) as [task|] eqn:Hl.
  - destruct (nullable_neq (Task.assigneeUserId task) memberId) eqn:Ha.
    + now rewrite (completeTask_forbidden _ _ _ _ Hl Ha).
    + destruct (TaskRepo_lookup_doc _ _ _ Hl) as (d & Hd & Htask).
      destruct (TimeEntryRepo.activeOf w memberId) as [e|] eqn:Hact.
      * destruct (String.eqb_spec (TimeEntry.taskId e) taskId) as [Ht|Ht].
        -- destruct Hw as [Hv Hsingle].
           destruct (Z.ltb_spec (TimeEntry.startTime e) (clock w)) as [Hs|Hs].
           ++ rewrite (completeTask_with_timer _ _ _ _ _ _ Hd Htask Ha Hv Hact
                         Ht Hs). simpl.
              eapply (wellFormed_create w _
                        (TimeEntryRepo.applyPatch
                           (stopPatch (clock w)
                              ((clock w - TimeEntry.startTime e) / 1000))
                           (clock w) e)).
              ** now split.
              ** reflexivity.
              ** simpl. discriminate.
           ++ rewrite (completeTask_with_timer_guard _ _ _ _ _ Hl Ha Hv Hact Ht);
                [now split|lia].
        -- rewrite (completeTask_without_timer _ _ _ _ _ Hd Htask Ha).
           ++ simpl. now apply (wellFormed_same_entries w).
           ++ rewrite Hact. now apply String.eqb_neq.
      * rewrite (completeTask_without_timer _ _ _ _ _ Hd Htask Ha).
        -- simpl. now apply (wellFormed_same_entries w).
        -- now rewrite Hact.
  - now rewrite (completeTask_not_found _ _ _ Hl).
Qed.

(** X2. The services keep the invariant of the time entries: from a world
    whose store is a map keyed by entry id and in which no user has more than
    one Active entry, [startTimeEntry], [stopTimeEntry] and [completeTask]
    lead, whatever their arguments and whether they return or throw, to a
    world of the same kind. *)
Theorem services_keep_single_timer (w : World) :
  wellFormed w ->
  (forall userId taskId, wellFormed (snd (startTimeEntry userId taskId w)))
  /\ (forall userId timeEntryId,
        wellFormed (snd (stopTimeEntry userId timeEntryId w)))
  /\ (forall taskId memberId, wellFormed (snd (completeTask taskId memberId w))).
Proof.
  intros Hw. split; [|split].
  - intros. now apply wellFormed_startTimeEntry.
  - intros. now apply wellFormed_stopTimeEntry.
  - intros. now apply wellFormed_completeTask.
Qed.

Lemma wellFormed_running : wellFormed Sample.running.
Proof.
  split; [reflexivity|]. intros u. unfold singleTimer. apply Nat.leb_le.
  unfold TimeEntryRepo.isActiveOf. cbn -[String.eqb].
  destruct (String.eqb_spec "member1" u) as [<-|H1]; cbn -[String.eqb].
  - simpl. lia.
  - destruct (String.eqb "member2" u); simpl; lia.
Qed.

Lemma services_keep_single_timer_witness :
  wellFormed Sample.running
  /\ wellFormed (snd (stopTimeEntry "member1" "e1" Sample.running))
  /\ wellFormed (snd (completeTask "task1" "member1" Sample.running)).
Proof.
  destruct (services_keep_single_timer Sample.running wellFormed_running)
    as (_ & Hstop & Hcomplete).
  split; [exact wellFormed_running|]. split; [apply Hstop|apply Hcomplete].
Defined.

(** ** Start, stop, start again *)

Lemma find_none_of_all {A : Type} (p : A -> bool) (l : list A) :
  (forall x, In x l -> p x = false) -> find p l = None.
Proof.
  intros H. destruct (find p l) as [x|] eqn:E; [|reflexivity].
  apply find_some in E as [Hin Hp]. rewrite (H x Hin) in Hp. discriminate.
Qed.

Lemma In_set_inv {V : Type} (k id : string) (x v : V) (m : JsMap.t V) :
  uniqueKeys m = true ->
  In (k, x) (JsMap.set id v m) ->
  (k = id /\ x = v) \/ (k <> id /\ In (k, x) m).
Proof.
  intros Hu Hin.
  pose proof (JsMap_In_get _ _ _ (uniqueKeys_set id v _ Hu) Hin) as Hg.
  destruct (String.eqb_spec id k) as [<-|Hne].
  - rewrite JsMap_get_set_same in Hg. inversion Hg. auto.
  - rewrite (JsMap_get_set_other _ _ _ _ Hne) in Hg. right. split.
    + congruence.
    + now apply JsMap_get_In.
Qed.

Lemma setClock_lookup (d : Date) (w : World) (taskId : string) :
  TaskRepo.lookup (setClock d w) taskId = TaskRepo.lookup w taskId.
Proof. reflexivity. Qed.

(** X3. Start, stop, start again.  After [startTimeEntry] has returned an
    entry at time [T0], a stop of that entry by the same user at a later
    time [T1] returns it with [endTime = T1] and
    [durationSeconds = floor((T1 - T0) / 1000)]; from then on the entry is
    terminal, every further stop throwing "Time entry is already stopped";
    the user has no Active entry left, and a new start on the same task
    succeeds. *)
Theorem start_stop_start_again (userId taskId : string) (w w1 : World)
    (created : TimeEntry.t) (T1 : Date) :
  startTimeEntry userId taskId w = (Returned created, w1) ->
  clock w < T1 ->
  exists stopped w2,
    stopTimeEntry userId (TimeEntry.id created) (setClock T1 w1)
    = (Returned (Some stopped), w2)
    /\ TimeEntry.startTime stopped = clock w
    /\ TimeEntry.endTime stopped = Some T1
    /\ TimeEntry.durationSeconds stopped = Some ((T1 - clock w) / 1000)
    /\ (forall T2,
          stopTimeEntry userId (TimeEntry.id created) (setClock T2 w2)
          = (Thrown "Time entry is already stopped", setClock T2 w2))
    /\ TimeEntryRepo.activeOf w2 userId = None
    /\ (forall T2,
          exists again w3,
            startTimeEntry userId taskId (setClock T2 w2) = (Returned again, w3)
            /\ TimeEntry.startTime again = T2).
Proof.
  intros Hrun HT.
  destruct (startTimeEntry_returned _ _ _ _ _ Hrun)
    as (Hnone & (task & Hl & Ha) & Hc & Hset & Hdocs & _ & Hclock).
  assert (Hlook : TimeEntryRepo.lookup (setClock T1 w1) (TimeEntry.id created)
                  = Some created).
  { unfold TimeEntryRepo.lookup. simpl. rewrite Hset. apply JsMap_get_set_same. }
  assert (Hu : TimeEntry.userId created = userId) by (now subst created).
  assert (He : TimeEntry.endTime created = None) by (now subst created).
  assert (Hs : TimeEntry.startTime created < clock (setClock T1 w1)).
  { subst created. simpl. exact HT. }
  pose proof (stopTimeEntry_applied _ _ _ _ Hlook Hu He Hs) as Hstop.
  cbv zeta in Hstop.
  do 2 eexists. split; [exact Hstop|].
  assert (Hstart : TimeEntry.startTime created = clock w) by (now subst created).
  split; [simpl; exact Hstart|]. split; [reflexivity|].
  split; [simpl; now rewrite Hstart|].
  split; [|split].
  - intros T2. eapply stopTimeEntry_already_stopped.
    + unfold TimeEntryRepo.lookup. simpl. apply JsMap_get_set_same.
    + simpl. exact Hu.
    + reflexivity.
  - unfold TimeEntryRepo.activeOf. simpl. rewrite Hset, JsMap_set_set.
    apply find_none_of_all. intros x Hin.
    apply In_values_set_inv in Hin as [->|Hin].
    + unfold TimeEntryRepo.isActiveOf. simpl. apply andb_false_r.
    + destruct (TimeEntryRepo.isActiveOf userId x) eqn:E; [|reflexivity].
      destruct (find_some_of_In _ _ _ Hin E) as [y Hy].
      unfold TimeEntryRepo.activeOf in Hnone. congruence.
  - intros T2. do 2 eexists. split.
    + apply (startTimeEntry_created _ _ _ task).
      * unfold TaskRepo.lookup. simpl. rewrite Hdocs. exact Hl.
      * now apply nullable_neq_false.
      * unfold TimeEntryRepo.activeOf. simpl. rewrite Hset, JsMap_set_set.
        apply find_none_of_all. intros x Hin.
        apply In_values_set_inv in Hin as [->|Hin].
        -- unfold TimeEntryRepo.isActiveOf. simpl. apply andb_false_r.
        -- destruct (TimeEntryRepo.isActiveOf userId x) eqn:E; [|reflexivity].
           destruct (find_some_of_In _ _ _ Hin E) as [y Hy].
           unfold TimeEntryRepo.activeOf in Hnone. congruence.
    + reflexivity.
Qed.

Lemma start_stop_start_again_witness :
  exists created w1,
    startTimeEntry "member1" "task1" Sample.idle = (Returned created, w1)
    /\ clock Sample.idle < 1090000
    /\ exists stopped w2,
         stopTimeEntry "member1" (TimeEntry.id created) (setClock 1090000 w1)
         = (Returned (Some stopped), w2)
         /\ TimeEntry.durationSeconds stopped = Some 90.
Proof.
  do 2 eexists. split; [lazy; reflexivity|]. split; [reflexivity|].
  eassert (Hrun : startTimeEntry "member1" "task1" Sample.idle = _)
    by (lazy; reflexivity).
  destruct (start_stop_start_again "member1" "task1" Sample.idle _ _ 1090000
              Hrun eq_refl)
    as (stopped & w2 & Hstop & _ & _ & Hd & _).
  exists stopped, w2. split; [exact Hstop|exact Hd].
Defined.

(** ** [getActiveTimeEntry] *)

(** X4. [getActiveTimeEntry] is a pure lookup: it leaves the world as it
    is; it returns [null] exactly when no entry of the store is an Active
    entry of the user; an entry it returns is in the store, belongs to the
    user and has no end time.  In a world that keeps the invariant, the same
    user can stop that entry through its id (when it started before now),
    after which [getActiveTimeEntry] returns [null]. *)
Theorem getActiveTimeEntry_then_stop (userId : string) (w : World) :
  exists r,
    getActiveTimeEntry userId w = (Returned r, w)
    /\ (r = None
        <-> forall e,
              In e (JsMap.values (timeEntries w)) ->
              ~ (TimeEntry.userId e = userId /\ TimeEntry.endTime e = None))
    /\ (forall e,
          r = Some e ->
          In e (JsMap.values (timeEntries w))
          /\ TimeEntry.userId e = userId
          /\ TimeEntry.endTime e = None
          /\ (wellFormed w ->
              TimeEntry.startTime e < clock w ->
              exists stopped w2,
                stopTimeEntry userId (TimeEntry.id e) w
                = (Returned (Some stopped), w2)
                /\ TimeEntry.id stopped = TimeEntry.id e
                /\ getActiveTimeEntry userId w2 = (Returned None, w2))).
Proof.
  exists (TimeEntryRepo.activeOf w userId). split; [reflexivity|]. split.
  - split.
    + intros Hnone e Hin [Hu He].
      destruct (activeOf_present w userId e Hin Hu He) as [a Ha]. congruence.
    + intros Hall. apply find_none_of_all. intros x Hin.
      destruct (TimeEntryRepo.isActiveOf userId x) eqn:E; [|reflexivity].
      apply isActiveOf_spec in E. now apply Hall in Hin.
  - intros e Hact. destruct (activeOf_some _ _ _ Hact) as (Hin & Hu & He).
    repeat split; try assumption.
    intros [Hv Hsingle] Hs.
    pose proof (validStore_lookup _ _ Hv Hin) as Hl.
    pose proof (stopTimeEntry_applied _ _ _ _ Hl Hu He Hs) as Hstop.
    cbv zeta in Hstop. do 2 eexists. split; [exact Hstop|].
    split; [reflexivity|].
    unfold getActiveTimeEntry, TimeEntryRepo.findActiveByUser. f_equal. f_equal.
    unfold TimeEntryRepo.activeOf. simpl.
    apply find_none_of_all. intros x Hx.
    destruct (TimeEntryRepo.isActiveOf userId x) eqn:E; [|reflexivity].
    exfalso. unfold validStore in Hv. apply andb_true_iff in Hv as [Huniq Hk].
    apply in_map_iff in Hx as ([k v] & Hv' & Hx). simpl in Hv'. subst v.
    apply (In_set_inv _ _ _ _ _ Huniq) in Hx as [[_ ->]|[Hne Hx]].
    + apply isActiveOf_spec in E as [_ E]. discriminate.
    + assert (Hxin : In x (JsMap.values (timeEntries w))).
      { apply in_map_iff. exists (k, x). split; [reflexivity|assumption]. }
      apply isActiveOf_spec in E as [Hxu Hxe].
      pose proof (singleTimer_activeOf _ _ _ (Hsingle userId) Hxin Hxu Hxe) as Hx'.
      assert (x = e) by congruence. subst x.
      apply Hne. apply (keyedById_In _ _ _ Hk Hx).
Qed.

Lemma getActiveTimeEntry_then_stop_witness :
  wellFormed Sample.running
  /\ exists e stopped w2,
       getActiveTimeEntry "member1" Sample.running
       = (Returned (Some e), Sample.running)
       /\ stopTimeEntry "member1" (TimeEntry.id e) Sample.running
          = (Returned (Some stopped), w2)
       /\ getActiveTimeEntry "member1" w2 = (Returned None, w2).
Proof.
  split; [exact wellFormed_running|].
  destruct (getActiveTimeEntry_then_stop "member1" Sample.running)
    as (r & Hrun & _ & Hsome).
  assert (Hr : r = Some (Sample.entry "e1" "task1" "member1" 1000000 None None)).
  { vm_compute in Hrun. inversion Hrun. reflexivity. }
  destruct (Hsome _ Hr) as (_ & _ & _ & Hstop).
  destruct (Hstop wellFormed_running eq_refl) as (stopped & w2 & H1 & _ & H2).
  exists (Sample.entry "e1" "task1" "member1" 1000000 None None), stopped, w2.
  split; [reflexivity|]. split; assumption.
Defined.

(** ** [createTask] and [assignTask] *)

Lemma JsMap_In_set {V : Type} (k : string) (v : V) (m : JsMap.t V) :
  In (k, v) (JsMap.set k v m).
Proof.
  induction m as [|[k' v'] m IH]; simpl; auto.
  destruct (String.eqb k k'); simpl; auto.
Qed.

Lemma readAssignee_member (m : string) :
  m <> EmptyString -> readAssignee (Some m) = Some m.
Proof. intros H. simpl. apply String.eqb_neq in H. now rewrite H. Qed.

Lemma listed_after_set (w w' : World) (id m : string) (d : TaskDoc.t) :
  taskDocs w' = JsMap.set id d (taskDocs w) ->
  TaskDoc.assigneeUserId d = Some m ->
  exists tasks,
    listTasksForMember m None w' = (Returned tasks, w')
    /\ In (TaskRepo.mapDocumentToTask id d) tasks.
Proof.
  intros Hset Ha. eexists. split; [reflexivity|].
  apply in_map_iff. exists (id, d). split; [reflexivity|].
  apply filter_In. split.
  - rewrite Hset. apply JsMap_In_set.
  - unfold TaskQuery.whereAssignee. simpl. rewrite Ha. apply String.eqb_refl.
Qed.

Lemma JsMap_set_length {V : Type} (k : string) (v : V) (m : JsMap.t V) :
  List.length (JsMap.set k v m)
  = match JsMap.get k m with
    | Some _ => List.length m
    | None => S (List.length m)
    end.
Proof.
  induction m as [|[k' v'] m IH]; simpl; [reflexivity|].
  destruct (String.eqb k k'); simpl; [reflexivity|].
  rewrite IH. now destruct (JsMap.get k m).
Qed.

(** X5. [createTask] makes no check of its own: the write of the
    repository succeeding, as every write of the model does, it returns a
    task with status TODO, the given fields and MEDIUM priority when none
    is given.  It files the task under the id that [randomUUID] draws,
    whether or not a task is stored there, and the task is read back from
    that id (an empty assignee being read back as none); every other id
    reads as before.  When the id drawn is unused the collection gains one
    document; when a task is stored under it, that task is overwritten and
    the collection keeps its size.  It logs TASK_CREATED, followed by
    TASK_ASSIGNED exactly when the assignee is a non-empty string; the
    time entries are untouched.  A task created for a member is in that
    member's list at once. *)
Theorem createTask_round_trip (adminId title description : string)
    (assigneeUserId : option string) (priority : option Priority)
    (dueDate : option Date) (tags : list string) (w : World) :
  exists created w',
    createTask adminId title description assigneeUserId priority dueDate tags w
    = (Returned created, w')
    /\ created
       = Task.mk (uuidSource w (uuidCount w)) title description TODO adminId
                 assigneeUserId
                 (match priority with Some p => p | None => MEDIUM end)
                 dueDate tags (clock w) (clock w)
    /\ TaskRepo.lookup w' (Task.id created)
       = Some (Task.mk (Task.id created) title description TODO adminId
                       (readAssignee assigneeUserId)
                       (Task.priority created) dueDate tags (clock w) (clock w))
    /\ (forall id,
          id <> Task.id created ->
          TaskRepo.lookup w' id = TaskRepo.lookup w id)
    /\ (TaskRepo.lookup w (Task.id created) = None ->
        List.length (taskDocs w') = S (List.length (taskDocs w))
        /\ forall id task,
             TaskRepo.lookup w id = Some task ->
             TaskRepo.lookup w' id = Some task)
    /\ (forall old,
          TaskRepo.lookup w (Task.id created) = Some old ->
          List.length (taskDocs w') = List.length (taskDocs w))
    /\ map Activity.type (emitted w w')
       = TASK_CREATED
         :: match readAssignee assigneeUserId with
            | Some _ => [TASK_ASSIGNED]
            | None => []
            end
    /\ timeEntries w' = timeEntries w
    /\ (forall m,
          assigneeUserId = Some m -> m <> EmptyString ->
          TaskRepo.lookup w' (Task.id created) = Some created
          /\ exists tasks,
               listTasksForMember m None w' = (Returned tasks, w')
               /\ In created tasks).
Proof.
  set (id0 := uuidSource w (uuidCount w)).
  set (task0 :=
         Task.mk id0 title description TODO adminId assigneeUserId
                 (match priority with Some p => p | None => MEDIUM end)
                 dueDate tags (clock w) (clock w)).
  assert (Hrun : exists w',
            createTask adminId title description assigneeUserId priority
                       dueDate tags w
            = (Returned task0, w')
            /\ taskDocs w' = JsMap.set id0 (TaskRepo.toDoc task0) (taskDocs w)
            /\ timeEntries w' = timeEntries w
            /\ map Activity.type (emitted w w')
               = TASK_CREATED
                 :: match readAssignee assigneeUserId with
                    | Some _ => [TASK_ASSIGNED]
                    | None => []
                    end).
  { unfold createTask, bind, randomUUID, newDate, TaskRepo.create, ret.
    cbn [clock uuidSource uuidCount taskDocs Task.id].
    fold id0. fold task0.
    destruct (truthy assigneeUserId) as [a|] eqn:Ht.
    - eexists. split; [reflexivity|]. split; [reflexivity|].
      split; [reflexivity|].
      unfold emitted. simpl. rewrite <- app_assoc, skipn_app, skipn_all,
        Nat.sub_diag. simpl.
      unfold truthy, readAssignee in *.
      destruct assigneeUserId as [x|]; [|discriminate].
      destruct (String.eqb x EmptyString); [discriminate|reflexivity].
    - eexists. split; [reflexivity|]. split; [reflexivity|].
      split; [reflexivity|].
      unfold emitted. simpl. rewrite skipn_app, skipn_all, Nat.sub_diag. simpl.
      unfold truthy, readAssignee in *.
      destruct assigneeUserId as [x|]; [|reflexivity].
      destruct (String.eqb x EmptyString); [reflexivity|discriminate]. }
  destruct Hrun as (w' & Hrun & Hdocs & Hentries & Htypes).
  assert (Hother : forall id,
            id <> id0 -> TaskRepo.lookup w' id = TaskRepo.lookup w id).
  { intros id Hne. unfold TaskRepo.lookup. rewrite Hdocs.
    rewrite JsMap_get_set_other; [reflexivity|congruence]. }
  exists task0, w'. split; [exact Hrun|]. split; [reflexivity|].
  cbn [Task.id Task.priority task0].
  split.
  { unfold TaskRepo.lookup. rewrite Hdocs, JsMap_get_set_same. reflexivity. }
  split; [exact Hother|].
  split.
  { intros Hnone. split.
    - rewrite Hdocs, JsMap_set_length. unfold TaskRepo.lookup in Hnone.
      destruct (JsMap.get id0 (taskDocs w)); [discriminate|reflexivity].
    - intros id task Hl. rewrite Hother; [exact Hl|].
      intros ->. congruence. }
  split.
  { intros old Hold. rewrite Hdocs, JsMap_set_length.
    unfold TaskRepo.lookup in Hold.
    destruct (JsMap.get id0 (taskDocs w)); [reflexivity|discriminate]. }
  split; [exact Htypes|]. split; [exact Hentries|].
  intros m -> Hne. split.
  - unfold TaskRepo.lookup. rewrite Hdocs, JsMap_get_set_same. simpl.
    apply String.eqb_neq in Hne. unfold TaskRepo.mapDocumentToTask. simpl.
    now rewrite Hne.
  - destruct (listed_after_set w w' id0 m (TaskRepo.toDoc task0) Hdocs eq_refl)
      as (tasks & Hlist & Hin).
    exists tasks. split; [exact Hlist|].
    unfold TaskRepo.mapDocumentToTask in Hin. simpl in Hin.
    apply String.eqb_neq in Hne. now rewrite Hne in Hin.
Qed.

Lemma createTask_round_trip_witness :
  (exists created w' tasks,
     createTask "admin1" "Plan" "Plan the week" (Some "member2") None None []
                Sample.idle
     = (Returned created, w')
     /\ Task.priority created = MEDIUM
     /\ List.length (taskDocs w') = 5%nat
     /\ listTasksForMember "member2" None w' = (Returned tasks, w')
     /\ In created tasks)
  /\ (exists created w' old,
        TaskRepo.lookup Sample.clash "task1" = Some old
        /\ Task.title old = "Write report"
        /\ createTask "admin1" "Plan" "Plan the week" (Some "member2") None
                      None [] Sample.clash
           = (Returned created, w')
        /\ Task.id created = "task1"
        /\ List.length (taskDocs w') = 4%nat
        /\ TaskRepo.lookup w' "task1" = Some created).
Proof.
  split.
  - destruct (createTask_round_trip "admin1" "Plan" "Plan the week"
                (Some "member2") None None [] Sample.idle)
      as (created & w' & Hrun & Hc & _ & _ & Hnew & _ & _ & _ & Hlist).
    destruct (Hlist "member2" eq_refl) as (_ & tasks & Hl & Hin);
      [discriminate|].
    exists created, w', tasks. split; [exact Hrun|].
    split; [now rewrite Hc|].
    split; [|split; assumption].
    destruct Hnew as [Hlen _]; [now rewrite Hc|]. exact Hlen.
  - destruct (createTask_round_trip "admin1" "Plan" "Plan the week"
                (Some "member2") None None [] Sample.clash)
      as (created & w' & Hrun & Hc & _ & _ & _ & Hold & _ & _ & Hlist).
    destruct (Hlist "member2" eq_refl) as (Hread & _); [discriminate|].
    subst created.
    eexists _, w',
            (TaskRepo.mapDocumentToTask "task1"
               (Sample.doc (Some "member1") None [])).
    split; [reflexivity|]. split; [reflexivity|]. split; [exact Hrun|].
    split; [reflexivity|].
    split.
    + apply (Hold (TaskRepo.mapDocumentToTask "task1"
                     (Sample.doc (Some "member1") None []))).
      reflexivity.
    + exact Hread.
Defined.

Lemma nullable_neq_true (a : option string) (u : string) :
  a <> Some u -> nullable_neq a u = true.
Proof.
  intros H. destruct (nullable_neq a u) eqn:E; [reflexivity|].
  apply nullable_neq_false in E. contradiction.
Qed.

Lemma updateTaskStatusAsMember_forbidden (taskId memberId : string)
    (status : TaskStatus) (w : World) (task : Task.t) :
  TaskRepo.lookup w taskId = Some task ->
  Task.assigneeUserId task <> Some memberId ->
  updateTaskStatusAsMember taskId memberId status w
  = (Thrown "Forbidden: You can only update status of tasks assigned to you", w).
Proof.
  intros Hl Ha. unfold updateTaskStatusAsMember. rewrite bind_findById, Hl.
  now rewrite (nullable_neq_true _ _ Ha).
Qed.

Lemma assignTask_run (taskId : string) (assigneeUserId : option string)
    (actorUserId : string) (w : World) (d : TaskDoc.t) :
  JsMap.get taskId (taskDocs w) = Some d ->
  let d' := TaskRepo.applyPatch (assigneePatch assigneeUserId) (clock w) d in
  let a := Activity.mk (uuidSource w (uuidCount w)) taskId TASK_ASSIGNED
             (assignedMessage assigneeUserId) actorUserId (clock w) (clock w) in
  assignTask taskId assigneeUserId actorUserId w
  = (Returned (Some (TaskRepo.mapDocumentToTask taskId d')),
     mkWorld (JsMap.set taskId d' (taskDocs w)) (timeEntries w) (comments w)
             (activities w ++ [a]) (clock w) (uuidSource w) (S (uuidCount w))).
Proof.
  intros Hd d' a. unfold assignTask. rewrite (bind_update _ _ _ _ _ Hd).
  reflexivity.
Qed.

(** X6. [assignTask] returns [null] and changes nothing when the task does
    not exist.  Otherwise it saves the new assignee and nothing else of the
    task, and always logs one TASK_ASSIGNED activity, also when the assignee
    is the one the task had.  Ownership moves with it: from then on every
    user other than the new assignee is refused (Forbidden) by
    [startTimeEntry], [completeTask] and [updateTaskStatusAsMember] on this
    task, and the new assignee finds the task in the member list. *)
Theorem assignTask_moves_ownership (taskId : string)
    (assigneeUserId : option string) (actorUserId : string) (w : World) :
  (TaskRepo.lookup w taskId = None ->
   assignTask taskId assigneeUserId actorUserId w = (Returned None, w))
  /\ (forall existing,
        TaskRepo.lookup w taskId = Some existing ->
        exists updated w',
          assignTask taskId assigneeUserId actorUserId w
          = (Returned (Some updated), w')
          /\ TaskRepo.lookup w' taskId = Some updated
          /\ Task.assigneeUserId updated = readAssignee assigneeUserId
          /\ Task.title updated = Task.title existing
          /\ Task.description updated = Task.description existing
          /\ Task.status updated = Task.status existing
          /\ Task.priority updated = Task.priority existing
          /\ Task.dueDate updated = Task.dueDate existing
          /\ Task.tags updated = Task.tags existing
          /\ map Activity.type (emitted w w') = [TASK_ASSIGNED]
          /\ timeEntries w' = timeEntries w
          /\ (forall u,
                readAssignee assigneeUserId <> Some u ->
                (exists message,
                   startTimeEntry u taskId w' = (Thrown message, w')
                   /\ isForbidden message = true)
                /\ (exists message,
                      completeTask taskId u w' = (Thrown message, w')
                      /\ isForbidden message = true)
                /\ (forall status,
                      exists message,
                        updateTaskStatusAsMember taskId u status w'
                        = (Thrown message, w')
                        /\ isForbidden message = true))
          /\ (forall m,
                readAssignee assigneeUserId = Some m ->
                exists tasks,
                  listTasksForMember m None w' = (Returned tasks, w')
                  /\ In updated tasks)).
Proof.
  split.
  - intros Hl. unfold assignTask, bind, TaskRepo.update.
    unfold TaskRepo.lookup in Hl.
    destruct (JsMap.get taskId (taskDocs w)); [discriminate|reflexivity].
  - intros existing Hl. destruct (TaskRepo_lookup_doc _ _ _ Hl) as (d & Hd & ->).
    pose proof (assignTask_run taskId assigneeUserId actorUserId w d Hd) as Hrun.
    cbv zeta in Hrun. do 2 eexists. split; [exact Hrun|].
    set (d' := TaskRepo.applyPatch (assigneePatch assigneeUserId) (clock w) d).
    match goal with |- TaskRepo.lookup ?w1 _ = _ /\ _ => set (w' := w1) end.
    assert (Hl' : TaskRepo.lookup w' taskId
                  = Some (TaskRepo.mapDocumentToTask taskId d')).
    { apply (TaskRepo_lookup_set w). reflexivity. }
    split; [exact Hl'|].
    do 7 (split; [reflexivity|]).
    split.
    { unfold emitted. simpl. now rewrite skipn_app, skipn_all, Nat.sub_diag. }
    split; [reflexivity|]. split.
    + intros u Hu.
      assert (Hne : Task.assigneeUserId (TaskRepo.mapDocumentToTask taskId d')
                    <> Some u) by exact Hu.
      split; [|split].
      * eexists. split.
        -- apply (startTimeEntry_forbidden _ _ _ _ Hl').
           now apply nullable_neq_true.
        -- reflexivity.
      * eexists. split.
        -- apply (completeTask_forbidden _ _ _ _ Hl').
           now apply nullable_neq_true.
        -- reflexivity.
      * intros status. eexists. split.
        -- apply (updateTaskStatusAsMember_forbidden _ _ _ _ _ Hl' Hne).
        -- reflexivity.
    + intros m Hm.
      assert (Ha : assigneeUserId = Some m).
      { unfold readAssignee in Hm. destruct assigneeUserId as [x|];
          [|discriminate].
        destruct (String.eqb x EmptyString); [discriminate|exact Hm]. }
      apply (listed_after_set w w' taskId m d'); [reflexivity|].
      subst d'. simpl. exact Ha.
Qed.

Lemma assignTask_moves_ownership_witness :
  exists updated w' message,
    assignTask "task1" (Some "member2") "admin1" Sample.idle
    = (Returned (Some updated), w')
    /\ Task.assigneeUserId updated = Some "member2"
    /\ startTimeEntry "member1" "task1" w' = (Thrown message, w')
    /\ isForbidden message = true.
Proof.
  destruct (assignTask_moves_ownership "task1" (Some "member2") "admin1"
              Sample.idle) as [_ Hsome].
  destruct (Hsome (TaskRepo.mapDocumentToTask "task1"
                     (Sample.doc (Some "member1") None [])) eq_refl)
    as (updated & w' & Hrun & _ & Ha & _ & _ & _ & _ & _ & _ & _ & _ & Hgate & _).
  destruct (Hgate "member1") as ((message & Hthrow & Hf) & _);
    [discriminate|].
  exists updated, w', message. repeat split; assumption.
Defined.

(** X7. [updateTaskStatusAsMember] returns [null], changing nothing, when
    the task does not exist; it throws the Forbidden error, changing
    nothing, when the task is not assigned to the member (also when it is
    unassigned); otherwise it saves the status and nothing else of the task,
    returns the saved task and logs one TASK_STATUS_CHANGED activity, also
    when the status is the one the task had. *)
Theorem updateTaskStatusAsMember_gate (taskId memberId : string)
    (status : TaskStatus) (w : World) :
  match TaskRepo.lookup w taskId with
  | None =>
      updateTaskStatusAsMember taskId memberId status w = (Returned None, w)
  | Some existing =>
      if nullable_neq (Task.assigneeUserId existing) memberId then
        exists message,
          updateTaskStatusAsMember taskId memberId status w
          = (Thrown message, w)
          /\ isForbidden message = true
      else
        exists updated w',
          updateTaskStatusAsMember taskId memberId status w
          = (Returned (Some updated), w')
          /\ TaskRepo.lookup w' taskId = Some updated
          /\ Task.status updated = status
          /\ Task.assigneeUserId updated = Some memberId
          /\ Task.title updated = Task.title existing
          /\ Task.description updated = Task.description existing
          /\ Task.priority updated = Task.priority existing
          /\ Task.dueDate updated = Task.dueDate existing
          /\ Task.tags updated = Task.tags existing
          /\ map Activity.type (emitted w w') = [TASK_STATUS_CHANGED]
          /\ timeEntries w' = timeEntries w
  end.
Proof.
  destruct (TaskRepo.lookup w taskId) as [existing|] eqn:Hl.
  - destruct (nullable_neq (Task.assigneeUserId existing) memberId) eqn:Ha.
    + eexists. split.
      * unfold updateTaskStatusAsMember. rewrite bind_findById, Hl, Ha.
        reflexivity.
      * reflexivity.
    + destruct (TaskRepo_lookup_doc _ _ _ Hl) as (d & Hd & ->).
      unfold updateTaskStatusAsMember. rewrite bind_findById, Hl, Ha.
      rewrite (bind_update _ _ _ _ _ Hd).
      do 2 eexists. split; [reflexivity|].
      split. { apply (TaskRepo_lookup_set w). reflexivity. }
      split; [reflexivity|].
      split. { apply nullable_neq_false in Ha. exact Ha. }
      do 5 (split; [reflexivity|]).
      split; [|reflexivity].
      unfold emitted. simpl. now rewrite skipn_app, skipn_all, Nat.sub_diag.
  - unfold updateTaskStatusAsMember. rewrite bind_findById, Hl. reflexivity.
Qed.

(** ** [updateTaskAsAdmin]: what is saved *)

Lemma updateTaskAsAdmin_logs_witness :
  let patch :=
    TaskPatch.mk None None (Some TODO) None None None (Some ["b"; "a"]) in
  exists existing updated w',
    TaskRepo.lookup Sample.idle "task2" = Some existing
    /\ Task.tags existing = ["a"; "b"]
    /\ updateTaskAsAdmin "task2" patch "admin1" Sample.idle
       = (Returned (Some updated), w')
    /\ logged TASK_TAGS_CHANGED Sample.idle w'
    /\ ~ logged TASK_STATUS_CHANGED Sample.idle w'.
Proof.
  intros patch.
  destruct (updateTaskAsAdmin_logs "task2" patch "admin1" Sample.idle
              (TaskRepo.mapDocumentToTask "task2"
                 (Sample.doc (Some "member1") (Some 86400000) ["a"; "b"]))
              eq_refl)
    as (updated & w' & Hrun & Hstatus & _ & _ & Htags & _).
  do 3 eexists. split; [reflexivity|]. split; [reflexivity|].
  split; [exact Hrun|]. split.
  - apply Htags. exists ["b"; "a"]. split; [reflexivity|discriminate].
  - intros H. apply Hstatus in H as (v & Hv & Hne). inversion Hv; subst.
    now apply Hne.
Defined.

(** X9. [updateTaskAsAdmin] returns [null] and changes nothing when the
    task does not exist.  Otherwise it saves, of the task, exactly the
    fields that the patch carries: each of them takes the patched value (an
    empty assignee being read back as none, a [null] due date or assignee
    clearing the field), every other field stays, [updatedAt] becomes the
    time of the update, and the saved task is the one returned; no other
    task and no time entry is touched. *)
Theorem updateTaskAsAdmin_partial_update (taskId : string)
    (patch : TaskPatch.t) (actorUserId : string) (w : World) :
  (TaskRepo.lookup w taskId = None ->
   updateTaskAsAdmin taskId patch actorUserId w = (Returned None, w))
  /\ (forall existing,
        TaskRepo.lookup w taskId = Some existing ->
        exists updated w',
          updateTaskAsAdmin taskId patch actorUserId w
          = (Returned (Some updated), w')
          /\ TaskRepo.lookup w' taskId = Some updated
          /\ Task.id updated = taskId
          /\ Task.title updated
             = match TaskPatch.title patch with
               | Some x => x
               | None => Task.title existing
               end
          /\ Task.description updated
             = match TaskPatch.description patch with
               | Some x => x
               | None => Task.description existing
               end
          /\ Task.status updated
             = match TaskPatch.status patch with
               | Some x => x
               | None => Task.status existing
               end
          /\ Task.assigneeUserId updated
             = match TaskPatch.assigneeUserId patch with
               | Some x => readAssignee x
               | None => Task.assigneeUserId existing
               end
          /\ Task.priority updated
             = match TaskPatch.priority patch with
               | Some x => x
               | None => Task.priority existing
               end
          /\ Task.dueDate updated
             = match TaskPatch.dueDate patch with
               | Some x => x
               | None => Task.dueDate existing
               end
          /\ Task.tags updated
             = match TaskPatch.tags patch with
               | Some x => x
               | None => Task.tags existing
               end
          /\ Task.createdByAdminId updated = Task.createdByAdminId existing
          /\ Task.createdAt updated = Task.createdAt existing
          /\ Task.updatedAt updated = clock w
          /\ (forall other,
                other <> taskId ->
                TaskRepo.lookup w' other = TaskRepo.lookup w other)
          /\ timeEntries w' = timeEntries w).
Proof.
  split.
  - intros Hl. unfold updateTaskAsAdmin. now rewrite bind_findById, Hl.
  - intros existing Hl. destruct (TaskRepo_lookup_doc _ _ _ Hl) as (d & Hd & ->).
    destruct (updateTaskAsAdmin_run taskId patch actorUserId w d Hd)
      as (w' & Hrun & Hdocs & Hentries & _).
    do 2 eexists. split; [exact Hrun|].
    split. { apply (TaskRepo_lookup_set w). exact Hdocs. }
    do 4 (split; [reflexivity|]).
    split. { simpl. destruct (TaskPatch.assigneeUserId patch); reflexivity. }
    do 6 (split; [reflexivity|]).
    split; [|exact Hentries].
    intros other Hne. unfold TaskRepo.lookup. rewrite Hdocs.
    rewrite JsMap_get_set_other; [reflexivity|congruence].
Qed.

Lemma updateTaskAsAdmin_partial_update_witness :
  let patch :=
    TaskPatch.mk (Some "Report") None None (Some None) None None None in
  exists updated w',
    updateTaskAsAdmin "task2" patch "admin1" Sample.idle
    = (Returned (Some updated), w')
    /\ Task.title updated = "Report"
    /\ Task.assigneeUserId updated = None
    /\ Task.tags updated = ["a"; "b"]
    /\ TaskRepo.lookup w' "task1" = TaskRepo.lookup Sample.idle "task1".
Proof.
  intros patch.
  destruct (updateTaskAsAdmin_partial_update "task2" patch "admin1" Sample.idle)
    as [_ Hsome].
  destruct (Hsome (TaskRepo.mapDocumentToTask "task2"
                     (Sample.doc (Some "member1") (Some 86400000) ["a"; "b"]))
                  eq_refl)
    as (updated & w' & Hrun & _ & _ & Ht & _ & _ & Ha & _ & _ & Htags & _ & _
        & _ & Hother & _).
  exists updated, w'. split; [exact Hrun|]. split; [exact Ht|].
  split; [exact Ha|]. split; [exact Htags|]. apply Hother. discriminate.
Defined.

(** ** [searchAndFilter] and the listings *)

Lemma optFilter_filter {A : Type} (o : option A)
    (p : A -> TaskQuery.Doc -> bool) (l : list TaskQuery.Doc) :
  TaskQuery.optFilter o p l
  = filter (fun d => match o with Some a => p a d | None => true end) l.
Proof.
  destruct o; simpl; [reflexivity|].
  induction l as [|x l IH]; simpl; [reflexivity|now rewrite <- IH].
Qed.

Lemma filter_map_comm {A B : Type} (f : A -> B) (q : B -> bool) (l : list A) :
  filter q (map f l) = map f (filter (fun x => q (f x)) l).
Proof.
  induction l as [|x l IH]; simpl; [reflexivity|].
  destruct (q (f x)); simpl; now rewrite IH.
Qed.

Lemma filter_true {A : Type} (l : list A) : filter (fun _ => true) l = l.
Proof. induction l as [|x l IH]; simpl; [reflexivity|now rewrite IH]. Qed.

(** The queries of [searchAndFilter] select the documents that pass the
    given filters, in the order of the collection; the sort comes last. *)
Lemma searchAndFilter_selects (filters : TaskFilters.t) (w : World) :
  let selected :=
    map TaskQuery.toTask (filter (matchesFilters filters) (taskDocs w)) in
  TaskQuery.searchAndFilter filters w
  = (Returned
       (match TaskFilters.sortBy filters with
        | Some by_ =>
            jsSort (TaskQuery.compareTasks by_ (TaskFilters.sortOrder filters))
                   selected
        | None => selected
        end),
     w).
Proof.
  intros selected. subst selected. unfold TaskQuery.searchAndFilter.
  rewrite !optFilter_filter, !filter_filter.
  destruct (truthy (TaskFilters.searchQuery filters)) as [q|] eqn:Eq.
  - rewrite filter_map_comm, filter_filter.
    rewrite (filter_ext _ (matchesFilters filters)); [reflexivity|].
    intros d. unfold matchesFilters. rewrite Eq. now rewrite !andb_assoc.
  - rewrite (filter_ext _ (matchesFilters filters)); [reflexivity|].
    intros d. unfold matchesFilters. rewrite Eq.
    now rewrite andb_true_r, !andb_assoc.
Qed.

Lemma StronglySorted_weaken {A : Type} (R S : A -> A -> Prop) (l : list A) :
  (forall a b, R a b -> S a b) -> StronglySorted R l -> StronglySorted S l.
Proof.
  intros H HS. induction HS as [|a l HS IH Hall]; constructor; [assumption|].
  eapply Forall_impl; [|exact Hall]. intros b. apply H.
Qed.

Lemma lowerChar_idempotent (c : ascii) : lowerChar (lowerChar c) = lowerChar c.
Proof.
  assert (Hall : forallb (fun c => Ascii.eqb (lowerChar (lowerChar c))
                                             (lowerChar c)) allAscii = true)
    by (vm_compute; reflexivity).
  rewrite forallb_forall in Hall. apply Ascii.eqb_eq, Hall, In_allAscii.
Qed.

Lemma toLowerCase_idempotent (s : string) :
  toLowerCase (toLowerCase s) = toLowerCase s.
Proof.
  induction s as [|c s IH]; simpl; [reflexivity|].
  now rewrite lowerChar_idempotent, IH.
Qed.

Lemma toLowerCase_empty (s : string) :
  toLowerCase s = EmptyString -> s = EmptyString.
Proof. destruct s; [reflexivity|discriminate]. Qed.

Lemma searchAndFilter_query_case (filters : TaskFilters.t) (q q' : string)
    (w : World) :
  q <> EmptyString -> q' <> EmptyString ->
  toLowerCase q = toLowerCase q' ->
  TaskQuery.searchAndFilter (withSearchQuery filters q) w
  = TaskQuery.searchAndFilter (withSearchQuery filters q') w.
Proof.
  intros Hq Hq' Hlower.
  assert (Ht : forall x, x <> EmptyString -> truthy (Some x) = Some x).
  { intros x Hx. apply String.eqb_neq in Hx. unfold truthy. now rewrite Hx. }
  unfold TaskQuery.searchAndFilter, withSearchQuery.
  cbn [TaskFilters.status TaskFilters.priority TaskFilters.assigneeUserId
       TaskFilters.tag TaskFilters.searchQuery TaskFilters.sortBy
       TaskFilters.sortOrder].
  now rewrite (Ht q Hq), (Ht q' Hq'), Hlower.
Qed.

(** X10. [searchAndFilter] returns exactly the tasks of the documents that
    pass every filter given (status, priority, assignee, tag, search text;
    an empty string counting as no filter), each document once; without
    [sortBy] they come in the order of the collection; with [sortBy] they
    are the same tasks ordered by the chosen date (a missing due date counting
    as 0), ascending unless the order is 'desc', then descending.  The world
    is left as it is.  The search text is compared in lower case: two
    search texts of the same lower-case form select the same tasks, a text
    and its lower-case form among them. *)
Theorem searchAndFilter_selects_and_sorts (filters : TaskFilters.t)
    (w : World) :
  let selected :=
    map TaskQuery.toTask (filter (matchesFilters filters) (taskDocs w)) in
  exists tasks,
    TaskQuery.searchAndFilter filters w = (Returned tasks, w)
    /\ Permutation tasks selected
    /\ (forall t,
          In t tasks
          <-> exists d,
                In d (taskDocs w)
                /\ matchesFilters filters d = true
                /\ t = TaskQuery.toTask d)
    /\ (TaskFilters.sortBy filters = None -> tasks = selected)
    /\ (forall by_,
          TaskFilters.sortBy filters = Some by_ ->
          StronglySorted
            (fun a b =>
               match TaskFilters.sortOrder filters with
               | Some Desc =>
                   TaskQuery.sortValue by_ b <= TaskQuery.sortValue by_ a
               | _ => TaskQuery.sortValue by_ a <= TaskQuery.sortValue by_ b
               end)
            tasks)
    /\ (forall q q',
          q <> EmptyString -> q' <> EmptyString ->
          toLowerCase q = toLowerCase q' ->
          TaskQuery.searchAndFilter (withSearchQuery filters q) w
          = TaskQuery.searchAndFilter (withSearchQuery filters q') w)
    /\ (forall q,
          q <> EmptyString ->
          TaskQuery.searchAndFilter (withSearchQuery filters (toLowerCase q)) w
          = TaskQuery.searchAndFilter (withSearchQuery filters q) w).
Proof.
  intros selected. eexists. split; [apply searchAndFilter_selects|].
  fold selected.
  assert (Hperm : Permutation
            (match TaskFilters.sortBy filters with
             | Some by_ =>
                 jsSort (TaskQuery.compareTasks by_
                           (TaskFilters.sortOrder filters)) selected
             | None => selected
             end) selected).
  { destruct (TaskFilters.sortBy filters); [|reflexivity].
    symmetry. apply jsSort_Permutation. }
  split; [exact Hperm|]. split; [|split; [|split; [|split]]].
  - intros t. split.
    + intros Hin. apply (Permutation_in _ Hperm) in Hin.
      apply in_map_iff in Hin as (d & <- & Hd). apply filter_In in Hd as [Hd Hm].
      eauto.
    + intros (d & Hd & Hm & ->). apply (Permutation_in _ (Permutation_sym Hperm)).
      apply in_map. apply filter_In. now split.
  - intros ->. reflexivity.
  - intros by_ ->.
    apply (StronglySorted_weaken
             (inOrder (TaskQuery.compareTasks by_
                         (TaskFilters.sortOrder filters)))).
    + intros a b. unfold inOrder, TaskQuery.compareTasks.
      destruct (TaskFilters.sortOrder filters) as [[|]|]; lia.
    + apply Sorted_StronglySorted.
      * intros a b c. unfold inOrder, TaskQuery.compareTasks.
        destruct (TaskFilters.sortOrder filters) as [[|]|]; lia.
      * apply jsSort_Sorted. intros a b. unfold TaskQuery.compareTasks.
        destruct (TaskFilters.sortOrder filters) as [[|]|]; lia.
  - intros q q'. apply searchAndFilter_query_case.
  - intros q Hq. apply searchAndFilter_query_case.
    + intros H. apply Hq. now apply toLowerCase_empty.
    + exact Hq.
    + apply toLowerCase_idempotent.
Qed.

(** X11. The listings agree with one another.  [listTasksForAdmin] without
    filters, or with a filter object that has no key, returns every task in
    the order of the collection, and with filters only tasks of that list.
    For a non-empty member id, [listTasksForMember] without filters returns
    the tasks of the admin list whose assignee is the member, in the same
    order, and [listByAssignee] returns what [searchAndFilter] returns for
    the assignee filter alone. *)
Theorem listings_agree (w : World) :
  let all := map TaskQuery.toTask (taskDocs w) in
  listTasksForAdmin None w = (Returned all, w)
  /\ listTasksForAdmin
       (Some (TaskFilters.mk None None None None None None None)) w
     = (Returned all, w)
  /\ (forall filters,
        exists tasks,
          listTasksForAdmin filters w = (Returned tasks, w)
          /\ forall t, In t tasks -> In t all)
  /\ (forall memberId,
        memberId <> EmptyString ->
        listTasksForMember memberId None w
        = (Returned
             (filter (fun t =>
                        option_eqb String.eqb (Task.assigneeUserId t)
                                   (Some memberId))
                     all),
           w)
        /\ TaskQuery.listByAssignee memberId w
           = TaskQuery.searchAndFilter
               (TaskFilters.mk None None (Some memberId) None None None None)
               w).
Proof.
  intros all. split; [reflexivity|]. split; [reflexivity|]. split.
  - intros [f|]; [|eexists; split; [reflexivity|auto]].
    unfold listTasksForAdmin. destruct (TaskFilters.hasKeys f).
    + rewrite searchAndFilter_selects. eexists. split; [reflexivity|].
      intros t Ht.
      assert (Hsel : In t (map TaskQuery.toTask
                               (filter (matchesFilters f) (taskDocs w)))).
      { destruct (TaskFilters.sortBy f); [now apply jsSort_In in Ht|exact Ht]. }
      apply in_map_iff in Hsel as (d & <- & Hd).
      apply filter_In in Hd as [Hd _]. now apply in_map.
    + eexists; split; [reflexivity|auto].
  - intros memberId Hne. apply String.eqb_neq in Hne as Hneb. split.
    + unfold listTasksForMember, TaskQuery.listByAssignee. f_equal. f_equal.
      subst all. rewrite filter_map_comm. f_equal. apply filter_ext.
      intros [k d].
      unfold TaskQuery.whereAssignee, TaskQuery.toTask,
        TaskRepo.mapDocumentToTask. cbn -[String.eqb].
      destruct (TaskDoc.assigneeUserId d) as [a|]; [|reflexivity].
      destruct (String.eqb_spec a EmptyString) as [->|Ha]; cbn -[String.eqb].
      * apply String.eqb_neq. congruence.
      * reflexivity.
    + rewrite searchAndFilter_selects. simpl.
      unfold TaskQuery.listByAssignee. f_equal. f_equal. f_equal.
      apply filter_ext. intros d. unfold matchesFilters. simpl.
      rewrite Hneb. now rewrite !andb_true_r.
Qed.

(** ** Comments and activities *)

Lemma access_gate (userRole : Role) (userId : string) (task : Task.t) :
  negb (Role_eqb userRole ADMIN)
  && nullable_neq (Task.assigneeUserId task) userId = false
  <-> mayAccess userRole userId task.
Proof.
  unfold mayAccess. rewrite andb_false_iff, negb_false_iff, nullable_neq_false.
  destruct userRole; simpl; intuition congruence.
Qed.

Lemma access_gate_closed (userRole : Role) (userId : string) (task : Task.t) :
  ~ mayAccess userRole userId task ->
  negb (Role_eqb userRole ADMIN)
  && nullable_neq (Task.assigneeUserId task) userId = true.
Proof.
  intros H.
  destruct (negb (Role_eqb userRole ADMIN)
            && nullable_neq (Task.assigneeUserId task) userId) eqn:E;
    [reflexivity|].
  apply access_gate in E. contradiction.
Qed.

(** X12. [createComment], [listComments] and [listActivities] stand behind
    one gate.  All three throw "Task not found" when the task does not
    exist.  On an existing task each of them returns exactly when the
    caller is an administrator or the assignee of the task, and otherwise
    throws its Forbidden error; a refused call leaves the world as it
    was, and so does every listing. *)
Theorem comments_and_activities_gate (taskId userId : string)
    (userRole : Role) (text : string) (w : World) :
  match TaskRepo.lookup w taskId with
  | None =>
      createComment taskId userId userRole text w
      = (Thrown "Task not found", w)
      /\ listComments taskId userId userRole w = (Thrown "Task not found", w)
      /\ listActivities taskId userId userRole w = (Thrown "Task not found", w)
  | Some task =>
      (mayAccess userRole userId task ->
       (exists created w',
          createComment taskId userId userRole text w = (Returned created, w'))
       /\ (exists found, listComments taskId userId userRole w = (Returned found, w))
       /\ (exists found,
             listActivities taskId userId userRole w = (Returned found, w)))
      /\ (~ mayAccess userRole userId task ->
          (exists message,
             createComment taskId userId userRole text w = (Thrown message, w)
             /\ isForbidden message = true)
          /\ (exists message,
                listComments taskId userId userRole w = (Thrown message, w)
                /\ isForbidden message = true)
          /\ (exists message,
                listActivities taskId userId userRole w = (Thrown message, w)
                /\ isForbidden message = true))
  end.
Proof.
  destruct (TaskRepo.lookup w taskId) as [task|] eqn:Hl.
  - split.
    + intros Hok. apply access_gate in Hok as Hgate. split; [|split].
      * do 2 eexists. apply (createComment_stores_text _ _ _ _ _ _ Hl Hok).
      * eexists. unfold listComments. rewrite bind_findById, Hl, Hgate.
        reflexivity.
      * eexists. unfold listActivities. rewrite bind_findById, Hl, Hgate.
        reflexivity.
    + intros Hno. apply access_gate_closed in Hno as Hgate. split; [|split].
      * eexists. split.
        -- unfold createComment. rewrite bind_findById, Hl, Hgate. reflexivity.
        -- reflexivity.
      * eexists. split.
        -- unfold listComments. rewrite bind_findById, Hl, Hgate. reflexivity.
        -- reflexivity.
      * eexists. split.
        -- unfold listActivities. rewrite bind_findById, Hl, Hgate. reflexivity.
        -- reflexivity.
  - unfold createComment, listComments, listActivities.
    rewrite !bind_findById, Hl. repeat split.
Qed.

Lemma listComments_found (taskId userId : string) (userRole : Role)
    (w : World) (task : Task.t) :
  TaskRepo.lookup w taskId = Some task ->
  mayAccess userRole userId task ->
  listComments taskId userId userRole w
  = (Returned
       (jsSort oldestFirst
          (filter (fun c => String.eqb (Comment.taskId c) taskId) (comments w))),
     w).
Proof.
  intros Hl Hok. apply access_gate in Hok.
  unfold listComments. now rewrite bind_findById, Hl, Hok.
Qed.

Lemma listActivities_found (taskId userId : string) (userRole : Role)
    (w : World) (task : Task.t) :
  TaskRepo.lookup w taskId = Some task ->
  mayAccess userRole userId task ->
  listActivities taskId userId userRole w
  = (Returned
       (jsSort newestFirst
          (filter (fun a => String.eqb (Activity.taskId a) taskId)
                  (activities w))),
     w).
Proof.
  intros Hl Hok. apply access_gate in Hok.
  unfold listActivities. now rewrite bind_findById, Hl, Hok.
Qed.

(** X13. For a caller who passes the gate, [listComments] returns exactly
    the comments of the task, each as often as it is stored, oldest first,
    and [listActivities] exactly the activities of the task, newest
    first. *)
Theorem listings_of_a_task (taskId userId : string) (userRole : Role)
    (w : World) (task : Task.t) :
  TaskRepo.lookup w taskId = Some task ->
  mayAccess userRole userId task ->
  (exists found,
     listComments taskId userId userRole w = (Returned found, w)
     /\ Permutation found
          (filter (fun c => String.eqb (Comment.taskId c) taskId) (comments w))
     /\ (forall c,
           In c found <-> In c (comments w) /\ Comment.taskId c = taskId)
     /\ StronglySorted
          (fun a b => Comment.createdAt a <= Comment.createdAt b) found)
  /\ (exists found,
        listActivities taskId userId userRole w = (Returned found, w)
        /\ Permutation found
             (filter (fun a => String.eqb (Activity.taskId a) taskId)
                     (activities w))
        /\ (forall a,
              In a found <-> In a (activities w) /\ Activity.taskId a = taskId)
        /\ StronglySorted
             (fun a b => Activity.createdAt b <= Activity.createdAt a) found).
Proof.
  intros Hl Hok. split.
  - eexists. split; [apply (listComments_found _ _ _ _ _ Hl Hok)|].
    split; [symmetry; apply jsSort_Permutation|]. split.
    + intros c. rewrite jsSort_In, filter_In, String.eqb_eq. reflexivity.
    + apply (StronglySorted_weaken (inOrder oldestFirst)).
      * unfold inOrder, oldestFirst. intros a b. apply thenBy_first.
      * apply Sorted_StronglySorted.
        -- unfold inOrder, oldestFirst. intros a b c.
           apply (thenBy_trans Comment.createdAt Comment.id).
        -- apply jsSort_Sorted. intros a b. unfold oldestFirst.
           apply (thenBy_total Comment.createdAt Comment.id).
  - eexists. split; [apply (listActivities_found _ _ _ _ _ Hl Hok)|].
    split; [symmetry; apply jsSort_Permutation|]. split.
    + intros a. rewrite jsSort_In, filter_In, String.eqb_eq. reflexivity.
    + apply (StronglySorted_weaken (inOrder newestFirst)).
      * unfold inOrder, newestFirst. intros a b. apply thenBy_first.
      * apply Sorted_StronglySorted.
        -- unfold inOrder, newestFirst. intros a b c H1 H2.
           apply (thenBy_trans Activity.createdAt Activity.id c b a H2 H1).
        -- apply jsSort_Sorted. intros a b. unfold newestFirst.
           destruct (thenBy_total Activity.createdAt Activity.id a b); auto.
Qed.

Lemma listings_of_a_task_witness :
  let task1 :=
    TaskRepo.mapDocumentToTask "task1" (Sample.doc (Some "member1") None []) in
  TaskRepo.lookup Sample.idle "task1" = Some task1
  /\ mayAccess MEMBER "member1" task1
  /\ exists found,
       listComments "task1" "member1" MEMBER Sample.idle
       = (Returned found, Sample.idle).
Proof.
  intros task1.
  assert (Hok : mayAccess MEMBER "member1" task1) by (right; reflexivity).
  split; [reflexivity|]. split; [exact Hok|].
  destruct (listings_of_a_task "task1" "member1" MEMBER Sample.idle task1
              eq_refl Hok) as [(found & Hrun & _) _].
  exists found. exact Hrun.
Defined.

(** X14. A comment that [createComment] has returned is among the comments
    that [listComments] returns to the same caller afterwards, and
    [listActivities] then shows a COMMENT_ADDED activity of that user on the
    task. *)
Theorem createComment_then_list (taskId userId : string) (userRole : Role)
    (text : string) (w w' : World) (created : Comment.t) :
  createComment taskId userId userRole text w = (Returned created, w') ->
  Comment.text created = text
  /\ Comment.userId created = userId
  /\ (exists found,
        listComments taskId userId userRole w' = (Returned found, w')
        /\ In created found)
  /\ (exists found a,
        listActivities taskId userId userRole w' = (Returned found, w')
        /\ In a found
        /\ Activity.type a = COMMENT_ADDED
        /\ Activity.actorUserId a = userId
        /\ Activity.message a = "Added a comment").
Proof.
  intros Hrun.
  destruct (TaskRepo.lookup w taskId) as [task|] eqn:Hl.
  - assert (Hok : mayAccess userRole userId task).
    { apply access_gate.
      destruct (negb (Role_eqb userRole ADMIN)
                && nullable_neq (Task.assigneeUserId task) userId) eqn:E;
        [|reflexivity].
      unfold createComment in Hrun. rewrite bind_findById, Hl, E in Hrun.
      discriminate. }
    rewrite (createComment_stores_text _ _ _ _ _ _ Hl Hok) in Hrun.
    inversion Hrun; subst; clear Hrun.
    split; [reflexivity|]. split; [reflexivity|].
    match goal with
    | |- (exists found, listComments _ _ _ ?w1 = _ /\ _) /\ _ =>
        assert (Hl' : TaskRepo.lookup w1 taskId = Some task) by exact Hl
    end.
    split.
    + eexists. split; [apply (listComments_found _ _ _ _ _ Hl' Hok)|].
      apply jsSort_In, filter_In. split.
      * simpl. apply in_or_app. right. simpl. auto.
      * simpl. apply String.eqb_refl.
    + do 2 eexists. split; [apply (listActivities_found _ _ _ _ _ Hl' Hok)|].
      split.
      * apply jsSort_In, filter_In. split.
        -- simpl. apply in_or_app. right. simpl. left. reflexivity.
        -- simpl. apply String.eqb_refl.
      * repeat split.
  - unfold createComment in Hrun. rewrite bind_findById, Hl in Hrun.
    discriminate.
Qed.

Lemma createComment_then_list_witness :
  exists created w' found,
    createComment "task1" "member1" MEMBER "Done soon" Sample.idle
    = (Returned created, w')
    /\ listComments "task1" "member1" MEMBER w' = (Returned found, w')
    /\ In created found.
Proof.
  eassert (Hrun : createComment "task1" "member1" MEMBER "Done soon" Sample.idle
                  = _) by (lazy; reflexivity).
  destruct (createComment_then_list _ _ _ _ _ _ _ Hrun)
    as (_ & _ & (found & Hlist & Hin) & _).
  do 3 eexists. split; [exact Hrun|]. split; [exact Hlist|exact Hin].
Defined.

(** ** The validators *)

(** X15. [computeDurationSeconds] returns exactly when the start is before
    the end, and then the whole seconds of the elapsed time: the duration
    [d] satisfies [1000 d <= end - start < 1000 d + 1000]; it is never
    negative, so that [ensureNotNegativeDuration] accepts it, and it is 0
    exactly when less than a second has elapsed.  When the start is not
    before the end it throws "Start time must be before end time".
    [ensureNotNegativeDuration] rejects exactly the negative numbers. *)
Theorem computeDurationSeconds_whole_seconds (start end_ : Date) (w : World) :
  (start < end_ ->
   exists d,
     computeDurationSeconds start end_ w = (Returned d, w)
     /\ 1000 * d <= end_ - start < 1000 * d + 1000
     /\ 0 <= d
     /\ (d = 0 <-> end_ - start < 1000)
     /\ ensureNotNegativeDuration d w = (Returned tt, w))
  /\ (start >= end_ ->
      computeDurationSeconds start end_ w
      = (Thrown "Start time must be before end time", w))
  /\ (forall seconds,
        (seconds < 0 ->
         ensureNotNegativeDuration seconds w
         = (Thrown "Duration cannot be negative", w))
        /\ (0 <= seconds ->
            ensureNotNegativeDuration seconds w = (Returned tt, w))).
Proof.
  split; [|split].
  - intros H. exists ((end_ - start) / 1000).
    pose proof (Z.div_mod (end_ - start) 1000 ltac:(lia)) as Hdm.
    pose proof (Z.mod_pos_bound (end_ - start) 1000 ltac:(lia)) as Hb.
    pose proof (duration_nonneg start end_ H) as Hd.
    split; [now apply computeDurationSeconds_ok|].
    split; [lia|]. split; [exact Hd|]. split; [lia|].
    unfold ensureNotNegativeDuration.
    destruct (Z.ltb_spec ((end_ - start) / 1000) 0); [lia|reflexivity].
  - apply computeDurationSeconds_guard.
  - intros seconds. unfold ensureNotNegativeDuration.
    destruct (Z.ltb_spec seconds 0); split; intros; try lia; reflexivity.
Qed.

Lemma stopped_entry_contributes (from to : Date) (e : TimeEntry.t) (d : Z) :
  TimeEntry.durationSeconds e = Some d ->
  d <= 0 ->
  contributes from to e = false.
Proof.
  intros Hd Hle. unfold contributes, positiveDuration. rewrite Hd.
  destruct (TimeEntry.endTime e); [|reflexivity].
  destruct (Z.gtb_spec d 0); [lia|apply andb_false_r].
Qed.

(** X16. A timer stopped less than a second after its start is stopped
    with [durationSeconds = 0], and such an entry counts for nothing: it
    contributes to no time report, whatever the range. *)
Theorem stop_within_a_second (userId timeEntryId : string) (w : World)
    (e : TimeEntry.t) :
  TimeEntryRepo.lookup w timeEntryId = Some e ->
  TimeEntry.userId e = userId ->
  TimeEntry.endTime e = None ->
  TimeEntry.startTime e < clock w < TimeEntry.startTime e + 1000 ->
  exists stopped w',
    stopTimeEntry userId timeEntryId w = (Returned (Some stopped), w')
    /\ TimeEntry.durationSeconds stopped = Some 0
    /\ TimeEntry.endTime stopped = Some (clock w)
    /\ forall from to, contributes from to stopped = false.
Proof.
  intros Hl Hu He [Hs Hq].
  pose proof (stopTimeEntry_applied _ _ _ _ Hl Hu He Hs) as Hrun.
  cbv zeta in Hrun. do 2 eexists. split; [exact Hrun|].
  assert (Hz : (clock w - TimeEntry.startTime e) / 1000 = 0).
  { apply Z.div_small. lia. }
  split; [simpl; now rewrite Hz|]. split; [reflexivity|].
  intros from to. apply (stopped_entry_contributes _ _ _ 0); [|lia].
  simpl. now rewrite Hz.
Qed.

Lemma stop_within_a_second_witness :
  let w := setClock 1000999 Sample.running in
  let e1 := Sample.entry "e1" "task1" "member1" 1000000 None None in
  TimeEntryRepo.lookup w "e1" = Some e1
  /\ TimeEntry.startTime e1 < clock w < TimeEntry.startTime e1 + 1000
  /\ exists stopped w',
       stopTimeEntry "member1" "e1" w = (Returned (Some stopped), w')
       /\ TimeEntry.durationSeconds stopped = Some 0.
Proof.
  intros w e1.
  assert (Hq : TimeEntry.startTime e1 < clock w < TimeEntry.startTime e1 + 1000)
    by (simpl; lia).
  split; [reflexivity|]. split; [exact Hq|].
  destruct (stop_within_a_second "member1" "e1" w e1 eq_refl eq_refl eq_refl Hq)
    as (stopped & w' & Hrun & Hd & _).
  exists stopped, w'. split; assumption.
Defined.

(** ** The DTOs *)

Lemma blank_false (s : option string) :
  blank s = false
  <-> exists x, s = Some x /\ strLength (trim x) <> 0.
Proof.
  unfold blank. destruct s as [x|].
  - rewrite orb_false_iff, Z.eqb_neq. split.
    + intros [_ H]. eauto.
    + intros (y & Hy & H). inversion Hy; subst. split; [|assumption].
      apply String.eqb_neq. intros ->. now apply H.
  - split; [discriminate|]. intros (y & Hy & _). discriminate.
Qed.

(** X17. [CreateTaskDTO.validate] returns exactly when the title and the
    description are present, not blank after trimming, and of at most 200
    and 2000 characters; otherwise it throws, the missing or blank title
    first, then the missing or blank description, then the lengths.  A
    title and a description that it accepts are accepted by
    [UpdateTaskDTO.validate] as well, alone or together, and one that
    [UpdateTaskDTO.validate] refuses is refused by it. *)
Theorem task_dto_validation (title description : option string) :
  (CreateTaskDTO_validate title description = valid
   <-> exists t d,
         title = Some t /\ description = Some d
         /\ strLength (trim t) <> 0 /\ strLength (trim d) <> 0
         /\ strLength t <= 200 /\ strLength d <= 2000)
  /\ (blank title = true ->
      CreateTaskDTO_validate title description = invalid "Title is required")
  /\ (blank title = false -> blank description = true ->
      CreateTaskDTO_validate title description
      = invalid "Description is required")
  /\ (CreateTaskDTO_validate title description = valid ->
      UpdateTaskDTO_validate title description None = valid
      /\ UpdateTaskDTO_validate title None None = valid
      /\ UpdateTaskDTO_validate None description None = valid)
  /\ (forall t d,
        title = Some t -> description = Some d ->
        UpdateTaskDTO_validate title description None <> valid ->
        CreateTaskDTO_validate title description <> valid).
Proof.
  assert (Hiff : CreateTaskDTO_validate title description = valid
                 <-> exists t d,
                       title = Some t /\ description = Some d
                       /\ strLength (trim t) <> 0 /\ strLength (trim d) <> 0
                       /\ strLength t <= 200 /\ strLength d <= 2000).
  { unfold CreateTaskDTO_validate, valid, invalid.
    destruct (blank title) eqn:Bt.
    - split; [discriminate|]. intros (t & d & -> & _ & Ht & _).
      assert (blank (Some t) = false) by (apply blank_false; eauto). congruence.
    - destruct (blank description) eqn:Bd.
      + split; [discriminate|]. intros (t & d & _ & -> & _ & Hd & _).
        assert (blank (Some d) = false) by (apply blank_false; eauto).
        congruence.
      + apply blank_false in Bt as (t & -> & Ht).
        apply blank_false in Bd as (d & -> & Hd).
        destruct (Z.gtb_spec (strLength t) 200).
        * split; [discriminate|]. intros (t' & d' & E1 & E2 & _ & _ & H1 & _).
          inversion E1; subst. lia.
        * destruct (Z.gtb_spec (strLength d) 2000).
          -- split; [discriminate|].
             intros (t' & d' & E1 & E2 & _ & _ & _ & H2).
             inversion E2; subst. lia.
          -- split; [|reflexivity]. intros _. exists t, d. repeat split; auto. }
  assert (Hup : forall t d,
            strLength (trim t) <> 0 -> strLength (trim d) <> 0 ->
            strLength t <= 200 -> strLength d <= 2000 ->
            UpdateTaskDTO_validate (Some t) (Some d) None = valid
            /\ UpdateTaskDTO_validate (Some t) None None = valid
            /\ UpdateTaskDTO_validate None (Some d) None = valid).
  { intros t d Ht Hd H1 H2. unfold UpdateTaskDTO_validate, valid, invalid.
    apply Z.eqb_neq in Ht, Hd. rewrite Ht, Hd.
    destruct (Z.gtb_spec (strLength t) 200); [lia|].
    destruct (Z.gtb_spec (strLength d) 2000); [lia|]. repeat split. }
  split; [exact Hiff|]. split; [|split; [|split]].
  - intros Bt. unfold CreateTaskDTO_validate. now rewrite Bt.
  - intros Bt Bd. unfold CreateTaskDTO_validate. now rewrite Bt, Bd.
  - intros Hv. apply Hiff in Hv as (t & d & -> & -> & Ht & Hd & H1 & H2).
    now apply Hup.
  - intros t d -> -> Hno Hv.
    apply Hiff in Hv as (t' & d' & E1 & E2 & Ht & Hd & H1 & H2).
    inversion E1; inversion E2; subst.
    destruct (Hup t' d' Ht Hd H1 H2) as [Hboth _]. contradiction.
Qed.

(** ** The time-entry controller *)

Lemma idField_validate_returned (required notAFunction : string) (v : JsValue)
    (id : string) :
  idField_validate required notAFunction v = Returned id
  <-> v = JsString id /\ strLength (trim id) <> 0.
Proof.
  unfold idField_validate. split.
  - destruct (falsy v); [discriminate|].
    destruct v; try discriminate.
    destruct (Z.eqb_spec (strLength (trim s)) 0); [discriminate|].
    intros H. inversion H; subst. now split.
  - intros [-> H].
    assert (Hf : falsy (JsString id) = false).
    { simpl. apply String.eqb_neq. intros ->. now apply H. }
    rewrite Hf. apply Z.eqb_neq in H. now rewrite H.
Qed.

Lemma timeEntryController_stop_run (req : TimeEntryRequest.t) (w : World)
    (u : AuthUser) (id : string) :
  isMember (TimeEntryRequest.user req) = Some u ->
  StopTimeEntryDTO_validate (TimeEntryRequest.bodyId req) = Returned id ->
  match TimeEntryRepo.lookup w id with
  | None =>
      timeEntryController_stop req w
      = (TimeEntryResponse.mk 404 (EntryError "Time entry not found"), w)
  | Some e =>
      if negb (String.eqb (TimeEntry.userId e) (uid u)) then
        timeEntryController_stop req w
        = (TimeEntryResponse.mk 403
             (EntryError "Forbidden: You can only stop your own time entries"),
           w)
      else
        match TimeEntry.endTime e with
        | Some _ =>
            timeEntryController_stop req w
            = (TimeEntryResponse.mk 400
                 (EntryError "Time entry is already stopped"), w)
        | None =>
            if TimeEntry.startTime e <? clock w then
              exists stopped w',
                stopTimeEntry (uid u) id w = (Returned (Some stopped), w')
                /\ timeEntryController_stop req w
                   = (TimeEntryResponse.mk 200 (EntryJson stopped), w')
            else
              timeEntryController_stop req w
              = (TimeEntryResponse.mk 400
                   (EntryError "Start time must be before end time"), w)
        end
  end.
Proof.
  intros Hm Hv. unfold timeEntryController_stop. rewrite Hm, Hv.
  destruct (TimeEntryRepo.lookup w id) as [e|] eqn:Hl.
  - destruct (String.eqb_spec (TimeEntry.userId e) (uid u)) as [Hu|Hu]; simpl.
    + destruct (TimeEntry.endTime e) as [t|] eqn:He.
      * now rewrite (stopTimeEntry_already_stopped _ _ _ _ _ Hl Hu He).
      * destruct (Z.ltb_spec (TimeEntry.startTime e) (clock w)) as [Hs|Hs].
        -- pose proof (stopTimeEntry_applied _ _ _ _ Hl Hu He Hs) as Hrun.
           cbv zeta in Hrun. do 2 eexists. split; [exact Hrun|].
           now rewrite Hrun.
        -- now rewrite (stopTimeEntry_guard _ _ _ _ Hl Hu He ltac:(lia)).
    + now rewrite (stopTimeEntry_forbidden _ _ _ _ Hl Hu).
  - now rewrite (stopTimeEntry_missing _ _ _ Hl).
Qed.

(** X18. The status of [timeEntryController.stop].  It answers 200, 400,
    403 or 404, and every answer other than 200 leaves the store as it
    was.  A request without a MEMBER user is answered 403.  For a MEMBER:
    the id is accepted exactly when the body gives a string that is not
    blank; the answer is 404 exactly when the id is accepted and no entry
    has it; 403 exactly when the entry is another user's; 200 exactly when
    the entry is the user's, Active, and started before now, and then the
    body is the entry that [stopTimeEntry] returns.  Everything else, an
    entry already stopped among it, is answered 400. *)
Theorem timeEntryController_stop_status (req : TimeEntryRequest.t)
    (w : World) :
  let res := fst (timeEntryController_stop req w) in
  let w' := snd (timeEntryController_stop req w) in
  let status := TimeEntryResponse.status res in
  let accepted id :=
    StopTimeEntryDTO_validate (TimeEntryRequest.bodyId req) = Returned id in
  (status = 200 \/ status = 400 \/ status = 403 \/ status = 404)
  /\ (status <> 200 -> w' = w)
  /\ (isMember (TimeEntryRequest.user req) = None -> status = 403)
  /\ (forall id,
        accepted id
        <-> TimeEntryRequest.bodyId req = JsString id
            /\ strLength (trim id) <> 0)
  /\ forall u,
       isMember (TimeEntryRequest.user req) = Some u ->
       (status = 404
        <-> exists id, accepted id /\ TimeEntryRepo.lookup w id = None)
       /\ (status = 403
           <-> exists id e,
                 accepted id
                 /\ TimeEntryRepo.lookup w id = Some e
                 /\ TimeEntry.userId e <> uid u)
       /\ (status = 200
           <-> exists id e,
                 accepted id
                 /\ TimeEntryRepo.lookup w id = Some e
                 /\ TimeEntry.userId e = uid u
                 /\ TimeEntry.endTime e = None
                 /\ TimeEntry.startTime e < clock w)
       /\ (status = 200 ->
           exists id stopped,
             accepted id
             /\ stopTimeEntry (uid u) id w = (Returned (Some stopped), w')
             /\ TimeEntryResponse.body res = EntryJson stopped).
Proof.
  intros res w' status accepted.
  assert (Hacc : forall id,
            accepted id
            <-> TimeEntryRequest.bodyId req = JsString id
                /\ strLength (trim id) <> 0).
  { intros id. apply idField_validate_returned. }
  destruct (isMember (TimeEntryRequest.user req)) as [u|] eqn:Hm.
  2:{ assert (E : timeEntryController_stop req w
                  = (TimeEntryResponse.mk 403
                       (EntryError "Forbidden: Member access required"), w)).
      { unfold timeEntryController_stop. now rewrite Hm. }
      subst res w' status. rewrite E. simpl.
      split; [auto|]. split; [reflexivity|]. split; [reflexivity|].
      split; [exact Hacc|]. intros u Hu. discriminate. }
  destruct (StopTimeEntryDTO_validate (TimeEntryRequest.bodyId req))
    as [id|message] eqn:Hv.
  2:{ assert (E : timeEntryController_stop req w
                  = (TimeEntryResponse.mk 400 (EntryError message), w)).
      { unfold timeEntryController_stop. now rewrite Hm, Hv. }
      subst res w' status accepted. cbv beta in *. rewrite E. simpl.
      split; [auto|]. split; [reflexivity|]. split; [discriminate|].
      split; [exact Hacc|]. intros u' _.
      split; [|split; [|split]].
      - split; [discriminate|]. intros (i & Hi & _). discriminate.
      - split; [discriminate|]. intros (i & e & Hi & _). discriminate.
      - split; [discriminate|]. intros (i & e & Hi & _). discriminate.
      - discriminate. }
  pose proof (timeEntryController_stop_run req w u id Hm Hv) as R.
  assert (Hid : forall i, accepted i -> i = id).
  { intros i Hi. unfold accepted in Hi. congruence. }
  assert (Hself : accepted id) by reflexivity.
  destruct (TimeEntryRepo.lookup w id) as [e|] eqn:Hl.
  - destruct (String.eqb_spec (TimeEntry.userId e) (uid u)) as [Hu|Hu];
      simpl in R.
    + destruct (TimeEntry.endTime e) as [t|] eqn:He.
      * subst res w' status. rewrite R. simpl.
        split; [auto|]. split; [reflexivity|]. split; [discriminate|].
        split; [exact Hacc|]. intros u' Hu'. inversion Hu'; subst u'.
        split; [|split; [|split]].
        -- split; [discriminate|]. intros (i & Hi & Hn).
           rewrite (Hid i Hi) in Hn. congruence.
        -- split; [discriminate|]. intros (i & e' & Hi & Hn & Hne).
           rewrite (Hid i Hi) in Hn. congruence.
        -- split; [discriminate|]. intros (i & e' & Hi & Hn & _ & Hne & _).
           rewrite (Hid i Hi) in Hn. congruence.
        -- discriminate.
      * destruct (Z.ltb_spec (TimeEntry.startTime e) (clock w)) as [Hs|Hs].
        -- destruct R as (stopped & w1 & Hrun & R).
           subst res w' status. rewrite R. simpl.
           split; [auto|]. split; [congruence|]. split; [discriminate|].
           split; [exact Hacc|]. intros u' Hu'. inversion Hu'; subst u'.
           split; [|split; [|split]].
           ++ split; [discriminate|]. intros (i & Hi & Hn).
              rewrite (Hid i Hi) in Hn. congruence.
           ++ split; [discriminate|]. intros (i & e' & Hi & Hn & Hne).
              rewrite (Hid i Hi) in Hn. congruence.
           ++ split; [|reflexivity]. intros _. exists id, e. auto.
           ++ intros _. exists id, stopped. auto.
        -- subst res w' status. rewrite R. simpl.
           split; [auto|]. split; [reflexivity|]. split; [discriminate|].
           split; [exact Hacc|]. intros u' Hu'. inversion Hu'; subst u'.
           split; [|split; [|split]].
           ++ split; [discriminate|]. intros (i & Hi & Hn).
              rewrite (Hid i Hi) in Hn. congruence.
           ++ split; [discriminate|]. intros (i & e' & Hi & Hn & Hne).
              rewrite (Hid i Hi) in Hn. congruence.
           ++ split; [discriminate|].
              intros (i & e' & Hi & Hn & _ & _ & Hlt).
              rewrite (Hid i Hi) in Hn. assert (Ee : e' = e) by congruence. subst e'. lia.
           ++ discriminate.
    + subst res w' status. rewrite R. simpl.
      split; [auto|]. split; [reflexivity|]. split; [discriminate|].
      split; [exact Hacc|]. intros u' Hu'. inversion Hu'; subst u'.
      split; [|split; [|split]].
      * split; [discriminate|]. intros (i & Hi & Hn).
        rewrite (Hid i Hi) in Hn. congruence.
      * split; [|reflexivity]. intros _. exists id, e. auto.
      * split; [discriminate|]. intros (i & e' & Hi & Hn & He' & _).
        rewrite (Hid i Hi) in Hn. assert (Ee : e' = e) by congruence. subst e'. contradiction.
      * discriminate.
  - subst res w' status. rewrite R. simpl.
    split; [auto|]. split; [reflexivity|]. split; [discriminate|].
    split; [exact Hacc|]. intros u' Hu'. inversion Hu'; subst u'.
    split; [|split; [|split]].
    + split; [|reflexivity]. intros _. exists id. auto.
    + split; [discriminate|]. intros (i & e' & Hi & Hn & _).
      rewrite (Hid i Hi) in Hn. congruence.
    + split; [discriminate|]. intros (i & e' & Hi & Hn & _).
      rewrite (Hid i Hi) in Hn. congruence.
    + discriminate.
Qed.

Lemma timeEntryController_start_run (req : TimeEntryRequest.t) (w : World)
    (u : AuthUser) (taskId : string) :
  isMember (TimeEntryRequest.user req) = Some u ->
  StartTimeEntryDTO_validate (TimeEntryRequest.bodyId req) = Returned taskId ->
  timeEntryController_start req w
  = match startTimeEntry (uid u) taskId w with
    | (Returned timeEntry, w') =>
        (TimeEntryResponse.mk 201 (EntryJson timeEntry), w')
    | (Thrown message, _) =>
        (TimeEntryResponse.mk 400 (EntryError message), w)
    end.
Proof.
  intros Hm Hv. unfold timeEntryController_start. rewrite Hm, Hv.
  destruct (startTimeEntry (uid u) taskId w) as [[e|m] w'] eqn:E;
    [reflexivity|].
  now rewrite (startTimeEntry_thrown _ _ _ _ _ E).
Qed.

(** X19. The status of [timeEntryController.start].  It answers 201, 400
    or 403, and every answer other than 201 leaves the store as it was.
    It answers 403 exactly when the request has no MEMBER user.  For a
    MEMBER it answers 201 exactly when the body gives an id that is not
    blank, of a task assigned to the user, and the user has no Active
    entry.  Every error of the service is answered 400: the unknown task,
    with "Task not found", and the task of another user, whose Forbidden
    message the controller does not turn into a 403. *)
Theorem timeEntryController_start_status (req : TimeEntryRequest.t)
    (w : World) :
  let res := fst (timeEntryController_start req w) in
  let w' := snd (timeEntryController_start req w) in
  let status := TimeEntryResponse.status res in
  let accepted taskId :=
    StartTimeEntryDTO_validate (TimeEntryRequest.bodyId req)
    = Returned taskId in
  (status = 201 \/ status = 400 \/ status = 403)
  /\ (status <> 201 -> w' = w)
  /\ (status = 403 <-> isMember (TimeEntryRequest.user req) = None)
  /\ forall u,
       isMember (TimeEntryRequest.user req) = Some u ->
       (status = 201
        <-> exists taskId task,
              accepted taskId
              /\ TaskRepo.lookup w taskId = Some task
              /\ Task.assigneeUserId task = Some (uid u)
              /\ TimeEntryRepo.activeOf w (uid u) = None)
       /\ (forall taskId,
             accepted taskId ->
             TaskRepo.lookup w taskId = None ->
             res = TimeEntryResponse.mk 400 (EntryError "Task not found"))
       /\ (forall taskId task,
             accepted taskId ->
             TaskRepo.lookup w taskId = Some task ->
             Task.assigneeUserId task <> Some (uid u) ->
             status = 400
             /\ exists message,
                  TimeEntryResponse.body res = EntryError message
                  /\ isForbidden message = true).
Proof.
  intros res w' status accepted.
  destruct (isMember (TimeEntryRequest.user req)) as [u|] eqn:Hm.
  2:{ assert (E : timeEntryController_start req w
                  = (TimeEntryResponse.mk 403
                       (EntryError "Forbidden: Member access required"), w)).
      { unfold timeEntryController_start. now rewrite Hm. }
      subst res w' status. rewrite E. simpl.
      split; [auto|]. split; [reflexivity|]. split; [tauto|].
      intros u Hu. discriminate. }
  destruct (StartTimeEntryDTO_validate (TimeEntryRequest.bodyId req))
    as [taskId|message] eqn:Hv.
  2:{ assert (E : timeEntryController_start req w
                  = (TimeEntryResponse.mk 400 (EntryError message), w)).
      { unfold timeEntryController_start. now rewrite Hm, Hv. }
      subst res w' status accepted. cbv beta in *. rewrite E. simpl.
      split; [auto|]. split; [reflexivity|].
      split; [split; discriminate|]. intros u' _.
      split; [|split].
      - split; [discriminate|]. intros (i & t & Hi & _). discriminate.
      - intros i Hi. discriminate.
      - intros i t Hi. discriminate. }
  pose proof (timeEntryController_start_run req w u taskId Hm Hv) as R.
  assert (Hid : forall i, accepted i -> i = taskId).
  { intros i Hi. unfold accepted in Hi. congruence. }
  assert (Hself : accepted taskId) by reflexivity.
  pose proof (startTimeEntry_decision (uid u) taskId w) as D.
  destruct (TaskRepo.lookup w taskId) as [task|] eqn:Hl.
  - destruct (nullable_neq (Task.assigneeUserId task) (uid u)) eqn:Ha.
    + destruct D as (m & Hrun & Hf). rewrite Hrun in R.
      subst res w' status. rewrite R. simpl.
      split; [auto|]. split; [reflexivity|].
      split; [split; discriminate|].
      intros u' Hu'. inversion Hu'; subst u'. split; [|split].
      * split; [discriminate|]. intros (i & t & Hi & Hn & Has & _).
        rewrite (Hid i Hi) in Hn. assert (Et : t = task) by congruence.
        subst t. apply nullable_neq_false in Has. congruence.
      * intros i Hi Hn. rewrite (Hid i Hi) in Hn. congruence.
      * intros i t Hi _ _. split; [reflexivity|]. exists m. now split.
    + apply nullable_neq_false in Ha.
      destruct (TimeEntryRepo.activeOf w (uid u)) as [active|] eqn:Hact.
      * rewrite D in R. subst res w' status. rewrite R. simpl.
        split; [auto|]. split; [reflexivity|].
        split; [split; discriminate|].
        intros u' Hu'. inversion Hu'; subst u'. split; [|split].
        -- split; [discriminate|]. intros (i & t & Hi & _ & _ & Hn).
           congruence.
        -- intros i Hi Hn. rewrite (Hid i Hi) in Hn. congruence.
        -- intros i t Hi Hn Hne. rewrite (Hid i Hi) in Hn.
           assert (Et : t = task) by congruence. subst t. contradiction.
      * destruct D as (created & w1 & Hrun & _). rewrite Hrun in R.
        subst res w' status. rewrite R. simpl.
        split; [auto|]. split; [congruence|].
        split; [split; discriminate|].
        intros u' Hu'. inversion Hu'; subst u'. split; [|split].
        -- split; [|reflexivity]. intros _. exists taskId, task. auto.
        -- intros i Hi Hn. rewrite (Hid i Hi) in Hn. congruence.
        -- intros i t Hi Hn Hne. rewrite (Hid i Hi) in Hn.
           assert (Et : t = task) by congruence. subst t. contradiction.
  - rewrite D in R. subst res w' status. rewrite R. simpl.
    split; [auto|]. split; [reflexivity|].
    split; [split; discriminate|].
    intros u' Hu'. inversion Hu'; subst u'. split; [|split].
    + split; [discriminate|]. intros (i & t & Hi & Hn & _).
      rewrite (Hid i Hi) in Hn. congruence.
    + intros i Hi Hn. reflexivity.
    + intros i t Hi Hn _. rewrite (Hid i Hi) in Hn. congruence.
Qed.

(** ** [getTodaySummary] *)

Lemma addSeconds_get (perTask : JsMap.t PropertyValue) (k k' : string)
    (d : Z) :
  inherited k = false ->
  JsMap.get k perTask <> Some Concatenated ->
  JsMap.get k (addSeconds perTask k' d)
  = if String.eqb k' k then Some (Seconds (secondsAt perTask k + d))
    else JsMap.get k perTask.
Proof.
  intros Hk Hc. unfold addSeconds, secondsAt.
  destruct (String.eqb_spec k' k) as [->|Hne].
  - destruct (JsMap.get k perTask) as [[n|]|] eqn:G.
    + rewrite JsMap_get_set_same. simpl.
      destruct (Z.eqb_spec n 0); [subst; reflexivity|reflexivity].
    + congruence.
    + assert (Hp : String.eqb k "__proto__" = false).
      { apply String.eqb_neq. intros ->. discriminate. }
      rewrite Hp, Hk. now rewrite JsMap_get_set_same.
  - destruct (JsMap.get k' perTask) as [[n|]|].
    + now apply JsMap_get_set_other.
    + now apply JsMap_get_set_other.
    + destruct (String.eqb k' "__proto__"); [reflexivity|].
      destruct (inherited k'); now apply JsMap_get_set_other.
Qed.

Lemma addSeconds_inherited (perTask : JsMap.t PropertyValue) (k k' : string)
    (d : Z) :
  inherited k = true ->
  (forall n, JsMap.get k perTask <> Some (Seconds n)) ->
  forall n, JsMap.get k (addSeconds perTask k' d) <> Some (Seconds n).
Proof.
  intros Hk Hc n. unfold addSeconds.
  destruct (String.eqb_spec k' k) as [->|Hne].
  - destruct (JsMap.get k perTask) as [[m|]|] eqn:G.
    + now destruct (Hc m).
    + rewrite JsMap_get_set_same. discriminate.
    + destruct (String.eqb k "__proto__"); [rewrite G; discriminate|].
      rewrite Hk, JsMap_get_set_same. discriminate.
  - destruct (JsMap.get k' perTask) as [[m|]|].
    + rewrite JsMap_get_set_other by assumption. apply Hc.
    + rewrite JsMap_get_set_other by assumption. apply Hc.
    + destruct (String.eqb k' "__proto__"); [apply Hc|].
      destruct (inherited k'); rewrite JsMap_get_set_other by assumption;
        apply Hc.
Qed.

Lemma fold_addToday_fst (l : list TimeEntry.t)
    (acc : Z * JsMap.t PropertyValue) :
  fst (fold_left addToday l acc)
  = fst acc + fold_right Z.add 0 (map durationOf (filter positiveDuration l)).
Proof.
  revert acc. induction l as [|e l IH]; intros acc; simpl; [lia|].
  rewrite IH. unfold addToday, positiveDuration, durationOf.
  destruct (TimeEntry.durationSeconds e) as [d|] eqn:Hd; [|reflexivity].
  destruct (d >? 0); simpl; [|reflexivity]. rewrite Hd. lia.
Qed.

Lemma fold_addToday_get (k : string) (l : list TimeEntry.t)
    (acc : Z * JsMap.t PropertyValue) :
  inherited k = false ->
  JsMap.get k (snd acc) <> Some Concatenated ->
  JsMap.get k (snd (fold_left addToday l acc))
  = if existsb (onTask k) l then
      Some (Seconds (secondsAt (snd acc) k
                     + fold_right Z.add 0
                         (map durationOf (filter (onTask k) l))))
    else JsMap.get k (snd acc).
Proof.
  intros Hk. revert acc. induction l as [|e l IH]; intros acc Hc; simpl;
    [reflexivity|].
  assert (Hstep : JsMap.get k (snd (addToday acc e))
                  = if onTask k e then
                      Some (Seconds (secondsAt (snd acc) k + durationOf e))
                    else JsMap.get k (snd acc)).
  { unfold addToday, onTask, positiveDuration, durationOf.
    destruct (TimeEntry.durationSeconds e) as [d|]; [|reflexivity].
    destruct (d >? 0); simpl; [|reflexivity].
    now apply addSeconds_get. }
  assert (Hc' : JsMap.get k (snd (addToday acc e)) <> Some Concatenated).
  { rewrite Hstep. destruct (onTask k e); [discriminate|assumption]. }
  rewrite (IH _ Hc'). unfold secondsAt at 1. rewrite Hstep.
  destruct (onTask k e) eqn:E; simpl.
  - destruct (existsb (onTask k) l) eqn:Ex.
    + f_equal. f_equal. lia.
    + rewrite (filter_none _ _ Ex). simpl. f_equal. f_equal. lia.
  - reflexivity.
Qed.

Lemma fold_addToday_inherited (k : string) (l : list TimeEntry.t)
    (acc : Z * JsMap.t PropertyValue) :
  inherited k = true ->
  (forall n, JsMap.get k (snd acc) <> Some (Seconds n)) ->
  forall n, JsMap.get k (snd (fold_left addToday l acc)) <> Some (Seconds n).
Proof.
  intros Hk. revert acc. induction l as [|e l IH]; intros acc Hc; simpl;
    [assumption|].
  apply IH. unfold addToday.
  destruct (TimeEntry.durationSeconds e) as [d|]; [|assumption].
  destruct (d >? 0); simpl; [|assumption].
  now apply addSeconds_inherited.
Qed.

Lemma sumSeconds_set (k : string) (v : PropertyValue)
    (m : JsMap.t PropertyValue) :
  sumSeconds (JsMap.set k v m) = sumSeconds m - secondsAt m k + secondsOf v.
Proof.
  unfold sumSeconds, secondsAt.
  induction m as [|[k' v'] m IH]; simpl; [lia|].
  destruct (String.eqb k k'); simpl; [lia|]. rewrite IH. lia.
Qed.

Lemma addSeconds_plain (perTask : JsMap.t PropertyValue) (k : string)
    (d : Z) :
  inherited k = false ->
  JsMap.get k perTask <> Some Concatenated ->
  addSeconds perTask k d
  = JsMap.set k (Seconds (secondsAt perTask k + d)) perTask.
Proof.
  intros Hk Hc. unfold addSeconds, secondsAt.
  destruct (JsMap.get k perTask) as [[n|]|] eqn:G.
  - simpl. destruct (Z.eqb_spec n 0); [subst; reflexivity|reflexivity].
  - congruence.
  - assert (Hp : String.eqb k "__proto__" = false).
    { apply String.eqb_neq. intros ->. discriminate. }
    now rewrite Hp, Hk.
Qed.

Lemma fold_addToday_sum (l : list TimeEntry.t)
    (acc : Z * JsMap.t PropertyValue) :
  (forall e, In e l -> positiveDuration e = true ->
             inherited (TimeEntry.taskId e) = false) ->
  (forall k, JsMap.get k (snd acc) <> Some Concatenated) ->
  sumSeconds (snd (fold_left addToday l acc)) - sumSeconds (snd acc)
  = fst (fold_left addToday l acc) - fst acc.
Proof.
  revert acc. induction l as [|e l IH]; intros acc Hl Hc; simpl; [lia|].
  assert (Hstep : (forall k, JsMap.get k (snd (addToday acc e))
                             <> Some Concatenated)
                  /\ sumSeconds (snd (addToday acc e)) - sumSeconds (snd acc)
                     = fst (addToday acc e) - fst acc).
  { pose proof (Hl e (or_introl eq_refl)) as He.
    unfold addToday, positiveDuration in *.
    destruct (TimeEntry.durationSeconds e) as [d|]; [|split; [assumption|lia]].
    destruct (d >? 0); [|split; [assumption|lia]]. simpl.
    rewrite (addSeconds_plain _ _ d (He eq_refl) (Hc _)). split.
    - intros k. destruct (String.eqb_spec (TimeEntry.taskId e) k) as [<-|Hne].
      + rewrite JsMap_get_set_same. discriminate.
      + rewrite JsMap_get_set_other by assumption. apply Hc.
    - rewrite sumSeconds_set. simpl. lia. }
  destruct Hstep as [Hc' Hs].
  pose proof (IH (addToday acc e) (fun x Hx => Hl x (or_intror Hx)) Hc').
  lia.
Qed.

Lemma filter_user_completed (from to : Date) (u : string) (p : TimeEntry.t -> bool)
    (entries : list TimeEntry.t) :
  filter p
    (filter (fun entry => String.eqb (TimeEntry.userId entry) u)
            (filter (TimeEntryRepo.completedInRange from to) entries))
  = filter (fun e => TimeEntryRepo.completedInRange from to e
                     && String.eqb (TimeEntry.userId e) u && p e)
           entries.
Proof.
  rewrite !filter_filter. apply filter_ext. intros e.
  now rewrite andb_assoc.
Qed.

Lemma positive_of_user (from to : Date) (u : string)
    (q : TimeEntry.t -> bool) (entries : list TimeEntry.t) :
  filter (fun e => positiveDuration e && q e)
         (filter (fun entry => String.eqb (TimeEntry.userId entry) u)
                 (filter (TimeEntryRepo.completedInRange from to) entries))
  = filter (fun e => contributesFor from to u e && q e) entries.
Proof.
  rewrite filter_user_completed. apply filter_ext. intros e.
  rewrite contributesFor_split. unfold countsFor.
  destruct (TimeEntryRepo.completedInRange from to e),
           (String.eqb (TimeEntry.userId e) u),
           (positiveDuration e); reflexivity.
Qed.

Lemma getTodaySummary_total (from to : Date) (u : string)
    (entries : list TimeEntry.t) :
  fst (fold_left addToday
         (filter (fun entry => String.eqb (TimeEntry.userId entry) u)
                 (filter (TimeEntryRepo.completedInRange from to) entries))
         (0, JsMap.empty))
  = expectedTotal from to entries u.
Proof.
  rewrite fold_addToday_fst. simpl. unfold expectedTotal. do 2 f_equal.
  rewrite (filter_ext positiveDuration (fun e => positiveDuration e && true))
    by (intros e; now rewrite andb_true_r).
  rewrite positive_of_user. apply filter_ext. intros e. apply andb_true_r.
Qed.

Lemma getTodaySummary_run (startOfLocalDay : Date -> Date) (userId : string)
    (w : World) :
  let from := startOfLocalDay (clock w) in
  let userEntries :=
    filter (fun entry => String.eqb (TimeEntry.userId entry) userId)
           (filter (TimeEntryRepo.completedInRange from (clock w))
                   (JsMap.values (timeEntries w))) in
  let totals := fold_left addToday userEntries (0, JsMap.empty) in
  getTodaySummary startOfLocalDay userId w
  = (Returned
       (TodaySummary.mk (fst totals) (snd totals)
          (Z.of_nat
             (List.length
                (filter (completedToday from (clock w))
                        (map TaskQuery.toTask
                             (filter (TaskQuery.whereAssignee userId)
                                     (taskDocs w))))))),
     w).
Proof. reflexivity. Qed.

(** X20. [getTodaySummary] reads and writes nothing back: it returns, and
    the store is as before.  With [from] the start of the day and [to] the
    time of the call: [totalTodaySeconds] is the sum of the durations of
    the user's contributing entries (Stopped, started within [from, to],
    positive duration), the sum that the admin's report counts for the
    user over the same range; a running timer adds nothing.  Under a task
    id that names no member of [Object.prototype], [perTaskTodaySeconds]
    holds the sum of the user's contributing entries on that task, and no
    property where there is none; under one that does, it never holds a
    number.  Where no contributing entry has such a task id, the total is
    the sum of the per-task numbers.  [completedTasksTodayCount] is the
    number of stored tasks assigned to the user, DONE, and last updated
    within [from, to]. *)
Theorem getTodaySummary_totals (startOfLocalDay : Date -> Date)
    (userId : string) (w : World) :
  let from := startOfLocalDay (clock w) in
  let to := clock w in
  let entries := JsMap.values (timeEntries w) in
  exists summary,
    getTodaySummary startOfLocalDay userId w = (Returned summary, w)
    /\ TodaySummary.totalTodaySeconds summary
       = expectedTotal from to entries userId
    /\ (forall taskId,
          inherited taskId = false ->
          JsMap.get taskId (TodaySummary.perTaskTodaySeconds summary)
          = if existsb (fun e => contributesFor from to userId e
                                 && String.eqb (TimeEntry.taskId e) taskId)
                       entries
            then Some (Seconds (expectedPerTask from to entries userId taskId))
            else None)
    /\ (forall taskId n,
          inherited taskId = true ->
          JsMap.get taskId (TodaySummary.perTaskTodaySeconds summary)
          <> Some (Seconds n))
    /\ ((forall e, In e entries ->
                   contributesFor from to userId e = true ->
                   inherited (TimeEntry.taskId e) = false) ->
        TodaySummary.totalTodaySeconds summary
        = sumSeconds (TodaySummary.perTaskTodaySeconds summary))
    /\ TodaySummary.completedTasksTodayCount summary
       = Z.of_nat (List.length (filter (countedToday userId from to)
                                       (taskDocs w))).
Proof.
  intros from to entries. eexists. split; [apply getTodaySummary_run|].
  cbn [TodaySummary.totalTodaySeconds TodaySummary.perTaskTodaySeconds
       TodaySummary.completedTasksTodayCount].
  fold from. fold entries.
  set (userEntries :=
         filter (fun entry => String.eqb (TimeEntry.userId entry) userId)
                (filter (TimeEntryRepo.completedInRange from (clock w))
                        entries)).
  assert (Hsplit : forall (q : TimeEntry.t -> bool),
            filter (fun e => positiveDuration e && q e) userEntries
            = filter (fun e => contributesFor from to userId e && q e)
                     entries).
  { intros q. apply positive_of_user. }
  split; [|split; [|split; [|split]]].
  - apply getTodaySummary_total.
  - intros taskId Hk.
    rewrite (fold_addToday_get taskId userEntries (0, JsMap.empty) Hk)
      by discriminate.
    unfold onTask at 1.
    assert (Hex : existsb (fun e => positiveDuration e
                                    && String.eqb (TimeEntry.taskId e) taskId)
                          userEntries
                  = existsb (fun e => contributesFor from to userId e
                                      && String.eqb (TimeEntry.taskId e) taskId)
                            entries).
    { apply eq_true_iff_eq. rewrite !existsb_exists. split.
      - intros (e & Hin & He).
        assert (Hf : In e (filter (fun e => positiveDuration e
                                            && String.eqb (TimeEntry.taskId e)
                                                          taskId)
                                  userEntries))
          by (apply filter_In; now split).
        rewrite Hsplit in Hf. apply filter_In in Hf. now exists e.
      - intros (e & Hin & He).
        assert (Hf : In e (filter (fun e => contributesFor from to userId e
                                            && String.eqb (TimeEntry.taskId e)
                                                          taskId)
                                  entries))
          by (apply filter_In; now split).
        rewrite <- Hsplit in Hf. apply filter_In in Hf. now exists e. }
    rewrite Hex.
    destruct (existsb _ entries); [|reflexivity].
    unfold secondsAt, expectedPerTask, onTask. simpl.
    now rewrite Hsplit.
  - intros taskId n Hk.
    apply (fold_addToday_inherited taskId userEntries (0, JsMap.empty) Hk).
    intros m. discriminate.
  - intros Hplain.
    pose proof (fold_addToday_sum userEntries (0, JsMap.empty)) as Hs.
    simpl in Hs. unfold sumSeconds at 2 in Hs. simpl in Hs.
    assert (H : sumSeconds (snd (fold_left addToday userEntries
                                           (0, JsMap.empty))) - 0
                = fst (fold_left addToday userEntries (0, JsMap.empty)) - 0).
    { apply Hs; [|intros k; discriminate].
      intros e Hin Hp.
      assert (Hf : In e (filter (fun e => positiveDuration e && true)
                                userEntries))
        by (apply filter_In; split; [assumption|now rewrite Hp]).
      rewrite Hsplit in Hf. apply filter_In in Hf as [Hin' Hc].
      apply (Hplain e Hin'). now rewrite andb_true_r in Hc. }
    lia.
  - f_equal. rewrite filter_map_comm, length_map, filter_filter.
    f_equal. apply filter_ext. intros [id d].
    unfold countedToday, completedToday, TaskQuery.toTask,
      TaskRepo.mapDocumentToTask. simpl.
    destruct (TaskQuery.whereAssignee userId (id, d)); simpl; [|reflexivity].
    destruct (TaskStatus_eqb (TaskDoc.status d) DONE); simpl; [|reflexivity].
    now rewrite Z.geb_leb.
Qed.

Section TodayAndReport.

Variable localeCompare : string -> string -> Z.
Variable startOfLocalDay : Date -> Date.

(** X21. The member's summary and the admin's report agree.  When the day
    has started, the report over the range from the start of the day to
    now returns, and the total that it lists for the user is the user's
    [totalTodaySeconds]; where it lists none for the user, the user's
    [totalTodaySeconds] is 0. *)
Theorem getTodaySummary_agrees_with_report (userId : string) (w : World) :
  startOfLocalDay (clock w) <= clock w ->
  exists summary report,
    getTodaySummary startOfLocalDay userId w = (Returned summary, w)
    /\ getTimeTotalsByUser localeCompare (startOfLocalDay (clock w))
                           (clock w) w
       = (Returned report, w)
    /\ (forall n,
          In (TimeTotalByUser.mk userId n) (TimeReportResult.totals report) ->
          n = TodaySummary.totalTodaySeconds summary)
    /\ ((forall n,
           ~ In (TimeTotalByUser.mk userId n)
                (TimeReportResult.totals report)) ->
        TodaySummary.totalTodaySeconds summary = 0).
Proof.
  intros Hday. do 2 eexists.
  split; [apply getTodaySummary_run|].
  split; [apply (getTimeTotalsByUser_run localeCompare _ _ w Hday)|].
  cbn [TodaySummary.totalTodaySeconds TimeReportResult.totals].
  rewrite getTodaySummary_total.
  set (from := startOfLocalDay (clock w)).
  set (es := filter (TimeEntryRepo.completedInRange from (clock w))
                    (JsMap.values (timeEntries w))).
  set (userTotals := fold_left addEntry es JsMap.empty).
  assert (Hu : uniqueKeys userTotals = true).
  { apply fold_addEntry_uniqueKeys. reflexivity. }
  assert (Hget : JsMap.get userId userTotals
                 = if existsb (countsFor userId) es then
                     Some (expectedTotal from (clock w)
                             (JsMap.values (timeEntries w)) userId)
                   else None).
  { unfold userTotals. rewrite fold_addEntry_get. unfold es at 2.
    rewrite sumFor_completed. unfold totalOf. simpl.
    destruct (existsb (countsFor userId) es); reflexivity. }
  assert (Hin : forall n,
            In (TimeTotalByUser.mk userId n)
               (jsSort (compareTotals localeCompare)
                       (map (fun kv => TimeTotalByUser.mk (fst kv) (snd kv))
                            userTotals))
            <-> JsMap.get userId userTotals = Some n).
  { intros n. rewrite jsSort_In, in_map_iff. split.
    - intros ([k v] & Heq & Hin). inversion Heq; subst.
      now apply JsMap_In_get.
    - intros H. exists (userId, n). split; [reflexivity|].
      now apply JsMap_get_In. }
  split.
  - intros n Hn. apply Hin in Hn. rewrite Hget in Hn.
    destruct (existsb (countsFor userId) es); congruence.
  - intros Hnone. destruct (existsb (countsFor userId) es) eqn:Ex.
    + exfalso. apply (Hnone (expectedTotal from (clock w)
                               (JsMap.values (timeEntries w)) userId)).
      apply Hin. exact Hget.
    + rewrite <- (sumFor_completed from (clock w) userId). fold es.
      unfold sumFor. now rewrite (filter_none _ _ Ex).
Qed.

End TodayAndReport.

Lemma getTodaySummary_agrees_witness :
  let w := setClock (ReportSample.jan31 + 3600000) ReportSample.world in
  startOfUtcDay (clock w) <= clock w
  /\ exists summary report,
       getTodaySummary startOfUtcDay "user1" w = (Returned summary, w)
       /\ getTimeTotalsByUser ReportSample.codeUnitCompare
                              (startOfUtcDay (clock w)) (clock w) w
          = (Returned report, w)
       /\ In (TimeTotalByUser.mk "user1" 1860)
             (TimeReportResult.totals report)
       /\ TodaySummary.totalTodaySeconds summary = 1860.
Proof.
  intros w.
  assert (Hday : startOfUtcDay (clock w) <= clock w)
    by (vm_compute; discriminate).
  split; [exact Hday|].
  destruct (getTodaySummary_agrees_with_report
              ReportSample.codeUnitCompare startOfUtcDay "user1" w Hday)
    as (summary & report & Hs & Hr & Hin & _).
  exists summary, report. split; [exact Hs|]. split; [exact Hr|].
  assert (Hlisted : In (TimeTotalByUser.mk "user1" 1860)
                       (TimeReportResult.totals report)).
  { assert (E : fst (getTimeTotalsByUser ReportSample.codeUnitCompare
                       (startOfUtcDay (clock w)) (clock w) w)
                = Returned report) by now rewrite Hr.
    vm_compute in E. inversion E. simpl. auto. }
  split; [exact Hlisted|]. symmetry. now apply Hin.
Defined.

(** ** [completeTask], then [getTodaySummary] *)

Lemma expectedTotal_bounds (from to : Date) (u : string)
    (l : list TimeEntry.t) :
  0 <= expectedTotal from to l u
  /\ forall e,
       In e l -> contributesFor from to u e = true ->
       durationOf e <= expectedTotal from to l u.
Proof.
  unfold expectedTotal. induction l as [|x l [IH0 IH]]; simpl.
  - split; [lia|]. intros e [].
  - destruct (contributesFor from to u x) eqn:Hx; simpl.
    + assert (Hpos : 0 < durationOf x).
      { unfold contributesFor, contributes in Hx.
        destruct (TimeEntry.endTime x); [|discriminate].
        apply andb_true_iff in Hx as [Hx _].
        apply andb_true_iff in Hx as [_ Hx].
        unfold positiveDuration, durationOf in *.
        destruct (TimeEntry.durationSeconds x); [|discriminate]. lia. }
      split; [lia|]. intros e [<-|Hin] He; [lia|].
      specialize (IH e Hin He). lia.
    + split; [assumption|]. intros e [<-|Hin] He; [congruence|].
      now apply IH.
Qed.

Lemma filter_length_pos {A : Type} (p : A -> bool) (x : A) (l : list A) :
  In x l -> p x = true -> (1 <= List.length (filter p l))%nat.
Proof.
  intros Hin Hp.
  assert (H : In x (filter p l)) by (apply filter_In; now split).
  destruct (filter p l); [destruct H|simpl; lia].
Qed.

Lemma assigned_doc (taskId memberId : string) (d : TaskDoc.t) :
  nullable_neq (Task.assigneeUserId (TaskRepo.mapDocumentToTask taskId d))
               memberId = false ->
  TaskDoc.assigneeUserId d = Some memberId.
Proof.
  intros H. apply nullable_neq_false in H. simpl in H.
  destruct (TaskDoc.assigneeUserId d) as [a|]; [|discriminate].
  destruct (String.eqb a EmptyString); [discriminate|assumption].
Qed.

(** X22. After a [completeTask] that returned, in a store keyed by entry
    id, the member's [getTodaySummary] (the day having started) counts at
    least one task completed today.  When the completion stopped a timer
    that was started today, the timer has a duration, and the member's
    [totalTodaySeconds] is at least that duration. *)
Theorem completeTask_then_summary (startOfLocalDay : Date -> Date)
    (taskId memberId : string) (w w' : World) (r : CompleteTaskResult.t) :
  validStore w = true ->
  completeTask taskId memberId w = (Returned r, w') ->
  startOfLocalDay (clock w') <= clock w' ->
  exists summary,
    getTodaySummary startOfLocalDay memberId w' = (Returned summary, w')
    /\ 1 <= TodaySummary.completedTasksTodayCount summary
    /\ forall stopped,
         CompleteTaskResult.stoppedTimeEntry r = Some stopped ->
         startOfLocalDay (clock w') <= TimeEntry.startTime stopped ->
         exists d,
           TimeEntry.durationSeconds stopped = Some d
           /\ 0 <= d <= TodaySummary.totalTodaySeconds summary.
Proof.
  intros Hv Hrun Hday. eexists. split; [apply getTodaySummary_run|].
  cbn [TodaySummary.totalTodaySeconds TodaySummary.completedTasksTodayCount].
  rewrite getTodaySummary_total.
  assert (Hcount : forall d,
            TaskDoc.assigneeUserId d = Some memberId ->
            clock w' = clock w ->
            taskDocs w'
            = JsMap.set taskId
                (TaskRepo.applyPatch (statusPatch DONE) (clock w) d)
                (taskDocs w) ->
            1 <= Z.of_nat
                   (List.length
                      (filter (completedToday (startOfLocalDay (clock w'))
                                              (clock w'))
                              (map TaskQuery.toTask
                                   (filter (TaskQuery.whereAssignee memberId)
                                           (taskDocs w')))))).
  { intros d Ha Hc Hdocs.
    rewrite filter_map_comm, length_map, filter_filter.
    apply (inj_le 1). 
    apply (filter_length_pos _
             (taskId, TaskRepo.applyPatch (statusPatch DONE) (clock w) d)).
    - rewrite Hdocs. apply JsMap_In_set.
    - unfold TaskQuery.whereAssignee, completedToday, TaskQuery.toTask.
      cbn -[String.eqb Z.leb Z.geb]. rewrite Ha, String.eqb_refl.
      cbn -[Z.leb Z.geb]. rewrite Z.geb_leb.
      apply andb_true_iff. split; apply Z.leb_le; lia. }
  destruct (TaskRepo.lookup w taskId) as [task|] eqn:Hl.
  2:{ rewrite (completeTask_not_found _ _ _ Hl) in Hrun. discriminate. }
  destruct (nullable_neq (Task.assigneeUserId task) memberId) eqn:Ha.
  { rewrite (completeTask_forbidden _ _ _ _ Hl Ha) in Hrun. discriminate. }
  destruct (TaskRepo_lookup_doc _ _ _ Hl) as (d & Hd & Htask).
  assert (Hdoc : TaskDoc.assigneeUserId d = Some memberId).
  { apply (assigned_doc taskId). now rewrite <- Htask. }
  assert (Hnone :
            (match TimeEntryRepo.activeOf w memberId with
             | Some e => String.eqb (TimeEntry.taskId e) taskId = false
             | None => True
             end) ->
            1 <= Z.of_nat
                   (List.length
                      (filter (completedToday (startOfLocalDay (clock w'))
                                              (clock w'))
                              (map TaskQuery.toTask
                                   (filter (TaskQuery.whereAssignee memberId)
                                           (taskDocs w')))))
            /\ CompleteTaskResult.stoppedTimeEntry r = None).
  { intros Hact.
    rewrite (completeTask_without_timer _ _ _ _ _ Hd Htask Ha Hact) in Hrun.
    inversion Hrun; subst r w'. split; [|reflexivity].
    apply (Hcount d Hdoc); reflexivity. }
  destruct (TimeEntryRepo.activeOf w memberId) as [e|] eqn:Hact.
  - destruct (String.eqb_spec (TimeEntry.taskId e) taskId) as [Ht|Ht].
    + destruct (Z.ltb_spec (TimeEntry.startTime e) (clock w)) as [Hs|Hs].
      * rewrite (completeTask_with_timer _ _ _ _ _ _ Hd Htask Ha Hv Hact Ht Hs)
          in Hrun.
        inversion Hrun; subst r w'. clear Hrun Hnone.
        split; [apply (Hcount d Hdoc); reflexivity|].
        cbn [CompleteTaskResult.stoppedTimeEntry clock timeEntries] in *.
        intros stopped Hst Hstart. inversion Hst; subst stopped. clear Hst.
        set (s := (clock w - TimeEntry.startTime e) / 1000) in *.
        exists s. split; [reflexivity|].
        set (e' := TimeEntryRepo.applyPatch (stopPatch (clock w) s) (clock w) e)
          in *.
        pose proof (duration_nonneg _ _ Hs) as Hs0. fold s in Hs0.
        pose proof (expectedTotal_bounds (startOfLocalDay (clock w)) (clock w)
                      memberId
                      (JsMap.values (JsMap.set (TimeEntry.id e) e'
                                               (timeEntries w))))
          as [H0 Hle].
        split; [assumption|].
        destruct (Z.eq_dec s 0) as [->|Hpos]; [assumption|].
        assert (Hd' : durationOf e' = s) by reflexivity.
        rewrite <- Hd'. apply Hle; [apply JsMap_In_values_set|].
        destruct (activeOf_some _ _ _ Hact) as (_ & Hu & _).
        unfold contributesFor, contributes, positiveDuration. simpl.
        simpl in Hstart.
        apply andb_true_iff. split; [|now apply String.eqb_eq].
        apply andb_true_iff. split; [|apply Z.gtb_lt; lia].
        apply andb_true_iff. split; apply Z.leb_le; lia.
      * destruct (activeOf_some _ _ _ Hact) as (Hin & Hu & Hend).
        rewrite (completeTask_with_timer_guard _ _ _ _ _ Hl Ha Hv Hact Ht)
          in Hrun; [discriminate|lia].
    + destruct Hnone as [H1 H2]; [reflexivity|].
      split; [exact H1|]. intros stopped Hst. congruence.
  - destruct (Hnone I) as [H1 H2].
    split; [exact H1|]. intros stopped Hst. congruence.
Qed.

Lemma completeTask_then_summary_witness :
  let w := Sample.running in
  validStore w = true
  /\ exists r w' summary,
       completeTask "task1" "member1" w = (Returned r, w')
       /\ startOfUtcDay (clock w') <= clock w'
       /\ getTodaySummary startOfUtcDay "member1" w' = (Returned summary, w')
       /\ 1 <= TodaySummary.completedTasksTodayCount summary
       /\ 90 <= TodaySummary.totalTodaySeconds summary.
Proof.
  intros w. split; [reflexivity|].
  destruct (completeTask "task1" "member1" w) as [[r|m] w'] eqn:Hrun;
    [|vm_compute in Hrun; discriminate].
  assert (Hday : startOfUtcDay (clock w') <= clock w').
  { assert (E : snd (completeTask "task1" "member1" w) = w')
      by now rewrite Hrun.
    rewrite <- E. vm_compute. discriminate. }
  destruct (completeTask_then_summary startOfUtcDay "task1" "member1" w w' r
              eq_refl Hrun Hday) as (summary & Hs & Hc & Ht).
  exists r, w', summary. split; [reflexivity|]. split; [exact Hday|].
  split; [exact Hs|]. split; [exact Hc|].
  assert (Er : fst (completeTask "task1" "member1" w) = Returned r)
    by now rewrite Hrun.
  assert (Ew : snd (completeTask "task1" "member1" w) = w')
    by now rewrite Hrun.
  vm_compute in Er. inversion Er as [Hr]. clear Er.
  destruct (Ht (TimeEntry.mk "e1" "task1" "member1" 1000000 (Some 1090000)
                            (Some 90) 1000000 1090000)) as (d & Hd & Hle).
  - rewrite <- Hr. vm_compute. reflexivity.
  - rewrite <- Ew. vm_compute. discriminate.
  - vm_compute in Hd. inversion Hd; subst d. lia.
Defined.

(** ** The task controller: [update] *)

Lemma countType_types (type : ActivityType) (l : list Activity.t) :
  countType type l
  = List.length (filter (fun t => ActivityType_eqb t type)
                        (map Activity.type l)).
Proof.
  unfold countType. now rewrite filter_map_comm, length_map.
Qed.

(** X23. [taskController.update] always hands a due date to the service.
    For an ADMIN, a body that the DTO accepts and a stored task, it
    answers 200 with the saved task, whose due date is the date of the
    body, and [null] where the body has none (absent, [null] or empty):
    an update of other fields alone clears the due date of the task.
    Every such update logs exactly one TASK_DUE_DATE_CHANGED.  A title
    that the body leaves out stays as stored. *)
Theorem taskController_update_due_date (req : TaskRequest.t) (w : World)
    (u : AuthUser) (d : TaskDoc.t) :
  let dto := TaskRequest.body req in
  isAdmin (TaskRequest.user req) = Some u ->
  UpdateTaskDTO_validate (UpdateTaskBody.title dto)
    (UpdateTaskBody.description dto) (UpdateTaskBody.tags dto) = valid ->
  JsMap.get (TaskRequest.paramsId req) (taskDocs w) = Some d ->
  exists updated w',
    taskController_update req w
    = (TaskResponse.mk 200 (TaskJson updated), w')
    /\ TaskRepo.lookup w' (TaskRequest.paramsId req) = Some updated
    /\ Task.dueDate updated = dueDateOf (UpdateTaskBody.dueDate dto)
    /\ (UpdateTaskBody.title dto = None ->
        Task.title updated = TaskDoc.title d)
    /\ countType TASK_DUE_DATE_CHANGED (emitted w w') = 1%nat.
Proof.
  intros dto Hadmin Hvalid Hd.
  destruct (updateTaskAsAdmin_run (TaskRequest.paramsId req) (updatesOf dto)
              (uid u) w d Hd) as (w' & Hrun & Hdocs & _ & Htypes).
  do 2 eexists. split.
  { unfold taskController_update. fold dto. rewrite Hadmin, Hvalid, Hrun.
    reflexivity. }
  split; [now apply (TaskRepo_lookup_set w)|].
  split; [|split].
  - simpl. now destruct (UpdateTaskBody.dueDate dto).
  - intros Ht. simpl. now rewrite Ht.
  - rewrite countType_types, Htypes. clear Hrun Hdocs Htypes Hvalid.
    unfold updatesOf.
    cbn [TaskPatch.status TaskPatch.assigneeUserId TaskPatch.priority
         TaskPatch.tags TaskPatch.dueDate].
    rewrite !filter_app, !length_app.
    destruct (UpdateTaskBody.status dto), (UpdateTaskBody.assigneeUserId dto),
      (UpdateTaskBody.priority dto), (UpdateTaskBody.tags dto);
      repeat match goal with
             | |- context [negb ?b] => destruct b; cbn [negb]
             end;
      reflexivity.
Qed.

Lemma taskController_update_due_date_witness :
  let body :=
    UpdateTaskBody.mk (Some "Write the report") None None None None
                      DueAbsent None in
  let req := TaskRequest.mk (Some (mkAuthUser "admin1" ADMIN)) "task2" body in
  exists existing updated w',
    TaskRepo.lookup Sample.idle "task2" = Some existing
    /\ Task.dueDate existing = Some 86400000
    /\ taskController_update req Sample.idle
       = (TaskResponse.mk 200 (TaskJson updated), w')
    /\ Task.dueDate updated = None
    /\ countType TASK_DUE_DATE_CHANGED (emitted Sample.idle w') = 1%nat.
Proof.
  intros body req.
  destruct (taskController_update_due_date req Sample.idle
              (mkAuthUser "admin1" ADMIN)
              (Sample.doc (Some "member1") (Some 86400000) ["a"; "b"])
              eq_refl eq_refl eq_refl)
    as (updated & w' & Hrun & _ & Hdue & _ & Hcount).
  exists (TaskRepo.mapDocumentToTask "task2"
            (Sample.doc (Some "member1") (Some 86400000) ["a"; "b"])),
         updated, w'.
  split; [reflexivity|]. split; [reflexivity|]. split; [exact Hrun|].
  split; [exact Hdue|exact Hcount].
Defined.
